(** * SSTS: a shallow embedding of the stress-testing core

    The development follows the Go packages of the repository:
    [models] (pkg/models), [safety] (internal/safety/monitor.go),
    [metrics] (the collector), [plugins] (the three workload plugins and the
    plugin manager) and [core] (the test orchestrator and the [Orchestrator]
    around it); [collecting] adds the start and stop of the collector and
    [system_monitor] the system monitor shipped in internal/safety.

    Conventions.
    - [float64] is the kernel's binary64 float, so comparisons such as
      [cpuUsage > limits.MaxCPUPercent] keep their IEEE meaning (NaN included).
    - [time.Time] and [time.Duration] are integers counting nanoseconds.
      Every call of [time.Now()] in the source is an explicit argument of the
      embedded function (the reading the clock returned at that call).
    - A Go [error] is an element of [error]; a nil error is [None].
    - [fmt.Sprintf] is kept as the format string with its arguments. *)

From Stdlib Require Import ZArith List String Ascii Bool Lia.
From Stdlib Require Import Floats.PrimFloat Floats.SpecFloat Floats.FloatOps.
From Stdlib Require Import Numbers.Cyclic.Int63.Uint63.
From stdpp Require Import base gmap strings list pretty.

#[local] Open Scope string_scope.
#[local] Open Scope list_scope.
#[local] Open Scope Z_scope.

(** ** Base types shared by the packages *)

Abbreviation float64 := PrimFloat.float.

(** [a > b], [a < b] and [a <= b] on float64, as Go compiles them. *)
Definition fgt (a b : float64) : bool := PrimFloat.ltb b a.
Definition flt (a b : float64) : bool := PrimFloat.ltb a b.
Definition fle (a b : float64) : bool := PrimFloat.leb a b.

(** [float64(z)] for an integer of magnitude below 2^63. *)
Definition float64_of_Z (z : Z) : float64 :=
  if z <? 0 then PrimFloat.opp (PrimFloat.of_uint63 (Uint63.of_Z (- z)))
  else PrimFloat.of_uint63 (Uint63.of_Z z).

Definition Time := Z.
Definition Duration := Z.

Definition Millisecond : Duration := 1000000.
Definition Second : Duration := 1000 * Millisecond.
Definition Minute : Duration := 60 * Second.
Definition Hour : Duration := 60 * Minute.

(** [t.After(u)] and [t.Before(u)]. *)
Definition After (t u : Time) : bool := u <? t.
Definition Before (t u : Time) : bool := t <? u.

(** [fmt.Sprintf(format, args...)], not rendered: the format string with
    its arguments in order.  [ArgText] is an argument that is itself a
    formatted text (a [%s] or [%v] of a message built earlier). *)
#[local] Unset Elimination Schemes.
Inductive Formatted :=
| Sprintf (format : string) (args : list Arg)
with Arg :=
| ArgFloat (f : float64)
| ArgInt (z : Z)
| ArgStr (s : string)
| ArgText (t : Formatted).

(** Go [error] values.  [Errorf format args wrapped] is
    [fmt.Errorf(format, args..., wrapped)] where the last verb is [%w] when
    [wrapped] is present. *)
Inductive error :=
| ContextCanceled
| ContextDeadlineExceeded
| ErrPluginNotFound
| ErrorNew (msg : string)
| Errorf (format : string) (args : list Arg) (wrapped : option error).
#[local] Set Elimination Schemes.

(** [err.Error()]. *)
Fixpoint Error (e : error) : Formatted :=
  match e with
  | ContextCanceled => Sprintf "context canceled" []
  | ContextDeadlineExceeded => Sprintf "context deadline exceeded" []
  | ErrPluginNotFound => Sprintf "plugin not found" []
  | ErrorNew msg => Sprintf msg []
  | Errorf format args wrapped =>
      Sprintf format
        (args ++ match wrapped with
                 | Some w => [ArgText (Error w)]
                 | None => []
                 end)
  end.

(** Go's [(T, error)] result pair. *)
Inductive result (A : Type) :=
| Ok (a : A)
| Err (e : error).
Arguments Ok {A} a.
Arguments Err {A} e.

(** int64 arithmetic: values wrap around modulo 2^64. *)
Definition int64_min : Z := - 2 ^ 63.
Definition int64_max : Z := 2 ^ 63 - 1.
Definition wrap64 (z : Z) : Z := (z + 2 ^ 63) mod 2 ^ 64 - 2 ^ 63.

(** [t.Sub(u)]: the difference, saturated to the range of a Duration. *)
Definition Sub (t u : Time) : Duration :=
  let d := t - u in
  if int64_max <? d then int64_max
  else if d <? int64_min then int64_min
  else d.

(** ** pkg/models *)
Module models.

Inductive ExecutionStatus :=
| StatusPending
| StatusRunning
| StatusCompleted
| StatusFailed
| StatusStopped.

#[export] Instance ExecutionStatus_eq_dec : EqDecision ExecutionStatus.
Proof. solve_decision. Defined.

Definition ExecutionStatus_string (s : ExecutionStatus) : string :=
  match s with
  | StatusPending => "pending"
  | StatusRunning => "running"
  | StatusCompleted => "completed"
  | StatusFailed => "failed"
  | StatusStopped => "stopped"
  end.

Record SafetyLimits := {
  MaxCPUPercent : float64;
  MaxMemoryPercent : float64;
  MaxDiskPercent : float64;
  MaxNetworkMbps : float64
}.

Record TestParams := {
  Duration_ : Duration;
  Intensity : Z;
  Concurrency : Z
}.

(** [models.TestExecution], the fields the orchestrator fills in when it
    reports on an execution. *)
Record TestExecution := {
  te_ID : string;
  te_TestID : string;
  te_Status : ExecutionStatus;
  te_StartTime : option Time;
  te_EndTime : option Time;
  te_Duration : Duration;
  te_ErrorMessage : option Formatted
}.

End models.

(** ** internal/safety: the safety monitor *)
Module safety.
Import models.

Inductive Severity :=
| SeverityInfo
| SeverityWarning
| SeverityError
| SeverityCritical.

#[export] Instance Severity_eq_dec : EqDecision Severity.
Proof. solve_decision. Defined.

Record Violation := {
  v_Type : string;
  v_CurrentValue : float64;
  v_Limit : float64;
  v_Severity : Severity;
  v_Message : Formatted;
  v_Timestamp : Time;
  v_Critical : bool
}.

(** The [Metadata] map of an alert always has the same three keys. *)
Record Alert := {
  a_Type : string;
  a_Message : Formatted;
  a_Severity : Severity;
  a_Timestamp : Time;
  a_current_value : float64;
  a_limit : float64;
  a_critical : bool
}.

Record Config := {
  CheckInterval : Duration;
  AlertThreshold : float64;
  EmergencyThreshold : float64;
  AutoStopEnabled : bool;
  RampUpEnabled : bool;
  RampUpDuration : Duration;
  RampUpSteps : Z;
  CooldownPeriod : Duration;
  MaxViolationsPerMin : Z
}.

(** The [SystemMonitor] interface.  An implementation has a state of its
    own (the real one keeps the last CPU counters), so every accessor
    returns the reading together with the next state. *)
Class SystemMonitor (S : Type) := {
  GetCPUUsage : S -> result float64 * S;
  GetMemoryUsage : S -> result float64 * S;
  GetDiskUsage : S -> result float64 * S;
  GetNetworkUsage : S -> result float64 * S;
  GetSystemTemperature : S -> result float64 * S
}.

Inductive Level := LevelWarn | LevelError.

(** The monitor.  [alertManager] holds the alerts handed to
    [AlertManager.SendAlert] (the shipped implementation logs the alert and
    returns nil); [emergencyStop] is the content of the buffered channel,
    oldest first; [logger] the lines the monitor logs itself.
    [stopRequests] is a history variable, absent from the source: the
    reasons passed to [sendEmergencyStop], in call order, whether or not
    the channel had room. *)
Record Monitor (S : Type) := {
  systemMonitor : S;
  alertManager : list Alert;
  config : Config;
  emergencyStop : list Formatted;
  violations : list Violation;
  logger : list (Level * string);
  stopRequests : list Formatted
}.
Arguments systemMonitor {S} _.
Arguments alertManager {S} _.
Arguments config {S} _.
Arguments emergencyStop {S} _.
Arguments violations {S} _.
Arguments logger {S} _.
Arguments stopRequests {S} _.

(** Capacity of [make(chan string, 10)]. *)
Definition emergencyStop_cap : nat := 10.

Section Monitor.
Context {S : Type} `{SystemMonitor S}.

Definition set_systemMonitor (s : S) (m : Monitor S) : Monitor S :=
  {| systemMonitor := s; alertManager := alertManager m; config := config m;
     emergencyStop := emergencyStop m; violations := violations m;
     logger := logger m; stopRequests := stopRequests m |}.

Definition alert_of (violation : Violation) : Alert :=
  {| a_Type := v_Type violation;
     a_Message := v_Message violation;
     a_Severity := v_Severity violation;
     a_Timestamp := v_Timestamp violation;
     a_current_value := v_CurrentValue violation;
     a_limit := v_Limit violation;
     a_critical := v_Critical violation |}.

(** [recordViolation]: append, keep the last hour, send the alert, log.
    [now] is the clock reading taken for the cutoff. *)
Definition recordViolation (violation : Violation) (now : Time) (m : Monitor S)
  : Monitor S :=
  let appended := violations m ++ [violation] in
  let cutoff := now - Hour in
  let filtered := List.filter (fun v => After (v_Timestamp v) cutoff) appended in
  {| systemMonitor := systemMonitor m;
     alertManager := alertManager m ++ [alert_of violation];
     config := config m;
     emergencyStop := emergencyStop m;
     violations := filtered;
     logger := logger m ++ [(LevelWarn, "Safety violation recorded")];
     stopRequests := stopRequests m |}.

(** [getRecentViolations]: the recorded violations whose timestamp is
    after [now - duration]; severity plays no part. *)
Definition getRecentViolations (duration : Duration) (now : Time) (m : Monitor S)
  : list Violation :=
  let cutoff := now - duration in
  List.filter (fun v => After (v_Timestamp v) cutoff) (violations m).

(** [sendEmergencyStop]: a non-blocking send on the buffered channel. *)
Definition sendEmergencyStop (reason : Formatted) (m : Monitor S) : Monitor S :=
  if (length (emergencyStop m) <? emergencyStop_cap)%nat then
    {| systemMonitor := systemMonitor m; alertManager := alertManager m;
       config := config m;
       emergencyStop := emergencyStop m ++ [reason];
       violations := violations m;
       logger := logger m ++ [(LevelError, "Emergency stop triggered")];
       stopRequests := stopRequests m ++ [reason] |}
  else
    {| systemMonitor := systemMonitor m; alertManager := alertManager m;
       config := config m;
       emergencyStop := emergencyStop m;
       violations := violations m;
       logger := logger m
         ++ [(LevelWarn, "Emergency stop channel full, dropping signal")];
       stopRequests := stopRequests m ++ [reason] |}.

(** The severity ladder written out three times in [CheckSafetyLimits]
    (CPU, memory, disk). *)
Definition usage_severity (cfg : Config) (usage : float64) : Severity :=
  if fgt usage (EmergencyThreshold cfg) then SeverityCritical
  else if fgt usage (AlertThreshold cfg) then SeverityError
  else SeverityWarning.

Definition cpu_violation (cfg : Config) (limits : SafetyLimits)
    (cpuUsage : float64) (now : Time) : Violation :=
  {| v_Type := "cpu";
     v_CurrentValue := cpuUsage;
     v_Limit := MaxCPUPercent limits;
     v_Severity := usage_severity cfg cpuUsage;
     v_Message := Sprintf "CPU usage %.1f%% exceeds limit %.1f%%"
                    [ArgFloat cpuUsage; ArgFloat (MaxCPUPercent limits)];
     v_Timestamp := now;
     v_Critical := fgt cpuUsage (EmergencyThreshold cfg) |}.

Definition memory_violation (cfg : Config) (limits : SafetyLimits)
    (memUsage : float64) (now : Time) : Violation :=
  {| v_Type := "memory";
     v_CurrentValue := memUsage;
     v_Limit := MaxMemoryPercent limits;
     v_Severity := usage_severity cfg memUsage;
     v_Message := Sprintf "Memory usage %.1f%% exceeds limit %.1f%%"
                    [ArgFloat memUsage; ArgFloat (MaxMemoryPercent limits)];
     v_Timestamp := now;
     v_Critical := fgt memUsage (EmergencyThreshold cfg) |}.

Definition disk_violation (cfg : Config) (limits : SafetyLimits)
    (diskUsage : float64) (now : Time) : Violation :=
  {| v_Type := "disk";
     v_CurrentValue := diskUsage;
     v_Limit := MaxDiskPercent limits;
     v_Severity := usage_severity cfg diskUsage;
     v_Message := Sprintf "Disk usage %.1f%% exceeds limit %.1f%%"
                    [ArgFloat diskUsage; ArgFloat (MaxDiskPercent limits)];
     v_Timestamp := now;
     v_Critical := fgt diskUsage (EmergencyThreshold cfg) |}.

Definition network_violation (limits : SafetyLimits)
    (netUsage : float64) (now : Time) : Violation :=
  {| v_Type := "network";
     v_CurrentValue := netUsage;
     v_Limit := MaxNetworkMbps limits;
     v_Severity :=
       if fgt netUsage (PrimFloat.mul (MaxNetworkMbps limits) 2%float)
       then SeverityError else SeverityWarning;
     v_Message := Sprintf "Network usage %.1f Mbps exceeds limit %.1f Mbps"
                    [ArgFloat netUsage; ArgFloat (MaxNetworkMbps limits)];
     v_Timestamp := now;
     v_Critical := false |}.

(** A reading breaches its limit when the accessor succeeded and the
    value is strictly above the limit. *)
Definition breach (r : result float64) (limit : float64) : option float64 :=
  match r with
  | Ok usage => if fgt usage limit then Some usage else None
  | Err _ => None
  end.

(** The first limit breached in the order CPU, memory, disk, network, as a
    violation type; the readings are those of the four accessors called one
    after the other. *)
Definition first_breach_type (limits : SafetyLimits)
    (cpu mem disk net : result float64) : option string :=
  match breach cpu (MaxCPUPercent limits) with
  | Some _ => Some "cpu"
  | None =>
  match breach mem (MaxMemoryPercent limits) with
  | Some _ => Some "memory"
  | None =>
  match breach disk (MaxDiskPercent limits) with
  | Some _ => Some "disk"
  | None =>
  match breach net (MaxNetworkMbps limits) with
  | Some _ => Some "network"
  | None => None
  end end end end.

(** [CheckSafetyLimits].  [now] is the reading used for the violation's
    timestamp, [now_rec] the one [recordViolation] takes for its cutoff. *)
Definition CheckSafetyLimits (limits : SafetyLimits) (now now_rec : Time)
    (m : Monitor S) : option Violation * Monitor S :=
  let cfg := config m in
  let '(cpu, s1) := GetCPUUsage (systemMonitor m) in
  let m1 := set_systemMonitor s1 m in
  match breach cpu (MaxCPUPercent limits) with
  | Some cpuUsage =>
      let violation := cpu_violation cfg limits cpuUsage now in
      (Some violation, recordViolation violation now_rec m1)
  | None =>
  let '(mem, s2) := GetMemoryUsage s1 in
  let m2 := set_systemMonitor s2 m1 in
  match breach mem (MaxMemoryPercent limits) with
  | Some memUsage =>
      let violation := memory_violation cfg limits memUsage now in
      (Some violation, recordViolation violation now_rec m2)
  | None =>
  let '(disk, s3) := GetDiskUsage s2 in
  let m3 := set_systemMonitor s3 m2 in
  match breach disk (MaxDiskPercent limits) with
  | Some diskUsage =>
      let violation := disk_violation cfg limits diskUsage now in
      (Some violation, recordViolation violation now_rec m3)
  | None =>
  let '(net, s4) := GetNetworkUsage s3 in
  let m4 := set_systemMonitor s4 m3 in
  match breach net (MaxNetworkMbps limits) with
  | Some netUsage =>
      let violation := network_violation limits netUsage now in
      (Some violation, recordViolation violation now_rec m4)
  | None => (None, m4)
  end end end end.


(** What the Go runtime reports through [runtime.ReadMemStats]. *)
Record MemStats := { Sys : Z; HeapAlloc : Z }.

(** The clock readings of one tick of [performSafetyCheck], in the order
    of the [time.Now()] calls that can happen in it. *)
Record TickClock := {
  now_temp : Time;
  now_temp_rec : Time;
  now_rate : Time;
  now_mem : Time;
  now_mem_rec : Time
}.

Definition temperature_violation (temp : float64) (now : Time) : Violation :=
  {| v_Type := "temperature";
     v_CurrentValue := temp;
     v_Limit := 85%float;
     v_Message := Sprintf "System temperature %.1f°C is too high" [ArgFloat temp];
     v_Timestamp := now;
     v_Severity := SeverityCritical;
     v_Critical := fgt temp 90%float |}.

Definition critical_temperature_reason (temp : float64) : Formatted :=
  Sprintf "Critical temperature: %.1f°C" [ArgFloat temp].

Definition too_many_violations_reason (n : nat) : Formatted :=
  Sprintf "Too many violations: %d in last minute" [ArgInt (Z.of_nat n)].

(** First block of [performSafetyCheck]: "Check system health". *)
Definition checkTemperature (clk : TickClock) (m : Monitor S) : Monitor S :=
  let '(r, s1) := GetSystemTemperature (systemMonitor m) in
  let m1 := set_systemMonitor s1 m in
  match r with
  | Ok temp =>
      if fgt temp 85%float then
        let violation := temperature_violation temp (now_temp clk) in
        let m2 := recordViolation violation (now_temp_rec clk) m1 in
        if v_Critical violation
        then sendEmergencyStop (critical_temperature_reason temp) m2
        else m2
      else m1
  | Err _ => m1
  end.

(** Second block: "Check violation rate". *)
Definition checkViolationRate (clk : TickClock) (m : Monitor S) : Monitor S :=
  let recentViolations := getRecentViolations (1 * Minute) (now_rate clk) m in
  if MaxViolationsPerMin (config m) <? Z.of_nat (length recentViolations)
  then sendEmergencyStop (too_many_violations_reason (length recentViolations)) m
  else m.

Definition memory_pressure_violation (memStats : MemStats) (now : Time) : Violation :=
  {| v_Type := "memory_pressure";
     v_CurrentValue :=
       PrimFloat.mul
         (PrimFloat.div (float64_of_Z (HeapAlloc memStats))
                        (float64_of_Z (Sys memStats)))
         100%float;
     v_Limit := 50%float;
     v_Message := Sprintf "High memory pressure detected" [];
     v_Timestamp := now;
     v_Severity := SeverityWarning;
     v_Critical := false |}.

(** Third block: "Check memory pressure". *)
Definition checkMemoryPressure (clk : TickClock) (memStats : MemStats)
    (m : Monitor S) : Monitor S :=
  if 2 * 1024 * 1024 * 1024 <? Sys memStats then
    if Sys memStats / 2 <? HeapAlloc memStats then
      recordViolation (memory_pressure_violation memStats (now_mem clk))
                      (now_mem_rec clk) m
    else m
  else m.

Definition performSafetyCheck (clk : TickClock) (memStats : MemStats)
    (m : Monitor S) : Monitor S :=
  checkMemoryPressure clk memStats (checkViolationRate clk (checkTemperature clk m)).

(** [IsInCooldownPeriod]: the one place that looks at severities. *)
Definition IsInCooldownPeriod (now : Time) (m : Monitor S) : bool :=
  existsb (fun violation =>
             bool_decide (v_Severity violation = SeverityError)
             || bool_decide (v_Severity violation = SeverityCritical))
          (getRecentViolations (CooldownPeriod (config m)) now m).

(** [GetViolations]: a copy of the record. *)
Definition GetViolations (m : Monitor S) : list Violation := violations m.

Record SystemHealth := {
  CPUUsage : float64;
  MemoryUsage : float64;
  DiskUsage : float64;
  Temperature : float64
}.

Record SafetyStatus := {
  Overall : string;
  RecentViolations : Z;
  LastViolation : option Violation;
  SystemHealth_ : SystemHealth;
  status_Timestamp : Time
}.

(** [getSystemHealth]: CPU, memory, disk and temperature are read in this
    order (the network is not); a failed accessor leaves its field at
    zero. *)
Definition getSystemHealth (m : Monitor S) : SystemHealth * Monitor S :=
  let reading (r : result float64) :=
    match r with Ok x => x | Err _ => 0%float end in
  let '(cpu, s1) := GetCPUUsage (systemMonitor m) in
  let '(mem, s2) := GetMemoryUsage s1 in
  let '(disk, s3) := GetDiskUsage s2 in
  let '(temp, s4) := GetSystemTemperature s3 in
  ({| CPUUsage := reading cpu; MemoryUsage := reading mem;
      DiskUsage := reading disk; Temperature := reading temp |},
   set_systemMonitor s4 m).

(** [GetSafetyStatus].  [now_recent] is the clock reading taken by
    [getRecentViolations], [now] the one of the status's timestamp. *)
Definition GetSafetyStatus (now_recent now : Time) (m : Monitor S)
  : SafetyStatus * Monitor S :=
  let recentViolations := getRecentViolations (5 * Minute) now_recent m in
  let '(health, m') := getSystemHealth m in
  let n := Z.of_nat (length recentViolations) in
  let overall :=
    if 0 <? n then (if 3 <? n then "degraded" else "warning") else "healthy" in
  let overall :=
    if existsb v_Critical recentViolations then "critical" else overall in
  ({| Overall := overall;
      RecentViolations := n;
      LastViolation := last recentViolations;
      SystemHealth_ := health;
      status_Timestamp := now |}, m').

End Monitor.

(** [NewMonitor]: zero-valued settings take their defaults. *)
Definition fzero (f : float64) : bool := PrimFloat.eqb f 0%float.

Definition NewMonitor {S : Type} (sm : S) (cfg : Config) : Monitor S :=
  let cfg' :=
    {| CheckInterval := if CheckInterval cfg =? 0 then 1 * Second else CheckInterval cfg;
       AlertThreshold := if fzero (AlertThreshold cfg) then 85%float else AlertThreshold cfg;
       EmergencyThreshold :=
         if fzero (EmergencyThreshold cfg) then 95%float else EmergencyThreshold cfg;
       AutoStopEnabled := AutoStopEnabled cfg;
       RampUpEnabled := RampUpEnabled cfg;
       RampUpDuration :=
         if RampUpDuration cfg =? 0 then 30 * Second else RampUpDuration cfg;
       RampUpSteps := if RampUpSteps cfg =? 0 then 10 else RampUpSteps cfg;
       CooldownPeriod :=
         if CooldownPeriod cfg =? 0 then 60 * Second else CooldownPeriod cfg;
       MaxViolationsPerMin :=
         if MaxViolationsPerMin cfg =? 0 then 5 else MaxViolationsPerMin cfg |} in
  {| systemMonitor := sm; alertManager := []; config := cfg';
     emergencyStop := []; violations := []; logger := []; stopRequests := [] |}.

End safety.

(** ** internal/metrics: the collector *)
Module metrics.

(** [SystemMetrics], its anonymous sub-structs flattened. *)
Record SystemMetrics := {
  Timestamp : Time;
  CPU_Usage : float64;
  CPU_Cores : Z;
  Memory_Total : Z;
  Memory_Used : Z;
  Memory_Available : Z;
  Memory_Usage : float64;
  Disk_Total : Z;
  Disk_Used : Z;
  Disk_Free : Z;
  Disk_Usage : float64;
  Network_BytesSent : Z;
  Network_BytesRecv : Z
}.

(** The zero value [var metrics SystemMetrics]; the zero [time.Time] is
    written 0 here. *)
Definition zero_SystemMetrics : SystemMetrics :=
  {| Timestamp := 0; CPU_Usage := 0%float; CPU_Cores := 0;
     Memory_Total := 0; Memory_Used := 0; Memory_Available := 0;
     Memory_Usage := 0%float;
     Disk_Total := 0; Disk_Used := 0; Disk_Free := 0; Disk_Usage := 0%float;
     Network_BytesSent := 0; Network_BytesRecv := 0 |}.

(** What gopsutil returns. *)
Record VirtualMemoryStat := {
  vm_Total : Z; vm_Used : Z; vm_Available : Z; vm_UsedPercent : float64
}.
Record UsageStat := {
  du_Total : Z; du_Used : Z; du_Free : Z; du_UsedPercent : float64
}.
Record IOCountersStat := { io_BytesSent : Z; io_BytesRecv : Z }.

(** The results of the five probe calls of one tick:
    [cpu.Percent], [cpu.Counts], [mem.VirtualMemory], [disk.Usage] and
    [net.IOCounters]. *)
Record Probe := {
  cpu_Percent : result (list float64);
  cpu_Counts : result Z;
  mem_VirtualMemory : result VirtualMemoryStat;
  disk_Usage : result UsageStat;
  net_IOCounters : result (list IOCountersStat)
}.

Record Collector := {
  metrics_ : SystemMetrics;
  isCollecting : bool
}.

Definition NewCollector : Collector :=
  {| metrics_ := zero_SystemMetrics; isCollecting := false |}.

Definition GetMetrics (c : Collector) : SystemMetrics := metrics_ c.

(** The snapshot [collectSystemMetrics] builds: it starts from the zero
    value, stamps it, and fills in the group of every call that
    succeeded. *)
Definition sample (now : Time) (p : Probe) : SystemMetrics :=
  let cpu_usage :=
    match cpu_Percent p with
    | Ok (x :: _) => x
    | _ => 0%float
    end in
  let cpu_cores :=
    match cpu_Counts p with
    | Ok n => n
    | Err _ => 0
    end in
  let '(mt, mu, ma, mp) :=
    match mem_VirtualMemory p with
    | Ok s => (vm_Total s, vm_Used s, vm_Available s, vm_UsedPercent s)
    | Err _ => (0, 0, 0, 0%float)
    end in
  let '(dt, du, df, dp) :=
    match disk_Usage p with
    | Ok s => (du_Total s, du_Used s, du_Free s, du_UsedPercent s)
    | Err _ => (0, 0, 0, 0%float)
    end in
  let '(sent, recv) :=
    match net_IOCounters p with
    | Ok (s :: _) => (io_BytesSent s, io_BytesRecv s)
    | _ => (0, 0)
    end in
  {| Timestamp := now; CPU_Usage := cpu_usage; CPU_Cores := cpu_cores;
     Memory_Total := mt; Memory_Used := mu; Memory_Available := ma;
     Memory_Usage := mp;
     Disk_Total := dt; Disk_Used := du; Disk_Free := df; Disk_Usage := dp;
     Network_BytesSent := sent; Network_BytesRecv := recv |}.

(** [collectSystemMetrics]: one tick of the collect loop. *)
Definition collectSystemMetrics (now : Time) (p : Probe) (c : Collector) : Collector :=
  let metrics := sample now p in
  {| metrics_ := metrics; isCollecting := isCollecting c |}.

(** A tick on which at least one probe call returned an error. *)
Definition probe_failed (p : Probe) : bool :=
  match cpu_Percent p, cpu_Counts p, mem_VirtualMemory p, disk_Usage p,
        net_IOCounters p with
  | Ok _, Ok _, Ok _, Ok _, Ok _ => false
  | _, _, _, _, _ => true
  end.

End metrics.

(** ** Go library functions used by the plugins *)
Module golib.

(** *** package strings, on ASCII text *)

Definition upper (c : ascii) : ascii :=
  let n := nat_of_ascii c in
  if ((97 <=? n) && (n <=? 122))%nat then ascii_of_nat (n - 32) else c.

Fixpoint ToUpper (s : string) : string :=
  match s with
  | EmptyString => EmptyString
  | String c r => String (upper c) (ToUpper r)
  end.

(** White space as [unicode.IsSpace] sees it below 128. *)
Definition isSpace (c : ascii) : bool :=
  let n := nat_of_ascii c in
  ((9 <=? n) && (n <=? 13) || (n =? 32))%nat.

Fixpoint trimLeft (s : string) : string :=
  match s with
  | EmptyString => EmptyString
  | String c r => if isSpace c then trimLeft r else s
  end.

Fixpoint rev_append (s acc : string) : string :=
  match s with
  | EmptyString => acc
  | String c r => rev_append r (String c acc)
  end.

Definition reverse (s : string) : string := rev_append s EmptyString.

Definition TrimSpace (s : string) : string :=
  reverse (trimLeft (reverse (trimLeft s))).

Definition HasSuffix (s suffix : string) : bool :=
  String.prefix (reverse suffix) (reverse s).

Definition TrimSuffix (s suffix : string) : string :=
  if HasSuffix s suffix
  then String.substring 0 (String.length s - String.length suffix) s
  else s.

(** [strings.EqualFold] on ASCII: how encoding/json matches an object key
    with a struct tag when the exact spelling differs. *)
Definition EqualFold (a b : string) : bool := String.eqb (ToUpper a) (ToUpper b).

(** *** path/filepath, with the separator of Unix *)

(** The elements of a path, between its separators. *)
Fixpoint elements (path current : string) : list string :=
  match path with
  | EmptyString => [current]
  | String "/" rest => current :: elements rest EmptyString
  | String c rest => elements rest (current +:+ String c EmptyString)
  end.

(** One element more for [Clean], [kept] being the elements kept so far,
    the last one first: an empty element and "." are dropped, ".." takes
    the element before it away (at the root it is dropped, and at the
    start of a relative path it stays). *)
Definition clean_element (rooted : bool) (kept : list string) (element : string)
  : list string :=
  if String.eqb element EmptyString || String.eqb element "." then kept
  else if String.eqb element ".." then
    match kept with
    | previous :: before =>
        if String.eqb previous ".." then element :: kept else before
    | [] => if rooted then [] else [element]
    end
  else element :: kept.

(** [filepath.Clean]. *)
Definition Clean (path : string) : string :=
  let rooted := String.prefix "/" path in
  let kept := rev (fold_left (clean_element rooted) (elements path EmptyString) []) in
  let body := String.concat "/" kept in
  if rooted then "/" +:+ body
  else if String.eqb body EmptyString then "." else body.

(** [filepath.Join(dir, name)]. *)
Definition Join (dir name : string) : string :=
  if String.eqb dir EmptyString then
    if String.eqb name EmptyString then EmptyString else Clean name
  else Clean (dir +:+ "/" +:+ name).

(** *** strconv.ParseInt(s, 10, 64) *)

Definition digit (c : ascii) : option Z :=
  let n := nat_of_ascii c in
  if ((48 <=? n) && (n <=? 57))%nat then Some (Z.of_nat n - 48) else None.

Fixpoint digits (s : string) (acc : Z) : option Z :=
  match s with
  | EmptyString => Some acc
  | String c r =>
      match digit c with
      | Some d => digits r (10 * acc + d)
      | None => None
      end
  end.

Definition syntaxError (s : string) : error :=
  Errorf "strconv.ParseInt: parsing %q: invalid syntax" [ArgStr s] None.
Definition rangeError (s : string) : error :=
  Errorf "strconv.ParseInt: parsing %q: value out of range" [ArgStr s] None.

Definition ParseInt (s : string) : result Z :=
  let '(neg, body) :=
    match s with
    | String "+" r => (false, r)
    | String "-" r => (true, r)
    | _ => (false, s)
    end in
  match body with
  | EmptyString => Err (syntaxError s)
  | _ =>
      match digits body 0 with
      | None => Err (syntaxError s)
      | Some n =>
          let v := if neg then - n else n in
          if (int64_min <=? v) && (v <=? int64_max) then Ok v
          else Err (rangeError s)
      end
  end.

(** *** Values of [interface{}] and JSON texts, as far as the plugin
    configurations need them

    One type serves for both.  As a value of [interface{}], [JInt] is a Go
    integer and [JFloat] a float64; as a JSON text, [JInt] is a number
    written without fraction or exponent and [JFloat] any other number,
    given by the float64 it denotes. *)

Inductive JValue :=
| JNull
| JBool (b : bool)
| JInt (z : Z)
| JFloat (f : float64)
| JString (s : string)
| JOther.               (* an array or a nested object *)

(** The [interface{}] handed to [Initialize], or a JSON text: nil (null),
    a map with string keys (a JSON object) given by its members, or
    something else.  In a Go map a key occurs once: of two members with
    the same key the later one counts. *)
Inductive PluginConfig :=
| CfgNil
| CfgObject (fields : list (string * JValue))
| CfgOther.

(** The float64 nearest to an integer, as [strconv.ParseFloat] finds it
    for the digits (infinite when the integer is out of range). *)
Definition nearest_float64 (z : Z) : float64 :=
  SF2Prim (binary_normalize prec emax z 0 false).

(** The integer that the JSON text of a float64 reads as, when the text is
    one of an integer.  [json.Marshal] writes a float64 as
    [strconv.FormatFloat(f, 'f', -1, 64)] while its magnitude is below
    10^21 (and not below 10^-6): the shortest decimal that rounds to the
    float64, the nearest such when there are several, without fraction
    when the digits end before the decimal point, the places up to the
    point being filled with zeros.  Up to 2^53 a whole number is written
    exactly; 2^62 is written as 4611686018427388000.

    [shortest_from k inside v] goes from the digit at 10^k down to the
    first place at which [v] cut off ([down]) or cut off and raised by one
    ([up]) still rounds to the float64. *)
Fixpoint shortest_from (k : nat) (inside : Z -> bool) (v : Z) : Z :=
  let p := 10 ^ Z.of_nat k in
  let down := v / p * p in
  let up := down + p in
  let next := match k with O => v | S k' => shortest_from k' inside v end in
  if down =? 0 then next
  else if down =? v then v
  else match inside down, inside up with
       | true, true =>
           if v - down <? up - v then down
           else if up - v <? v - down then up
           else if Z.even (down / p) then down else up
       | true, false => down
       | false, true => up
       | false, false => next
       end.

Definition written_whole (f : float64) : option Z :=
  match Prim2SF f with
  | S754_zero _ => Some 0
  | S754_finite negative m e =>
      let magnitude :=
        if 0 <? e then
          (* at least 2^53: the decimals between the midpoints to the
             neighbouring float64s round to [f], the midpoints themselves
             when the mantissa is even *)
          let v := Z.pos m * 2 ^ e in
          let upper := 4 * v + 2 * 2 ^ e in
          let lower := if Z.pos m =? 2 ^ 52 then 4 * v - 2 ^ e else 4 * v - 2 * 2 ^ e in
          let inside x :=
            if Z.even (Z.pos m) then (lower <=? 4 * x) && (4 * x <=? upper)
            else (lower <? 4 * x) && (4 * x <? upper) in
          if 10 ^ 21 <=? v then None else Some (shortest_from 21 inside v)
        else if Z.pos m mod 2 ^ (- e) =? 0 then Some (Z.pos m / 2 ^ (- e))
        else None in
      match magnitude with
      | Some z => Some (if negative then - z else z)
      | None => None
      end
  | S754_infinity _ | S754_nan => None
  end.

(** The members of a map: the later of two members with the same key. *)
Fixpoint last_wins (fields : list (string * JValue)) : list (string * JValue) :=
  match fields with
  | [] => []
  | (k, v) :: rest =>
      if existsb (fun member => String.eqb member.1 k) rest then last_wins rest
      else (k, v) :: last_wins rest
  end.

(** Sorting the members by key, as [json.Marshal] writes a map. *)
Fixpoint insert_member (member : string * JValue) (sorted : list (string * JValue))
  : list (string * JValue) :=
  match sorted with
  | [] => [member]
  | member' :: rest =>
      if String.leb member.1 member'.1 then member :: sorted
      else member' :: insert_member member rest
  end.

Definition sort_members (fields : list (string * JValue)) : list (string * JValue) :=
  foldr insert_member [] fields.

(** A float64 that JSON cannot write, as [strconv.FormatFloat] prints
    it. *)
Definition unsupported_value (v : JValue) : option string :=
  match v with
  | JFloat f =>
      if PrimFloat.is_nan f then Some "NaN"
      else if PrimFloat.is_infinity f
           then Some (if PrimFloat.get_sign f then "-Inf" else "+Inf")
           else None
  | _ => None
  end.

Fixpoint first_unsupported (fields : list (string * JValue)) : option string :=
  match fields with
  | [] => None
  | (_, v) :: rest =>
      match unsupported_value v with
      | Some text => Some text
      | None => first_unsupported rest
      end
  end.

(** [json.Marshal(config)]: the text of a map has its members sorted by
    key; a float64 that is NaN or infinite is an error. *)
Definition Marshal (config : PluginConfig) : result PluginConfig :=
  match config with
  | CfgNil => Ok CfgNil
  | CfgObject fields =>
      let members := sort_members (last_wins fields) in
      match first_unsupported members with
      | Some text => Err (ErrorNew ("json: unsupported value: " +:+ text))
      | None => Ok (CfgObject members)
      end
  | CfgOther => Ok CfgOther
  end.

(** [json.Unmarshal(data, &v)] for [v] an [interface{}]: every number
    becomes a float64, the nearest one (a number out of the range of a
    float64 is an error, the first such being returned), and an object
    becomes a map.  A JSON text holds no NaN and no infinity: a [JFloat]
    that is one stands for a number out of range, whose digits the model
    does not keep. *)
Definition number_error (text : string) : error :=
  Errorf "json: cannot unmarshal number %s into Go value of type float64"
         [ArgStr text] None.

Definition as_interface (v : JValue) : result JValue :=
  match v with
  | JInt z =>
      let f := nearest_float64 z in
      if PrimFloat.is_infinity f then Err (number_error (pretty z)) else Ok (JFloat f)
  | JFloat f =>
      if PrimFloat.is_nan f || PrimFloat.is_infinity f
      then Err (number_error "out of range") else Ok v
  | _ => Ok v
  end.

Fixpoint as_interfaces (fields : list (string * JValue)) (first : option error)
  : option error * list (string * JValue) :=
  match fields with
  | [] => (first, [])
  | (k, v) :: rest =>
      match as_interface v with
      | Ok v' =>
          let '(e, rest') := as_interfaces rest first in (e, (k, v') :: rest')
      | Err e =>
          as_interfaces rest (match first with Some _ => first | None => Some e end)
      end
  end.

Definition Unmarshal_interface (text : PluginConfig) : result PluginConfig :=
  match text with
  | CfgNil => Ok CfgNil
  | CfgObject members =>
      match as_interfaces members None with
      | (Some e, _) => Err e
      | (None, fields) => Ok (CfgObject (sort_members (last_wins fields)))
      end
  | CfgOther => Ok CfgOther
  end.

Definition typeError (field : string) : error :=
  Errorf "json: cannot unmarshal value into Go struct field %s" [ArgStr field] None.

(** Decoding one value of a JSON text into a field of the given Go type.
    [None] leaves the field as it was (null); a value of the wrong kind is
    an error.  A float64 that [json.Marshal] has written without fraction
    or exponent decodes into an [int] field as the integer written, when
    that is in the range of an int64. *)
Definition as_string (field : string) (v : JValue) : result (option string) :=
  match v with
  | JNull => Ok None
  | JString s => Ok (Some s)
  | _ => Err (typeError field)
  end.

Definition as_int (field : string) (v : JValue) : result (option Z) :=
  let in_range z :=
    if (int64_min <=? z) && (z <=? int64_max) then Ok (Some z)
    else Err (typeError field) in
  match v with
  | JNull => Ok None
  | JInt z => in_range z
  | JFloat f =>
      match written_whole f with
      | Some z => in_range z
      | None => Err (typeError field)
      end
  | _ => Err (typeError field)
  end.

Definition as_bool (field : string) (v : JValue) : result (option bool) :=
  match v with
  | JNull => Ok None
  | JBool b => Ok (Some b)
  | _ => Err (typeError field)
  end.

Definition as_float (field : string) (v : JValue) : result (option float64) :=
  match v with
  | JNull => Ok None
  | JInt z =>
      let f := nearest_float64 z in
      if PrimFloat.is_infinity f then Err (typeError field) else Ok (Some f)
  | JFloat f => Ok (Some f)
  | _ => Err (typeError field)
  end.

(** [json.Unmarshal(configBytes, &config)] into a struct [C]: the members
    of the object are decoded by [set] in the order of the text (which
    [json.Marshal] has sorted by key), a later member overwriting an
    earlier one that names the same field; decoding goes on after a type
    error and the first error is returned, with the struct as far as it
    was filled. *)
Section Unmarshal.
Context {C : Type} (set : string -> JValue -> C -> result C).

Fixpoint decode_fields (fields : list (string * JValue)) (c : C) (first : option error)
  : option error * C :=
  match fields with
  | [] => (first, c)
  | (k, v) :: rest =>
      match set k v c with
      | Ok c' => decode_fields rest c' first
      | Err e => decode_fields rest c (match first with Some _ => first | None => Some e end)
      end
  end.

Definition Unmarshal (text : PluginConfig) (c : C) : option error * C :=
  match text with
  | CfgNil => (None, c)
  | CfgObject fields => decode_fields fields c None
  | CfgOther => (Some (ErrorNew "json: cannot unmarshal value into Go struct"), c)
  end.
End Unmarshal.

(** *** Channels that are only ever closed, and panics *)

Inductive chan := ChanOpen | ChanClosed.

(** How a call ends: it returns (with its error result and the receiver
    as it left it), it panics, or it never returns under the given
    context. *)
Inductive outcome (P : Type) :=
| Returns (err : option error) (p : P)
| Panics (msg : string) (p : P)
| Blocks.
Arguments Returns {P} err p.
Arguments Panics {P} msg p.
Arguments Blocks {P}.

(** The receiver as a call left it ([otherwise] if the call never left). *)
Definition receiver {P : Type} (o : outcome P) (otherwise : P) : P :=
  match o with
  | Returns _ p | Panics _ p => p
  | Blocks => otherwise
  end.

(** *** What a call observes of its concurrent surroundings

    [polls i] is what the i-th non-blocking check
    [select { case <-ctx.Done(): ... default: }] of the call finds
    ([ctx.Err()], nil while the context is live); [at_return] is
    [ctx.Err()] when the call sits in its final blocking [select];
    [timer_fired] tells whether a [time.After] case of that select is
    ready by then, and [done_first] which case the runtime takes when
    [ctx.Done()] and another case are both ready. *)
Record View := {
  polls : nat -> option error;
  at_return : option error;
  timer_fired : bool;
  done_first : bool
}.

Inductive selected := CaseDone (err : error) | CaseOther.

(** A blocking [select] with a [<-ctx.Done()] case and one other case. *)
Definition select (view : View) (other_ready : bool) : option selected :=
  match at_return view, other_ready with
  | Some e, true => Some (if done_first view then CaseDone e else CaseOther)
  | Some e, false => Some (CaseDone e)
  | None, true => Some CaseOther
  | None, false => None
  end.

(** [rand.Intn(n)]: a panic for [n <= 0], and otherwise a number from 0 up
    to [n - 1]; [draw] is what the generator yields at this call, reduced
    into that range. *)
Definition Intn (draw n : Z) : option Z :=
  if n <=? 0 then None else Some (draw mod n).

Definition Intn_panic : string := "invalid argument to Intn".

(** The host as the plugins see it. *)
Record Env := {
  NumCPU : Z;                      (* runtime.NumCPU() *)
  IsNotExist : string -> bool;     (* os.IsNotExist of os.Stat's error *)
  rand_Read : Z -> Z -> Z;         (* random byte j of the i-th buffer *)
  Unix : Z -> Z;                   (* time.Now().Unix() at the i-th file *)
  createFile : string -> option error  (* error of writing a scratch file *)
}.

End golib.

(** ** internal/plugins *)
Module plugins.
Import models golib.

(** The [StressPlugin] interface; the metadata and metrics getters play
    no part in the lifecycle and are left out. *)
Class StressPlugin (P : Type) := {
  Name : P -> string;
  Initialize : Env -> PluginConfig -> P -> outcome P;
  Execute : Env -> View -> TestParams -> P -> outcome P;
  Cleanup : P -> outcome P;
  GetSafetyLimits : P -> SafetyLimits
}.

(** [close(ch)]. *)
Definition close (ch : chan) : option chan :=
  match ch with
  | ChanOpen => Some ChanClosed
  | ChanClosed => None
  end.
Definition close_panic : string := "close of closed channel".

(** *** cpu_stress.go *)

Record CPUStressConfig := {
  cpu_Workers : Z;
  cpu_Algorithm : string;
  cpu_Intensity : Z;
  cpu_RampUp : bool
}.

Record CPUStressPlugin := {
  cpu_config : CPUStressConfig;
  cpu_WorkerCount : Z;            (* metrics.WorkerCount *)
  cpu_OperationsPerSecond : Z;    (* metrics.OperationsPerSecond *)
  cpu_stopChan : chan;
  currentWorkers : Z;
  operationsCount : Z;
  cpu_started : list Z            (* intensity of every batch of workers started *)
}.

Definition NewCPUStressPlugin : CPUStressPlugin :=
  {| cpu_config := {| cpu_Workers := 0; cpu_Algorithm := EmptyString; cpu_Intensity := 0;
                      cpu_RampUp := false |};
     cpu_WorkerCount := 0; cpu_OperationsPerSecond := 0;
     cpu_stopChan := ChanOpen; currentWorkers := 0; operationsCount := 0;
     cpu_started := [] |}.

Definition cpu_set (k : string) (v : JValue) (c : CPUStressConfig) : result CPUStressConfig :=
  if EqualFold k "workers" then
    match as_int "workers" v with
    | Ok (Some z) => Ok {| cpu_Workers := z; cpu_Algorithm := cpu_Algorithm c;
                           cpu_Intensity := cpu_Intensity c; cpu_RampUp := cpu_RampUp c |}
    | Ok None => Ok c
    | Err e => Err e
    end
  else if EqualFold k "algorithm" then
    match as_string "algorithm" v with
    | Ok (Some a) => Ok {| cpu_Workers := cpu_Workers c; cpu_Algorithm := a;
                           cpu_Intensity := cpu_Intensity c; cpu_RampUp := cpu_RampUp c |}
    | Ok None => Ok c
    | Err e => Err e
    end
  else if EqualFold k "intensity" then
    match as_int "intensity" v with
    | Ok (Some z) => Ok {| cpu_Workers := cpu_Workers c; cpu_Algorithm := cpu_Algorithm c;
                           cpu_Intensity := z; cpu_RampUp := cpu_RampUp c |}
    | Ok None => Ok c
    | Err e => Err e
    end
  else if EqualFold k "ramp_up" then
    match as_bool "ramp_up" v with
    | Ok (Some b) => Ok {| cpu_Workers := cpu_Workers c; cpu_Algorithm := cpu_Algorithm c;
                           cpu_Intensity := cpu_Intensity c; cpu_RampUp := b |}
    | Ok None => Ok c
    | Err e => Err e
    end
  else Ok c.

Definition cpu_with_config (cfg : CPUStressConfig) (c : CPUStressPlugin) : CPUStressPlugin :=
  {| cpu_config := cfg; cpu_WorkerCount := cpu_WorkerCount c;
     cpu_OperationsPerSecond := cpu_OperationsPerSecond c;
     cpu_stopChan := cpu_stopChan c; currentWorkers := currentWorkers c;
     operationsCount := operationsCount c; cpu_started := cpu_started c |}.

Definition cpu_Initialize (env : Env) (config : PluginConfig) (c : CPUStressPlugin)
  : outcome CPUStressPlugin :=
  match Marshal config with
  | Err e => Returns (Some (Errorf "failed to marshal config: %w" [] (Some e))) c
  | Ok configBytes =>
  match Unmarshal cpu_set configBytes (cpu_config c) with
  | (Some e, cfg) =>
      Returns (Some (Errorf "failed to unmarshal config: %w" [] (Some e)))
              (cpu_with_config cfg c)
  | (None, cfg) =>
      let workers := if cpu_Workers cfg <=? 0 then NumCPU env else cpu_Workers cfg in
      let intensity := if cpu_Intensity cfg <=? 0 then 70 else cpu_Intensity cfg in
      let algorithm := if String.eqb (cpu_Algorithm cfg) EmptyString then "prime"
                       else cpu_Algorithm cfg in
      Returns None
        {| cpu_config := {| cpu_Workers := workers; cpu_Algorithm := algorithm;
                            cpu_Intensity := intensity; cpu_RampUp := cpu_RampUp cfg |};
           cpu_WorkerCount := workers; cpu_OperationsPerSecond := cpu_OperationsPerSecond c;
           cpu_stopChan := cpu_stopChan c; currentWorkers := workers;
           operationsCount := operationsCount c; cpu_started := cpu_started c |}
  end end.

(** [startWorkers]: one goroutine per current worker, all at [intensity]. *)
Definition startWorkers (intensity : Z) (c : CPUStressPlugin) : CPUStressPlugin :=
  {| cpu_config := cpu_config c; cpu_WorkerCount := cpu_WorkerCount c;
     cpu_OperationsPerSecond := cpu_OperationsPerSecond c;
     cpu_stopChan := cpu_stopChan c; currentWorkers := currentWorkers c;
     operationsCount := operationsCount c;
     cpu_started := cpu_started c ++ [intensity] |}.

(** [executeFullIntensity]: start the workers, then wait for the context
    or for [time.After(params.Duration)]. *)
Definition executeFullIntensity (view : View) (params : TestParams) (c : CPUStressPlugin)
  : outcome CPUStressPlugin :=
  let c := startWorkers (cpu_Intensity (cpu_config c)) c in
  match select view (timer_fired view) with
  | Some (CaseDone e) => Returns (Some e) c
  | Some CaseOther => Returns None c
  | None => Blocks
  end.

(** [executeWithRampUp]: ten steps, each polling the context first; the
    sleeps are not interrupted by the context, and the call returns nil
    once they are over.  The intensity of a step is computed in [int]:
    the product wraps around before it is divided. *)
Fixpoint rampUp (steps : nat) (step : Z) (view : View) (c : CPUStressPlugin)
  : outcome CPUStressPlugin :=
  match steps with
  | O => Returns None c
  | S steps' =>
      match polls view (Z.to_nat (step - 1)) with
      | Some e => Returns (Some e) c
      | None =>
          let intensity := Z.quot (wrap64 (cpu_Intensity (cpu_config c) * step)) 10 in
          rampUp steps' (step + 1) view (startWorkers intensity c)
      end
  end.

Definition executeWithRampUp (view : View) (params : TestParams) (c : CPUStressPlugin)
  : outcome CPUStressPlugin :=
  rampUp 10 1 view c.

Definition cpu_Execute (env : Env) (view : View) (params : TestParams)
    (c : CPUStressPlugin) : outcome CPUStressPlugin :=
  let c := {| cpu_config := cpu_config c; cpu_WorkerCount := cpu_WorkerCount c;
              cpu_OperationsPerSecond := cpu_OperationsPerSecond c;
              cpu_stopChan := cpu_stopChan c; currentWorkers := currentWorkers c;
              operationsCount := 0; cpu_started := cpu_started c |} in
  if cpu_RampUp (cpu_config c) then executeWithRampUp view params c
  else executeFullIntensity view params c.

Definition cpu_Cleanup (c : CPUStressPlugin) : outcome CPUStressPlugin :=
  match close (cpu_stopChan c) with
  | Some ch =>
      Returns None
        {| cpu_config := cpu_config c; cpu_WorkerCount := cpu_WorkerCount c;
           cpu_OperationsPerSecond := cpu_OperationsPerSecond c;
           cpu_stopChan := ch; currentWorkers := currentWorkers c;
           operationsCount := operationsCount c; cpu_started := cpu_started c |}
  | None => Panics close_panic c
  end.

Definition cpu_GetSafetyLimits (c : CPUStressPlugin) : SafetyLimits :=
  {| MaxCPUPercent := 95%float; MaxMemoryPercent := 20%float;
     MaxDiskPercent := 50%float; MaxNetworkMbps := 10%float |}.

(** [calculateFibonacci].  The recursion is on the argument, which goes
    down by one or two with every call; [depth] bounds the nesting of the
    calls, and a call with argument [n] nests at most [n] deep. *)
Fixpoint calculateFibonacci_depth (depth : nat) (n : Z) : Z :=
  if n <=? 1 then n
  else
    match depth with
    | O => n
    | S depth' =>
        wrap64 (calculateFibonacci_depth depth' (n - 1)
                + calculateFibonacci_depth depth' (n - 2))
    end.

Definition calculateFibonacci (n : Z) : Z :=
  calculateFibonacci_depth (Z.to_nat n) n.

(** [HealthCheck] of the CPU plugin. *)
Definition cpu_HealthCheck (c : CPUStressPlugin) : option error :=
  let result := calculateFibonacci 10 in
  if result =? 55 then None
  else Some (Errorf "CPU health check failed: expected 55, got %d"
                    [ArgInt result] None).

#[export] Instance CPUStressPlugin_StressPlugin : StressPlugin CPUStressPlugin := {|
  Name _ := "cpu-stress";
  Initialize := cpu_Initialize;
  Execute := cpu_Execute;
  Cleanup := cpu_Cleanup;
  GetSafetyLimits := cpu_GetSafetyLimits
|}.

(** *** The memory workload *)

Record MemoryStressConfig := {
  AllocSize : string;
  Pattern : string;
  AccessType : string;
  mem_Workers : Z;
  ChunkSize : string;
  AccessDelay : Z
}.

(** A [[]byte]: its length and its content by index. *)
Record Chunk := { chunk_len : Z; chunk_at : Z -> Z }.

Record MemoryStressPlugin := {
  mem_config : MemoryStressConfig;
  AllocatedMB : Z;                (* metrics.AllocatedMB *)
  AccessCount : Z;                (* metrics.AccessCount *)
  allocations : list Chunk;
  mem_stopChan : chan;
  allocSizeMB : Z;
  chunkSizeMB : Z
}.

Definition NewMemoryStressPlugin : MemoryStressPlugin :=
  {| mem_config := {| AllocSize := EmptyString; Pattern := EmptyString; AccessType := EmptyString;
                      mem_Workers := 0; ChunkSize := EmptyString; AccessDelay := 0 |};
     AllocatedMB := 0; AccessCount := 0; allocations := [];
     mem_stopChan := ChanOpen; allocSizeMB := 0; chunkSizeMB := 0 |}.

Definition mem_set (k : string) (v : JValue) (c : MemoryStressConfig)
  : result MemoryStressConfig :=
  if EqualFold k "alloc_size" then
    match as_string "alloc_size" v with
    | Ok (Some x) => Ok {| AllocSize := x; Pattern := Pattern c; AccessType := AccessType c;
                           mem_Workers := mem_Workers c; ChunkSize := ChunkSize c;
                           AccessDelay := AccessDelay c |}
    | Ok None => Ok c
    | Err e => Err e
    end
  else if EqualFold k "pattern" then
    match as_string "pattern" v with
    | Ok (Some x) => Ok {| AllocSize := AllocSize c; Pattern := x; AccessType := AccessType c;
                           mem_Workers := mem_Workers c; ChunkSize := ChunkSize c;
                           AccessDelay := AccessDelay c |}
    | Ok None => Ok c
    | Err e => Err e
    end
  else if EqualFold k "access_type" then
    match as_string "access_type" v with
    | Ok (Some x) => Ok {| AllocSize := AllocSize c; Pattern := Pattern c; AccessType := x;
                           mem_Workers := mem_Workers c; ChunkSize := ChunkSize c;
                           AccessDelay := AccessDelay c |}
    | Ok None => Ok c
    | Err e => Err e
    end
  else if EqualFold k "workers" then
    match as_int "workers" v with
    | Ok (Some x) => Ok {| AllocSize := AllocSize c; Pattern := Pattern c;
                           AccessType := AccessType c;
                           mem_Workers := x; ChunkSize := ChunkSize c;
                           AccessDelay := AccessDelay c |}
    | Ok None => Ok c
    | Err e => Err e
    end
  else if EqualFold k "chunk_size" then
    match as_string "chunk_size" v with
    | Ok (Some x) => Ok {| AllocSize := AllocSize c; Pattern := Pattern c;
                           AccessType := AccessType c;
                           mem_Workers := mem_Workers c; ChunkSize := x;
                           AccessDelay := AccessDelay c |}
    | Ok None => Ok c
    | Err e => Err e
    end
  else if EqualFold k "access_delay" then
    match as_int "access_delay" v with
    | Ok (Some x) => Ok {| AllocSize := AllocSize c; Pattern := Pattern c;
                           AccessType := AccessType c;
                           mem_Workers := mem_Workers c; ChunkSize := ChunkSize c;
                           AccessDelay := x |}
    | Ok None => Ok c
    | Err e => Err e
    end
  else Ok c.

(** [parseMemorySize]: "1GB", "500MB"; the value is in MB. *)
Definition parseMemorySize (size : string) : result Z :=
  let size := TrimSpace (ToUpper size) in
  let parse (multiplier : Z) (digits : string) : result Z :=
    match ParseInt digits with
    | Err e => Err (Errorf "invalid memory size value: %w" [] (Some e))
    | Ok value => Ok (wrap64 (value * multiplier))
    end in
  if HasSuffix size "GB" then parse 1024 (TrimSuffix size "GB")
  else if HasSuffix size "MB" then parse 1 (TrimSuffix size "MB")
  else Err (ErrorNew "invalid memory size format, expected MB or GB suffix").

Definition mem_with (cfg : MemoryStressConfig) (alloc chunk : Z) (m : MemoryStressPlugin)
  : MemoryStressPlugin :=
  {| mem_config := cfg; AllocatedMB := AllocatedMB m; AccessCount := AccessCount m;
     allocations := allocations m; mem_stopChan := mem_stopChan m;
     allocSizeMB := alloc; chunkSizeMB := chunk |}.

Definition mem_Initialize (env : Env) (config : PluginConfig) (m : MemoryStressPlugin)
  : outcome MemoryStressPlugin :=
  match Marshal config with
  | Err e => Returns (Some (Errorf "failed to marshal config: %w" [] (Some e))) m
  | Ok configBytes =>
  match Unmarshal mem_set configBytes (mem_config m) with
  | (Some e, cfg) =>
      Returns (Some (Errorf "failed to unmarshal config: %w" [] (Some e)))
              (mem_with cfg (allocSizeMB m) (chunkSizeMB m) m)
  | (None, cfg) =>
      let cfg :=
        {| AllocSize := if String.eqb (AllocSize cfg) EmptyString then "1GB" else AllocSize cfg;
           Pattern := if String.eqb (Pattern cfg) EmptyString then "sequential" else Pattern cfg;
           AccessType := if String.eqb (AccessType cfg) EmptyString then "readwrite"
                         else AccessType cfg;
           mem_Workers := if mem_Workers cfg <=? 0 then 4 else mem_Workers cfg;
           ChunkSize := if String.eqb (ChunkSize cfg) EmptyString then "64MB" else ChunkSize cfg;
           AccessDelay := AccessDelay cfg |} in
      match parseMemorySize (AllocSize cfg) with
      | Err e =>
          Returns (Some (Errorf "invalid alloc_size: %w" [] (Some e)))
                  (mem_with cfg 0 (chunkSizeMB m) m)
      | Ok alloc =>
          match parseMemorySize (ChunkSize cfg) with
          | Err e =>
              Returns (Some (Errorf "invalid chunk_size: %w" [] (Some e)))
                      (mem_with cfg alloc 0 m)
          | Ok chunk => Returns None (mem_with cfg alloc chunk m)
          end
      end
  end end.

(** [make([]byte, n)] and the three initialisers. *)
Definition make_bytes (n : Z) : Chunk := {| chunk_len := n; chunk_at := fun _ => 0 |}.

Definition initializeSequential (chunk : Chunk) : Chunk :=
  {| chunk_len := chunk_len chunk;
     chunk_at := fun i =>
       if (0 <=? i) && (i <? chunk_len chunk) then i mod 256 else chunk_at chunk i |}.

Definition initializeRandom (env : Env) (index : Z) (chunk : Chunk) : Chunk :=
  {| chunk_len := chunk_len chunk;
     chunk_at := fun i =>
       if (0 <=? i) && (i <? chunk_len chunk) then rand_Read env index i mod 256
       else chunk_at chunk i |}.

Definition initializeFragmented (chunk : Chunk) (chunkIndex : Z) : Chunk :=
  let blockSize := 4096 in
  {| chunk_len := chunk_len chunk;
     chunk_at := fun j =>
       if (0 <=? j) && (j <? chunk_len chunk)
          && (Z.rem (Z.quot j blockSize + chunkIndex) 2 =? 0)
       then j mod 256 else chunk_at chunk j |}.

Definition initialize (env : Env) (pattern : string) (i : Z) (chunk : Chunk) : Chunk :=
  if String.eqb pattern "sequential" then initializeSequential chunk
  else if String.eqb pattern "random" then initializeRandom env i chunk
  else if String.eqb pattern "fragmented" then initializeFragmented chunk i
  else chunk.

(** One turn of the loop of [allocateMemory], for index [i]. *)
Definition allocate_one (env : Env) (i : Z) (m : MemoryStressPlugin) : outcome MemoryStressPlugin :=
  let chunkBytes := wrap64 (wrap64 (chunkSizeMB m * 1024) * 1024) in
  if chunkBytes <? 0 then Panics "runtime error: makeslice: len out of range" m
  else
    let chunk := initialize env (Pattern (mem_config m)) i (make_bytes chunkBytes) in
    Returns None
      {| mem_config := mem_config m;
         AllocatedMB := wrap64 (AllocatedMB m + chunkSizeMB m);
         AccessCount := AccessCount m;
         allocations := allocations m ++ [chunk];
         mem_stopChan := mem_stopChan m;
         allocSizeMB := allocSizeMB m; chunkSizeMB := chunkSizeMB m |}.

(** [allocateMemory]: [todo] turns remain, the next index is [i]. *)
Fixpoint allocate_from (env : Env) (view : View) (todo : nat) (i : Z)
    (m : MemoryStressPlugin) : outcome MemoryStressPlugin :=
  match todo with
  | O => Returns None m
  | S todo' =>
      match polls view (Z.to_nat i) with
      | Some e => Returns (Some e) m
      | None =>
          match allocate_one env i m with
          | Returns None m' => allocate_from env view todo' (i + 1) m'
          | stop => stop
          end
      end
  end.

Definition allocateMemory (env : Env) (view : View) (numChunks : Z) (m : MemoryStressPlugin)
  : outcome MemoryStressPlugin :=
  allocate_from env view (Z.to_nat numChunks) 0 m.

(** "Calculate number of chunks needed" in [Execute]. *)
Definition numChunks (m : MemoryStressPlugin) : Z :=
  let n := wrap64 (Z.quot (allocSizeMB m) (chunkSizeMB m)) in
  if n <=? 0 then 1 else n.

Definition mem_reset (m : MemoryStressPlugin) : MemoryStressPlugin :=
  {| mem_config := mem_config m; AllocatedMB := 0; AccessCount := 0;
     allocations := allocations m; mem_stopChan := mem_stopChan m;
     allocSizeMB := allocSizeMB m; chunkSizeMB := chunkSizeMB m |}.

(** The allocation phase of [Execute]: everything up to and including the
    call of [allocateMemory]. *)
Definition allocation_phase (env : Env) (view : View) (m : MemoryStressPlugin)
  : outcome MemoryStressPlugin :=
  let m := mem_reset m in
  if chunkSizeMB m =? 0 then Panics "runtime error: integer divide by zero" m
  else allocateMemory env view (numChunks m) m.

(** [Execute].  The access workers leave their loop when the context is
    done or the stop channel is closed; what they do to the counters and
    to the chunk contents in between is not followed. *)
Definition mem_Execute (env : Env) (view : View) (params : TestParams)
    (m : MemoryStressPlugin) : outcome MemoryStressPlugin :=
  match allocation_phase env view m with
  | Returns None m' =>
      let workers_done :=
        (mem_Workers (mem_config m') <=? 0)
        || match mem_stopChan m' with ChanClosed => true | ChanOpen => false end
        || match at_return view with Some _ => true | None => false end in
      match select view workers_done with
      | Some (CaseDone e) => Returns (Some e) m'
      | Some CaseOther => Returns None m'
      | None => Blocks
      end
  | Returns (Some e) m' =>
      Returns (Some (Errorf "memory allocation failed: %w" [] (Some e))) m'
  | stop => stop
  end.

Definition mem_Cleanup (m : MemoryStressPlugin) : outcome MemoryStressPlugin :=
  match close (mem_stopChan m) with
  | Some ch =>
      Returns None
        {| mem_config := mem_config m; AllocatedMB := AllocatedMB m;
           AccessCount := AccessCount m;
           allocations := [];
           mem_stopChan := ch;
           allocSizeMB := allocSizeMB m; chunkSizeMB := chunkSizeMB m |}
  | None => Panics close_panic m
  end.

Definition mem_GetSafetyLimits (m : MemoryStressPlugin) : SafetyLimits :=
  {| MaxCPUPercent := 30%float; MaxMemoryPercent := 85%float;
     MaxDiskPercent := 50%float; MaxNetworkMbps := 10%float |}.

(** [performWrite] of the memory workload: up to 1 KB of the chunk from
    [offset] on is set to [value].  ([performRead] only sums the same
    bytes up and drops the sum.) *)
Definition mem_performWrite (value : Z) (chunk : Chunk) (offset : Z) : Chunk :=
  {| chunk_len := chunk_len chunk;
     chunk_at := fun i =>
       if (offset <=? i) && (i <? offset + 1024) && (i <? chunk_len chunk)
       then value else chunk_at chunk i |}.

(** The numbers one access draws from [math/rand], in the order of the
    calls: for the offset, for the choice between reading and writing, for
    the byte to write. *)
Record Draws := { draw_offset : Z; draw_coin : Z; draw_value : Z }.

Definition mem_set_allocations (chunks : list Chunk) (m : MemoryStressPlugin)
  : MemoryStressPlugin :=
  {| mem_config := mem_config m; AllocatedMB := AllocatedMB m;
     AccessCount := AccessCount m; allocations := chunks;
     mem_stopChan := mem_stopChan m;
     allocSizeMB := allocSizeMB m; chunkSizeMB := chunkSizeMB m |}.

(** [performMemoryAccess].  The chunk is a slice of the plugin's own
    memory: a write goes to [allocations] at [allocIndex]. *)
Definition performMemoryAccess (draws : Draws) (allocIndex : Z)
    (m : MemoryStressPlugin) : outcome MemoryStressPlugin :=
  if Z.of_nat (length (allocations m)) <=? allocIndex then Returns None m
  else
    match (if allocIndex <? 0 then None
           else allocations m !! Z.to_nat allocIndex) with
    | None => Panics "index out of range" m
    | Some chunk =>
        match Intn (draw_offset draws) (chunk_len chunk - 1024) with
        | None => Panics Intn_panic m
        | Some offset =>
            let offset := if offset <? 0 then 0 else offset in
            let written :=
              mem_set_allocations
                (<[Z.to_nat allocIndex :=
                     mem_performWrite (draw_value draws mod 256) chunk offset]>
                   (allocations m)) m in
            let accessType := AccessType (mem_config m) in
            if String.eqb accessType "read" then Returns None m
            else if String.eqb accessType "write" then Returns None written
            else if String.eqb accessType "readwrite" then
              match Intn (draw_coin draws) 2 with
              | Some 0 => Returns None m
              | _ => Returns None written
              end
            else Returns None m
        end
    end.

(** One turn of the loop of [memoryAccessWorker] past the check of the
    context and the stop channel ([draw_index] is the draw for the chunk to
    access; with nothing allocated the worker sleeps and tries again). *)
Definition memoryAccessWorker_turn (draw_index : Z) (draws : Draws)
    (m : MemoryStressPlugin) : outcome MemoryStressPlugin :=
  let numAllocations := Z.of_nat (length (allocations m)) in
  if numAllocations =? 0 then Returns None m
  else
    match Intn draw_index numAllocations with
    | None => Panics Intn_panic m
    | Some allocIndex =>
        match performMemoryAccess draws allocIndex m with
        | Returns _ m' =>
            Returns None
              {| mem_config := mem_config m'; AllocatedMB := AllocatedMB m';
                 AccessCount := wrap64 (AccessCount m' + 1);
                 allocations := allocations m';
                 mem_stopChan := mem_stopChan m';
                 allocSizeMB := allocSizeMB m'; chunkSizeMB := chunkSizeMB m' |}
        | stop => stop
        end
    end.


#[export] Instance MemoryStressPlugin_StressPlugin : StressPlugin MemoryStressPlugin := {|
  Name _ := "memory-stress";
  Initialize := mem_Initialize;
  Execute := mem_Execute;
  Cleanup := mem_Cleanup;
  GetSafetyLimits := mem_GetSafetyLimits
|}.

(** *** io_stress.go *)

Record IOStressConfig := {
  FileSize : string;
  BlockSize : string;
  Operations : string;
  io_Workers : Z;
  Fsync : bool;
  Direct : bool;
  TempDir : string;
  Sequential : bool;
  ReadWriteRatio : float64
}.

Record IOMetrics := {
  ReadOpsPerSec : Z;
  WriteOpsPerSec : Z;
  TotalBytesRead : Z;
  TotalBytesWritten : Z;
  ErrorCount : Z
}.

Definition zero_IOMetrics : IOMetrics :=
  {| ReadOpsPerSec := 0; WriteOpsPerSec := 0; TotalBytesRead := 0;
     TotalBytesWritten := 0; ErrorCount := 0 |}.

Record IOStressPlugin := {
  io_config : IOStressConfig;
  io_metrics : IOMetrics;
  testFiles : list string;
  io_stopChan : chan;
  fileSizeBytes : Z;
  blockSizeBytes : Z
}.

Definition NewIOStressPlugin : IOStressPlugin :=
  {| io_config := {| FileSize := EmptyString; BlockSize := EmptyString;
                     Operations := EmptyString; io_Workers := 0;
                     Fsync := false; Direct := false; TempDir := EmptyString;
                     Sequential := false; ReadWriteRatio := 0%float |};
     io_metrics := zero_IOMetrics; testFiles := []; io_stopChan := ChanOpen;
     fileSizeBytes := 0; blockSizeBytes := 0 |}.

Definition io_set (k : string) (v : JValue) (c : IOStressConfig) : result IOStressConfig :=
  let upd (fs bs ops : string) (w : Z) (fsync direct : bool) (dir : string)
          (seq : bool) (ratio : float64) :=
    {| FileSize := fs; BlockSize := bs; Operations := ops; io_Workers := w;
       Fsync := fsync; Direct := direct; TempDir := dir; Sequential := seq;
       ReadWriteRatio := ratio |} in
  let '(fs, bs, ops, w) := (FileSize c, BlockSize c, Operations c, io_Workers c) in
  let '(fsync, direct, dir, seq, ratio) :=
    (Fsync c, Direct c, TempDir c, Sequential c, ReadWriteRatio c) in
  if EqualFold k "file_size" then
    match as_string "file_size" v with
    | Ok (Some x) => Ok (upd x bs ops w fsync direct dir seq ratio)
    | Ok None => Ok c
    | Err e => Err e
    end
  else if EqualFold k "block_size" then
    match as_string "block_size" v with
    | Ok (Some x) => Ok (upd fs x ops w fsync direct dir seq ratio)
    | Ok None => Ok c
    | Err e => Err e
    end
  else if EqualFold k "operations" then
    match as_string "operations" v with
    | Ok (Some x) => Ok (upd fs bs x w fsync direct dir seq ratio)
    | Ok None => Ok c
    | Err e => Err e
    end
  else if EqualFold k "workers" then
    match as_int "workers" v with
    | Ok (Some x) => Ok (upd fs bs ops x fsync direct dir seq ratio)
    | Ok None => Ok c
    | Err e => Err e
    end
  else if EqualFold k "fsync" then
    match as_bool "fsync" v with
    | Ok (Some x) => Ok (upd fs bs ops w x direct dir seq ratio)
    | Ok None => Ok c
    | Err e => Err e
    end
  else if EqualFold k "direct" then
    match as_bool "direct" v with
    | Ok (Some x) => Ok (upd fs bs ops w fsync x dir seq ratio)
    | Ok None => Ok c
    | Err e => Err e
    end
  else if EqualFold k "temp_dir" then
    match as_string "temp_dir" v with
    | Ok (Some x) => Ok (upd fs bs ops w fsync direct x seq ratio)
    | Ok None => Ok c
    | Err e => Err e
    end
  else if EqualFold k "sequential" then
    match as_bool "sequential" v with
    | Ok (Some x) => Ok (upd fs bs ops w fsync direct dir x ratio)
    | Ok None => Ok c
    | Err e => Err e
    end
  else if EqualFold k "read_write_ratio" then
    match as_float "read_write_ratio" v with
    | Ok (Some x) => Ok (upd fs bs ops w fsync direct dir seq x)
    | Ok None => Ok c
    | Err e => Err e
    end
  else Ok c.

(** [parseSize]: "1GB", "64KB"; the value is in bytes. *)
Definition parseSize (size : string) : result Z :=
  let size := TrimSpace (ToUpper size) in
  let '(multiplier, size) :=
    if HasSuffix size "GB" then (1024 * 1024 * 1024, TrimSuffix size "GB")
    else if HasSuffix size "MB" then (1024 * 1024, TrimSuffix size "MB")
    else if HasSuffix size "KB" then (1024, TrimSuffix size "KB")
    else if HasSuffix size "B" then (1, TrimSuffix size "B")
    else (1, size) in
  match ParseInt size with
  | Err e => Err (Errorf "invalid size value: %w" [] (Some e))
  | Ok value => Ok (wrap64 (value * multiplier))
  end.

Definition io_with (cfg : IOStressConfig) (fileSize blockSize : Z) (i : IOStressPlugin)
  : IOStressPlugin :=
  {| io_config := cfg; io_metrics := io_metrics i; testFiles := testFiles i;
     io_stopChan := io_stopChan i; fileSizeBytes := fileSize;
     blockSizeBytes := blockSize |}.

Definition io_Initialize (env : Env) (config : PluginConfig) (i : IOStressPlugin)
  : outcome IOStressPlugin :=
  match Marshal config with
  | Err e => Returns (Some (Errorf "failed to marshal config: %w" [] (Some e))) i
  | Ok configBytes =>
  match Unmarshal io_set configBytes (io_config i) with
  | (Some e, cfg) =>
      Returns (Some (Errorf "failed to unmarshal config: %w" [] (Some e)))
              (io_with cfg (fileSizeBytes i) (blockSizeBytes i) i)
  | (None, cfg) =>
      let cfg :=
        {| FileSize := if String.eqb (FileSize cfg) EmptyString then "1GB" else FileSize cfg;
           BlockSize := if String.eqb (BlockSize cfg) EmptyString then "64KB" else BlockSize cfg;
           Operations := if String.eqb (Operations cfg) EmptyString then "mixed"
                         else Operations cfg;
           io_Workers := if io_Workers cfg <=? 0 then 4 else io_Workers cfg;
           Fsync := Fsync cfg;
           Direct := Direct cfg;
           TempDir := if String.eqb (TempDir cfg) EmptyString then "/tmp" else TempDir cfg;
           Sequential := Sequential cfg;
           ReadWriteRatio := if fle (ReadWriteRatio cfg) 0%float then 0.5%float
                             else ReadWriteRatio cfg |} in
      match parseSize (FileSize cfg) with
      | Err e =>
          Returns (Some (Errorf "invalid file_size: %w" [] (Some e)))
                  (io_with cfg 0 (blockSizeBytes i) i)
      | Ok fileSize =>
          match parseSize (BlockSize cfg) with
          | Err e =>
              Returns (Some (Errorf "invalid block_size: %w" [] (Some e)))
                      (io_with cfg fileSize 0 i)
          | Ok blockSize =>
              let i' := io_with cfg fileSize blockSize i in
              if IsNotExist env (TempDir cfg) then
                Returns (Some (Errorf "temp directory does not exist: %s"
                                      [ArgStr (TempDir cfg)] None)) i'
              else Returns None i'
          end
      end
  end end.

Definition io_with_metrics (mt : IOMetrics) (i : IOStressPlugin) : IOStressPlugin :=
  {| io_config := io_config i; io_metrics := mt; testFiles := testFiles i;
     io_stopChan := io_stopChan i; fileSizeBytes := fileSizeBytes i;
     blockSizeBytes := blockSizeBytes i |}.

(** What the file system answers to one block operation: the number of
    bytes transferred, or the error of open, seek, read, write or sync.
    The operation makes its buffer of [blockSizeBytes] bytes once the file
    is open; the workers are followed for a block size that is not
    negative, which is the case whenever [Execute] has got as far as
    starting them: [createTestFile] makes a buffer of the same size first
    and panics for a negative one. *)
Record FileOps := { read_result : result Z; write_result : result Z }.

Definition performRead (ops : FileOps) (filename : string) (i : IOStressPlugin)
  : option error * IOStressPlugin :=
  match read_result ops with
  | Err e => (Some e, i)
  | Ok n =>
      let mt := io_metrics i in
      (None, io_with_metrics
               {| ReadOpsPerSec := wrap64 (ReadOpsPerSec mt + 1);
                  WriteOpsPerSec := WriteOpsPerSec mt;
                  TotalBytesRead := wrap64 (TotalBytesRead mt + n);
                  TotalBytesWritten := TotalBytesWritten mt;
                  ErrorCount := ErrorCount mt |} i)
  end.

Definition performWrite (ops : FileOps) (filename : string) (i : IOStressPlugin)
  : option error * IOStressPlugin :=
  match write_result ops with
  | Err e => (Some e, i)
  | Ok n =>
      let mt := io_metrics i in
      (None, io_with_metrics
               {| ReadOpsPerSec := ReadOpsPerSec mt;
                  WriteOpsPerSec := wrap64 (WriteOpsPerSec mt + 1);
                  TotalBytesRead := TotalBytesRead mt;
                  TotalBytesWritten := wrap64 (TotalBytesWritten mt + n);
                  ErrorCount := ErrorCount mt |} i)
  end.

(** [float64(time.Now().UnixNano()%1000) / 1000.0], for the clock reading
    [nanos]. *)
Definition read_fraction (nanos : Z) : float64 :=
  PrimFloat.div (float64_of_Z (Z.rem nanos 1000)) 1000%float.

(** The fraction takes at most 1999 values; a property of all of them is
    checked by running through them. *)
Definition remainders : list Z := List.map (fun k => Z.of_nat k - 999) (seq 0 1999).

(** The value of [operation] after the [if operation == "mixed"] block of
    [performIOOperation]. *)
Definition chosen_operation (nanos : Z) (i : IOStressPlugin) : string :=
  let operation := Operations (io_config i) in
  if String.eqb operation "mixed" then
    if flt (read_fraction nanos) (ReadWriteRatio (io_config i))
    then "read" else "write"
  else operation.

Definition performIOOperation (nanos : Z) (ops : FileOps) (filename : string)
    (i : IOStressPlugin) : option error * IOStressPlugin :=
  let operation := chosen_operation nanos i in
  if String.eqb operation "read" then performRead ops filename i
  else if String.eqb operation "write" then performWrite ops filename i
  else (Some (Errorf "unknown operation: %s" [ArgStr operation] None), i).

(** One turn of the loop of [ioWorker] on the worker's file: the
    operation, then the error counter (the latency sample is not kept). *)
Definition ioWorker_turn (nanos : Z) (ops : FileOps) (filename : string)
    (i : IOStressPlugin) : IOStressPlugin :=
  match performIOOperation nanos ops filename i with
  | (Some _, i') =>
      let mt := io_metrics i' in
      io_with_metrics
        {| ReadOpsPerSec := ReadOpsPerSec mt; WriteOpsPerSec := WriteOpsPerSec mt;
           TotalBytesRead := TotalBytesRead mt;
           TotalBytesWritten := TotalBytesWritten mt;
           ErrorCount := wrap64 (ErrorCount mt + 1) |} i'
  | (None, i') => i'
  end.

(** The turns of the workers in the order they take the lock, each with
    its clock reading and what the file system answered. *)
Fixpoint ioWorker_turns (turns : list (Z * FileOps * string)) (i : IOStressPlugin)
  : IOStressPlugin :=
  match turns with
  | [] => i
  | (nanos, ops, filename) :: rest =>
      ioWorker_turns rest (ioWorker_turn nanos ops filename i)
  end.

(** "Determine read position" of [performRead], and the same lines of
    [performWrite]: the offset the operation seeks to.  [nanos] is
    [time.Now().UnixNano()]. *)
Definition operation_offset (nanos : Z) (i : IOStressPlugin) : Z :=
  if Sequential (io_config i) then 0
  else
    let maxOffset := wrap64 (fileSizeBytes i - blockSizeBytes i) in
    if 0 <? maxOffset then Z.rem nanos maxOffset else 0.

(** What the operating system answers while [createTestFile] writes one
    file: the error of [os.OpenFile], and the errors of the k-th
    [rand.Read], [file.Write] and [file.Sync].  A [Write] that reports no
    error has written the whole buffer. *)
Record FileSystem := {
  OpenFile_error : option error;
  Read_error : nat -> option error;
  Write_error : nat -> option error;
  Sync_error : nat -> option error
}.

(** How [createTestFile] ends: it returns, having counted [bytesWritten]
    bytes in [writes] successful calls of [Write]; it panics; or it is
    still in its loop when the turns given to it are used up. *)
Inductive written :=
| Created (err : option error) (bytesWritten : Z) (writes : nat)
| CreatePanics (msg : string)
| StillWriting (bytesWritten : Z).

(** The loop of [createTestFile] after [k] turns: the buffer has length
    [len] (its capacity stays [blockSizeBytes]).  The loop has no way out
    but its condition and the errors: its [select] has only the default
    case. *)
Fixpoint createTestFile_loop (fs : FileSystem) (turns k : nat) (len bytesWritten : Z)
    (i : IOStressPlugin) : written :=
  if bytesWritten <? fileSizeBytes i then
    match turns with
    | O => StillWriting bytesWritten
    | S turns' =>
        let remaining := wrap64 (fileSizeBytes i - bytesWritten) in
        if (remaining <? blockSizeBytes i) && (remaining <? 0)
        then CreatePanics ("runtime error: slice bounds out of range [:"
                           +:+ pretty remaining +:+ "]")
        else
          let len := if remaining <? blockSizeBytes i then remaining else len in
          match Read_error fs k with
          | Some e => Created (Some e) bytesWritten k
          | None =>
              match Write_error fs k with
              | Some e => Created (Some e) bytesWritten k
              | None =>
                  let bytesWritten := wrap64 (bytesWritten + len) in
                  match (if Fsync (io_config i) then Sync_error fs k else None) with
                  | Some e => Created (Some e) bytesWritten (S k)
                  | None => createTestFile_loop fs turns' (S k) len bytesWritten i
                  end
              end
          end
    end
  else Created None bytesWritten k.

(** [createTestFile], its loop given [turns] turns. *)
Definition createTestFile (fs : FileSystem) (turns : nat) (i : IOStressPlugin) : written :=
  match OpenFile_error fs with
  | Some e => Created (Some e) 0 0
  | None =>
      if blockSizeBytes i <? 0
      then CreatePanics "runtime error: makeslice: len out of range"
      else createTestFile_loop fs turns 0 (blockSizeBytes i) 0 i
  end.

(** [createTestFiles]: one scratch file per worker, named
    [filepath.Join(TempDir, fmt.Sprintf("ssts_io_test_%d_%d.dat", ...))]. *)
Definition testFileName (env : Env) (dir : string) (workerID : Z) : string :=
  Join dir ("ssts_io_test_" +:+ pretty (Unix env workerID) +:+ "_"
              +:+ pretty workerID +:+ ".dat").

Fixpoint createTestFiles_from (env : Env) (view : View) (todo : nat) (workerID : Z)
    (i : IOStressPlugin) : outcome IOStressPlugin :=
  match todo with
  | O => Returns None i
  | S todo' =>
      match polls view (Z.to_nat workerID) with
      | Some e => Returns (Some e) i
      | None =>
          let filename := testFileName env (TempDir (io_config i)) workerID in
          match createFile env filename with
          | Some e =>
              Returns (Some (Errorf "failed to create test file %s: %w"
                                    [ArgStr filename] (Some e))) i
          | None =>
              createTestFiles_from env view todo' (workerID + 1)
                {| io_config := io_config i; io_metrics := io_metrics i;
                   testFiles := testFiles i ++ [filename];
                   io_stopChan := io_stopChan i; fileSizeBytes := fileSizeBytes i;
                   blockSizeBytes := blockSizeBytes i |}
          end
      end
  end.

Definition createTestFiles (env : Env) (view : View) (i : IOStressPlugin)
  : outcome IOStressPlugin :=
  createTestFiles_from env view (Z.to_nat (io_Workers (io_config i))) 0 i.

(** [Execute].  As for the memory workload, the workers are followed only
    as far as their leaving the loop goes. *)
Definition io_Execute (env : Env) (view : View) (params : TestParams)
    (i : IOStressPlugin) : outcome IOStressPlugin :=
  match createTestFiles env view (io_with_metrics zero_IOMetrics i) with
  | Returns None i' =>
      let workers_done :=
        (io_Workers (io_config i') <=? 0)
        || match io_stopChan i' with ChanClosed => true | ChanOpen => false end
        || match at_return view with Some _ => true | None => false end in
      match select view workers_done with
      | Some (CaseDone e) => Returns (Some e) i'
      | Some CaseOther => Returns None i'
      | None => Blocks
      end
  | Returns (Some e) i' =>
      Returns (Some (Errorf "failed to create test files: %w" [] (Some e))) i'
  | stop => stop
  end.

(** [Cleanup]: a file that cannot be removed only prints a warning. *)
Definition io_Cleanup (i : IOStressPlugin) : outcome IOStressPlugin :=
  match close (io_stopChan i) with
  | Some ch =>
      Returns None
        {| io_config := io_config i; io_metrics := io_metrics i;
           testFiles := [];
           io_stopChan := ch; fileSizeBytes := fileSizeBytes i;
           blockSizeBytes := blockSizeBytes i |}
  | None => Panics close_panic i
  end.

Definition io_GetSafetyLimits (i : IOStressPlugin) : SafetyLimits :=
  {| MaxCPUPercent := 30%float; MaxMemoryPercent := 20%float;
     MaxDiskPercent := 95%float; MaxNetworkMbps := 10%float |}.

#[export] Instance IOStressPlugin_StressPlugin : StressPlugin IOStressPlugin := {|
  Name _ := "io-stress";
  Initialize := io_Initialize;
  Execute := io_Execute;
  Cleanup := io_Cleanup;
  GetSafetyLimits := io_GetSafetyLimits
|}.

(** *** The registry: a tagged variant over the three built-in kinds *)

Inductive AnyPlugin :=
| CPU (c : CPUStressPlugin)
| Memory (m : MemoryStressPlugin)
| IO (i : IOStressPlugin).

Definition outcome_map {A B : Type} (f : A -> B) (o : outcome A) : outcome B :=
  match o with
  | Returns err a => Returns err (f a)
  | Panics msg a => Panics msg (f a)
  | Blocks => Blocks
  end.

#[export] Instance AnyPlugin_StressPlugin : StressPlugin AnyPlugin := {|
  Name p := match p with
            | CPU c => Name c
            | Memory m => Name m
            | IO i => Name i
            end;
  Initialize env config p :=
    match p with
    | CPU c => outcome_map CPU (Initialize env config c)
    | Memory m => outcome_map Memory (Initialize env config m)
    | IO i => outcome_map IO (Initialize env config i)
    end;
  Execute env view params p :=
    match p with
    | CPU c => outcome_map CPU (Execute env view params c)
    | Memory m => outcome_map Memory (Execute env view params m)
    | IO i => outcome_map IO (Execute env view params i)
    end;
  Cleanup p :=
    match p with
    | CPU c => outcome_map CPU (Cleanup c)
    | Memory m => outcome_map Memory (Cleanup m)
    | IO i => outcome_map IO (Cleanup i)
    end;
  GetSafetyLimits p :=
    match p with
    | CPU c => GetSafetyLimits c
    | Memory m => GetSafetyLimits m
    | IO i => GetSafetyLimits i
    end
|}.

(** *** The plugin manager *)

Inductive Call := CallInitialize | CallExecute | CallCleanup.

(** [calls] is a history variable, absent from the source: the lifecycle
    methods the manager has invoked, with the plugin's registry name, in
    call order (what a recording mock would have seen). *)
Record PluginManager (P : Type) := {
  plugins_ : gmap string P;
  calls : list (string * Call)
}.
Arguments plugins_ {P} _.
Arguments calls {P} _.

Section PluginManager.
Context {P : Type} `{StressPlugin P}.

Definition NewPluginManager : PluginManager P :=
  {| plugins_ := ∅; calls := [] |}.

Definition RegisterPlugin (plugin : P) (pm : PluginManager P) : PluginManager P :=
  {| plugins_ := <[Name plugin := plugin]> (plugins_ pm); calls := calls pm |}.

Definition GetPlugin (name : string) (pm : PluginManager P) : option P :=
  plugins_ pm !! name.

(** [ListPlugins]; the order is that in which the map is ranged over. *)
Definition ListPlugins (pm : PluginManager P) : list P :=
  (map_to_list (plugins_ pm)).*2.

(** The plugin is held by pointer: what a method does to it is seen
    through the registry. *)
Definition called (name : string) (c : Call) (plugin : P) (pm : PluginManager P)
  : PluginManager P :=
  {| plugins_ := <[name := plugin]> (plugins_ pm); calls := calls pm ++ [(name, c)] |}.

(** [defer plugin.Cleanup()]: runs when [ExecutePlugin] leaves, its
    error dropped; [leaving] is how the body left. *)
Definition deferred_Cleanup (name : string) (leaving : outcome P) (pm : PluginManager P)
  : outcome (PluginManager P) :=
  match leaving with
  | Returns err plugin =>
      match Cleanup plugin with
      | Returns _ plugin' => Returns err (called name CallCleanup plugin' pm)
      | Panics msg plugin' => Panics msg (called name CallCleanup plugin' pm)
      | Blocks => Blocks
      end
  | Panics msg plugin =>
      match Cleanup plugin with
      | Returns _ plugin' => Panics msg (called name CallCleanup plugin' pm)
      | Panics msg' plugin' => Panics msg' (called name CallCleanup plugin' pm)
      | Blocks => Blocks
      end
  | Blocks => Blocks
  end.

Definition ExecutePlugin (env : Env) (view : View) (name : string)
    (config : PluginConfig) (params : TestParams) (pm : PluginManager P)
  : outcome (PluginManager P) :=
  match GetPlugin name pm with
  | None => Returns (Some ErrPluginNotFound) pm
  | Some plugin =>
      match Initialize env config plugin with
      | Returns (Some err) plugin' =>
          Returns (Some err) (called name CallInitialize plugin' pm)
      | Returns None plugin' =>
          let pm1 := called name CallInitialize plugin' pm in
          let leaving := Execute env view params plugin' in
          match leaving with
          | Blocks => Blocks
          | Returns _ plugin'' | Panics _ plugin'' =>
              deferred_Cleanup name leaving (called name CallExecute plugin'' pm1)
          end
      | Panics msg plugin' => Panics msg (called name CallInitialize plugin' pm)
      | Blocks => Blocks
      end
  end.

End PluginManager.

End plugins.

(** ** internal/core: the test orchestrator *)
Module core.
Import models golib plugins.

(** [json.RawMessage]: empty, not a JSON text (with the error
    [json.Unmarshal] returns for it), or a JSON text. *)
Inductive RawMessage :=
| RawEmpty
| RawInvalid (e : error)
| RawValue (v : PluginConfig).

Record TestConfiguration := {
  cfg_ID : string;
  cfg_Name : string;
  Plugin : string;
  Config : RawMessage
}.

(** A [context.WithTimeout] context: [err] is [ctx.Err()]. *)
Record Context := {
  deadline : Time;
  err : option error
}.

(** [cancel()]: the first of cancel and timeout decides the error. *)
Definition cancel (ctx : Context) : Context :=
  match err ctx with
  | Some _ => ctx
  | None => {| deadline := deadline ctx; err := Some ContextCanceled |}
  end.

(** The context's timer fires. *)
Definition expire (ctx : Context) : Context :=
  match err ctx with
  | Some _ => ctx
  | None => {| deadline := deadline ctx; err := Some ContextDeadlineExceeded |}
  end.

Record MetricPoint := {
  mp_Timestamp : Time;
  mp_TestID : string;
  mp_Source : string
}.

Record TestExecution := {
  ID : string;
  Config_ : TestConfiguration;
  Status : ExecutionStatus;
  StartTime : Time;
  EndTime : option Time;
  Context_ : Context;
  Metrics : list MetricPoint;
  ErrorMessage : option Formatted
}.

Record TestOrchestrator (P : Type) := {
  pluginManager : PluginManager P;
  executions : gmap string TestExecution
}.
Arguments pluginManager {P} _.
Arguments executions {P} _.

Definition NotFound (executionID : string) : error :=
  Errorf "test execution not found: %s" [ArgStr executionID] None.

Definition NotRunning (status : ExecutionStatus) : error :=
  Errorf "test is not running: %s" [ArgStr (ExecutionStatus_string status)] None.

Definition set_state (e : TestExecution) (status : ExecutionStatus)
    (endTime : option Time) (msg : option Formatted) : TestExecution :=
  {| ID := ID e; Config_ := Config_ e; Status := status; StartTime := StartTime e;
     EndTime := endTime; Context_ := Context_ e; Metrics := Metrics e;
     ErrorMessage := msg |}.

Definition set_Context (e : TestExecution) (ctx : Context) : TestExecution :=
  {| ID := ID e; Config_ := Config_ e; Status := Status e; StartTime := StartTime e;
     EndTime := EndTime e; Context_ := ctx; Metrics := Metrics e;
     ErrorMessage := ErrorMessage e |}.

Definition finishTestWithError (e : TestExecution) (err : error) (now : Time)
  : TestExecution :=
  set_state e StatusFailed (Some now) (Some (Error err)).

Definition finishTestWithStatus (e : TestExecution) (status : ExecutionStatus)
    (now : Time) : TestExecution :=
  set_state e status (Some now) (ErrorMessage e).

Definition handleTestPanic (e : TestExecution) (r : string) (now : Time)
  : TestExecution :=
  set_state e StatusFailed (Some now) (Some (Sprintf "Test panicked: %v" [ArgStr r])).

Section Orchestrator.
Context {P : Type} `{StressPlugin P}.

Definition NewTestOrchestrator (pm : PluginManager P) : TestOrchestrator P :=
  {| pluginManager := pm; executions := ∅ |}.

Definition with_execution (id : string) (e : TestExecution) (to : TestOrchestrator P)
  : TestOrchestrator P :=
  {| pluginManager := pluginManager to;
     executions := <[id := e]> (executions to) |}.

(** [StartTest].  [executionID] is the fresh UUID; [now_ctx] and
    [now_start] are the clock readings of [context.WithTimeout] and of
    [StartTime: time.Now()].  The goroutine it starts is
    [executeTest_begin] followed by [executeTest_run] below. *)
Definition StartTest (executionID : string) (now_ctx now_start : Time)
    (config : TestConfiguration) (params : TestParams) (to : TestOrchestrator P)
  : result string * TestOrchestrator P :=
  match GetPlugin (Plugin config) (pluginManager to) with
  | None => (Err (Errorf "plugin not found: %s" [ArgStr (Plugin config)] None), to)
  | Some _ =>
      let execution :=
        {| ID := executionID; Config_ := config; Status := StatusPending;
           StartTime := now_start; EndTime := None;
           Context_ := {| deadline := now_ctx + Duration_ params; err := None |};
           Metrics := []; ErrorMessage := None |} in
      (Ok executionID, with_execution executionID execution to)
  end.

(** [executeTest], first step: "Update status to running". *)
Definition executeTest_begin (id : string) (to : TestOrchestrator P)
  : TestOrchestrator P :=
  match executions to !! id with
  | None => to
  | Some e => with_execution id (set_state e StatusRunning (EndTime e) (ErrorMessage e)) to
  end.

(** [json.Unmarshal(execution.Config.Config, &pluginConfig)], skipped for
    an empty message. *)
Definition plugin_config (raw : RawMessage) : result PluginConfig :=
  match raw with
  | RawEmpty => Ok CfgNil
  | RawInvalid e => Err e
  | RawValue v => Unmarshal_interface v
  end.

(** [ctx.Err() == context.Canceled]. *)
Definition Canceled (ctx : Context) : bool :=
  match err ctx with
  | Some ContextCanceled => true
  | _ => false
  end.

(** [executeTest], the rest: parse the configuration, run the plugin
    through the manager, and record how it ended.  The plugin runs under
    the execution's context: [at_return] of its view is the context's
    error as the orchestrator state has it, which is also what
    [execution.Context.Err()] reads afterwards.  While the plugin
    blocks, nothing is recorded. *)
Definition executeTest_run (env : Env) (polls : nat -> option error)
    (timer_fired done_first : bool) (params : TestParams) (now : Time)
    (id : string) (to : TestOrchestrator P) : TestOrchestrator P :=
  match executions to !! id with
  | None => to
  | Some e =>
      match plugin_config (Config (Config_ e)) with
      | Err perr =>
          with_execution id
            (finishTestWithError e
               (Errorf "failed to parse plugin config: %w" [] (Some perr)) now) to
      | Ok pluginConfig =>
          let view := {| golib.polls := polls; at_return := err (Context_ e);
                         golib.timer_fired := timer_fired;
                         golib.done_first := done_first |} in
          match ExecutePlugin env view (Plugin (Config_ e)) pluginConfig params
                              (pluginManager to) with
          | Blocks => to
          | Panics r pm =>
              {| pluginManager := pm;
                 executions := <[id := handleTestPanic e r now]> (executions to) |}
          | Returns (Some perr) pm =>
              let e' :=
                if Canceled (Context_ e)
                then finishTestWithStatus e StatusStopped now
                else finishTestWithError e perr now in
              {| pluginManager := pm; executions := <[id := e']> (executions to) |}
          | Returns None pm =>
              {| pluginManager := pm;
                 executions :=
                   <[id := finishTestWithStatus e StatusCompleted now]> (executions to) |}
          end
      end
  end.

(** [StopTest]. *)
Definition StopTest (executionID : string) (to : TestOrchestrator P)
  : option error * TestOrchestrator P :=
  match executions to !! executionID with
  | None => (Some (NotFound executionID), to)
  | Some execution =>
      if bool_decide (Status execution ≠ StatusRunning)
      then (Some (NotRunning (Status execution)), to)
      else (None, with_execution executionID
                    (set_Context execution (cancel (Context_ execution))) to)
  end.

(** [EmergencyStop]. *)
Definition EmergencyStop (executionID : string) (reason : Formatted) (now : Time)
    (to : TestOrchestrator P) : option error * TestOrchestrator P :=
  match executions to !! executionID with
  | None => (Some (NotFound executionID), to)
  | Some execution =>
      let cancelled := set_Context execution (cancel (Context_ execution)) in
      (None, with_execution executionID
               (set_state cancelled StatusFailed (Some now) (Some reason)) to)
  end.

(** The timer of an execution's context fires. *)
Definition deadline_reached (id : string) (to : TestOrchestrator P)
  : TestOrchestrator P :=
  match executions to !! id with
  | None => to
  | Some e => with_execution id (set_Context e (expire (Context_ e))) to
  end.

Definition status_of (id : string) (to : TestOrchestrator P) : option ExecutionStatus :=
  Status <$> executions to !! id.

(** "Convert to model", as [GetTestStatus] and [ListExecutions] both do
    it. *)
Definition to_model (execution : TestExecution) : models.TestExecution :=
  {| te_ID := ID execution;
     te_TestID := cfg_ID (Config_ execution);
     te_Status := Status execution;
     te_StartTime := Some (StartTime execution);
     te_EndTime := EndTime execution;
     te_Duration :=
       match EndTime execution with
       | Some endTime => Sub endTime (StartTime execution)
       | None => 0
       end;
     te_ErrorMessage := ErrorMessage execution |}.

(** [GetTestStatus]. *)
Definition GetTestStatus (executionID : string) (to : TestOrchestrator P)
  : result models.TestExecution :=
  match executions to !! executionID with
  | None => Err (NotFound executionID)
  | Some execution => Ok (to_model execution)
  end.

(** [ListExecutions]: one report per execution.  Go leaves the order in
    which a map is ranged over open; here it is the order of
    [map_to_list]. *)
Definition ListExecutions (to : TestOrchestrator P) : list models.TestExecution :=
  (fun entry => to_model entry.2) <$> map_to_list (executions to).

(** [GetTestMetrics]: a copy of the execution's metric points. *)
Definition GetTestMetrics (executionID : string) (to : TestOrchestrator P)
  : result (list MetricPoint) :=
  match executions to !! executionID with
  | None => Err (NotFound executionID)
  | Some execution => Ok (Metrics execution)
  end.

(** [AddMetric]. *)
Definition AddMetric (executionID : string) (metric : MetricPoint)
    (to : TestOrchestrator P) : option error * TestOrchestrator P :=
  match executions to !! executionID with
  | None => (Some (NotFound executionID), to)
  | Some execution =>
      (None, with_execution executionID
               {| ID := ID execution; Config_ := Config_ execution;
                  Status := Status execution; StartTime := StartTime execution;
                  EndTime := EndTime execution; Context_ := Context_ execution;
                  Metrics := Metrics execution ++ [metric];
                  ErrorMessage := ErrorMessage execution |} to)
  end.

(** [shouldClean] of [CleanupCompletedTests]. *)
Definition shouldClean (cutoff : Time) (execution : TestExecution) : bool :=
  bool_decide (Status execution ≠ StatusRunning)
  && bool_decide (Status execution ≠ StatusPending)
  && match EndTime execution with
     | Some endTime => Before endTime cutoff
     | None => false
     end.

(** [CleanupCompletedTests]: the loop ranges over the map and deletes from
    it as it goes; the result is the number of executions deleted. *)
Definition CleanupCompletedTests (maxAge : Duration) (now : Time)
    (to : TestOrchestrator P) : Z * TestOrchestrator P :=
  let cutoff := now - maxAge in
  let '(cleaned, remaining) :=
    map_fold (fun id execution (acc : Z * gmap string TestExecution) =>
                if shouldClean cutoff execution
                then (acc.1 + 1, delete id acc.2)
                else acc)
             (0, executions to) (executions to) in
  (cleaned, {| pluginManager := pluginManager to; executions := remaining |}).

(** The execution [id] is not Running: its status is another one, or it is
    no longer on record, which [reaped] tells whether it may be. *)
Definition not_running (reaped : bool) (id : string) (to : TestOrchestrator P) : Prop :=
  match executions to !! id with
  | Some e => Status e <> StatusRunning
  | None => reaped = true
  end.

(** What can happen to the orchestrator after the worker of execution [id]
    has started: calls of the public operations with any arguments, timers
    firing, steps of any worker's run, the start of other workers, and new
    executions, which get ids of their own.  The worker of [id] starts
    once.  [reaping] tells whether calls of [CleanupCompletedTests] are
    among the operations. *)
Inductive later (reaping : bool) (id : string)
  : TestOrchestrator P -> TestOrchestrator P -> Prop :=
| later_StopTest id' to :
    later reaping id to (StopTest id' to).2
| later_EmergencyStop id' reason now to :
    later reaping id to (EmergencyStop id' reason now to).2
| later_deadline id' to :
    later reaping id to (deadline_reached id' to)
| later_run env polls timer_fired done_first params now id' to :
    later reaping id to
      (executeTest_run env polls timer_fired done_first params now id' to)
| later_begin id' to :
    id' <> id -> later reaping id to (executeTest_begin id' to)
| later_StartTest id' now_ctx now_start config params to :
    id' <> id ->
    executions to !! id' = None ->
    later reaping id to (StartTest id' now_ctx now_start config params to).2
| later_AddMetric id' metric to :
    later reaping id to (AddMetric id' metric to).2
| later_Cleanup maxAge now to :
    reaping = true ->
    later reaping id to (CleanupCompletedTests maxAge now to).2.

(** Everything that can happen to the orchestrator's state: the public
    operations, the two steps of a worker, and the timer of a context. *)
Inductive step : TestOrchestrator P -> TestOrchestrator P -> Prop :=
| step_StartTest id now_ctx now_start config params to :
    step to (StartTest id now_ctx now_start config params to).2
| step_begin id to :
    step to (executeTest_begin id to)
| step_run env polls timer_fired done_first params now id to :
    step to (executeTest_run env polls timer_fired done_first params now id to)
| step_StopTest id to :
    step to (StopTest id to).2
| step_EmergencyStop id reason now to :
    step to (EmergencyStop id reason now to).2
| step_deadline id to :
    step to (deadline_reached id to)
| step_AddMetric id metric to :
    step to (AddMetric id metric to).2
| step_Cleanup maxAge now to :
    step to (CleanupCompletedTests maxAge now to).2.

(** "Check if test is complete" of [waitForTestCompletion]. *)
Definition complete (status : ExecutionStatus) : bool :=
  match status with
  | StatusCompleted | StatusFailed | StatusStopped => true
  | StatusPending | StatusRunning => false
  end.

(** What holds of every execution on record, whatever has happened: it is
    filed under its own id, it has an end time once its status is final,
    and it has neither end time nor error message while it is pending. *)
Definition well_filed (to : TestOrchestrator P) : Prop :=
  forall id e,
    executions to !! id = Some e ->
    ID e = id
    /\ (complete (Status e) = true -> EndTime e <> None)
    /\ (Status e = StatusPending -> EndTime e = None /\ ErrorMessage e = None).

End Orchestrator.

Section Supervision.
Context {P : Type} `{StressPlugin P} {S : Type} `{safety.SystemMonitor S}.

(** The reason [monitorSafety] gives for its emergency stop. *)
Definition critical_violation_reason (violation : safety.Violation) : Formatted :=
  Sprintf "Critical safety violation: %s" [ArgText (safety.v_Message violation)].

(** One tick of [monitorSafety] for the execution [id].  [safetyMonitor]
    is the orchestrator's monitor; [now] and [now_rec] are the clock
    readings inside [CheckSafetyLimits], [now_stop] the one of
    [EmergencyStop].  The first component says whether the loop returns
    after this tick. *)
Definition monitorSafety_tick (safetyLimits : SafetyLimits)
    (now now_rec now_stop : Time) (id : string)
    (safetyMonitor : safety.Monitor S) (to : TestOrchestrator P)
  : bool * safety.Monitor S * TestOrchestrator P :=
  match safety.CheckSafetyLimits safetyLimits now now_rec safetyMonitor with
  | (Some violation, safetyMonitor') =>
      if safety.v_Critical violation
      then (true, safetyMonitor',
            (EmergencyStop id (critical_violation_reason violation) now_stop to).2)
      else (false, safetyMonitor', to)
  | (None, safetyMonitor') => (false, safetyMonitor', to)
  end.

End Supervision.

(** *** The [Orchestrator] around the test orchestrator: waiting for the
    end of a test and scoring it *)

(** A value of [metric.Fields]: a float64, or a value of another type. *)
Inductive FieldValue := Float64Value (f : float64) | OtherValue.

Record TestResult := {
  tr_TestID : string;
  tr_Status : ExecutionStatus;
  tr_Duration : Duration;
  tr_Metrics : list MetricPoint;
  tr_Score : float64;
  tr_Passed : bool;
  tr_Errors : list Formatted
}.

Section Results.
Context {P : Type} `{StressPlugin P}.

(** [metric.Fields], which [MetricPoint] above leaves out. *)
Variable Fields : MetricPoint -> gmap string FieldValue.

(** The constant [0.9]: the float64 nearest to it. *)
Definition point_nine : float64 := 0x1.ccccccccccccdp-1%float.

(** The body of the loop of [calculateTestScore]. *)
Definition deduct (performanceScore : float64) (metric : MetricPoint) : float64 :=
  match Fields metric !! "usage_percent" with
  | Some (Float64Value cpuUsage) =>
      if fgt cpuUsage 95%float then PrimFloat.mul performanceScore point_nine
      else performanceScore
  | _ => performanceScore
  end.

(** [calculateTestScore]. *)
Definition calculateTestScore (execution : models.TestExecution)
    (metrics : list MetricPoint) : float64 :=
  let baseScore := 100%float in
  let baseScore :=
    if bool_decide (te_Status execution = StatusFailed)
    then PrimFloat.sub baseScore 50%float
    else if bool_decide (te_Status execution = StatusStopped)
    then PrimFloat.sub baseScore 25%float
    else baseScore in
  if (length metrics =? 0)%nat then PrimFloat.mul baseScore 0.5%float
  else
    let performanceScore := fold_left deduct metrics 1%float in
    PrimFloat.mul baseScore performanceScore.

(** One tick of [waitForTestCompletion]: [None] when the loop goes on
    waiting.  [GetTestStatus] and [GetTestMetrics] take the lock one after
    the other, so each sees the orchestrator as it is at its own call:
    [to] and [to_metrics]. *)
Definition waitForTestCompletion_tick (executionID : string)
    (to to_metrics : TestOrchestrator P) : option (result TestResult) :=
  match GetTestStatus executionID to with
  | Err err => Some (Err (Errorf "failed to get test status: %w" [] (Some err)))
  | Ok execution =>
      if complete (te_Status execution) then
        let metrics :=
          match GetTestMetrics executionID to_metrics with
          | Ok metrics => metrics
          | Err _ => []
          end in
        let score := calculateTestScore execution metrics in
        let passed :=
          bool_decide (te_Status execution = StatusCompleted) && fle 70%float score in
        Some (Ok {| tr_TestID := te_TestID execution;
                    tr_Status := te_Status execution;
                    tr_Duration := te_Duration execution;
                    tr_Metrics := metrics;
                    tr_Score := score;
                    tr_Passed := passed;
                    tr_Errors :=
                      match te_ErrorMessage execution with
                      | Some message => [message]
                      | None => []
                      end |})
      else None
  end.

(** The number of metric points that carry a float64 [usage_percent]
    above 95. *)
Definition hot (metric : MetricPoint) : bool :=
  match Fields metric !! "usage_percent" with
  | Some (Float64Value cpuUsage) => fgt cpuUsage 95%float
  | _ => false
  end.

End Results.

(** The safety configuration [NewOrchestrator] hands to
    [safety.NewMonitor]. *)
Definition safetyConfig : safety.Config :=
  {| safety.CheckInterval := 1 * Second;
     safety.AlertThreshold := 85%float;
     safety.EmergencyThreshold := 95%float;
     safety.AutoStopEnabled := true;
     safety.RampUpEnabled := true;
     safety.RampUpDuration := 30 * Second;
     safety.RampUpSteps := 10;
     safety.CooldownPeriod := 60 * Second;
     safety.MaxViolationsPerMin := 5 |}.

End core.

(** ** internal/metrics: starting and stopping the collector *)
Module collecting.
Import golib.

(** The collector with what [metrics.Collector] above leaves out: its stop
    channel.  [loops_started] is a history variable, absent from the
    source: the number of [go c.collectLoop(ctx)] statements executed. *)
Record Collector := {
  collector : metrics.Collector;
  stopChan : chan;
  loops_started : nat
}.

Definition NewCollector : Collector :=
  {| collector := metrics.NewCollector; stopChan := ChanOpen; loops_started := 0 |}.

Definition set_isCollecting (b : bool) (c : metrics.Collector) : metrics.Collector :=
  {| metrics.metrics_ := metrics.metrics_ c; metrics.isCollecting := b |}.

(** [Start]. *)
Definition Start (c : Collector) : option error * Collector :=
  if metrics.isCollecting (collector c) then (None, c)
  else (None, {| collector := set_isCollecting true (collector c);
                 stopChan := stopChan c;
                 loops_started := S (loops_started c) |}).

(** [Stop]. *)
Definition Stop (c : Collector) : outcome Collector :=
  if negb (metrics.isCollecting (collector c)) then Returns None c
  else
    match plugins.close (stopChan c) with
    | Some ch =>
        Returns None {| collector := set_isCollecting false (collector c);
                        stopChan := ch;
                        loops_started := loops_started c |}
    | None => Panics plugins.close_panic c
    end.

(** The cases of the [select] of [collectLoop]. *)
Inductive ready := CtxDone | StopClosed | Ticked (now : Time) (p : metrics.Probe).

(** The cases that are ready: the context is done or not, a closed stop
    channel is always ready, and the ticker has delivered a tick or not. *)
Definition ready_cases (ctx_done : bool) (tick : option (Time * metrics.Probe))
    (c : Collector) : list ready :=
  (if ctx_done then [CtxDone] else [])
  ++ match stopChan c with ChanClosed => [StopClosed] | ChanOpen => [] end
  ++ match tick with Some (now, p) => [Ticked now p] | None => [] end.

(** One pass through the loop of [collectLoop]: [None] while no case is
    ready; otherwise the runtime takes one of the ready cases ([pick]), and
    the loop returns ([Some None]) or collects and goes on. *)
Definition collectLoop_turn (ctx_done : bool) (tick : option (Time * metrics.Probe))
    (pick : nat) (c : Collector) : option (option Collector) :=
  let cases := ready_cases ctx_done tick c in
  match cases !! (pick mod length cases)%nat with
  | None => None
  | Some CtxDone | Some StopClosed => Some None
  | Some (Ticked now p) =>
      Some (Some {| collector := metrics.collectSystemMetrics now p (collector c);
                    stopChan := stopChan c;
                    loops_started := loops_started c |})
  end.

End collecting.

(** ** internal/safety: the shipped system monitor *)
Module system_monitor.
Import golib safety.

Definition uint64 (z : Z) : Z := z mod 2 ^ 64.

(** [float64(u)] for a uint64: the nearest float64.  Above 2^63 the
    conversion halves the number first, keeping the lost bit as a sticky
    bit. *)
Definition float64_of_uint64 (u : Z) : float64 :=
  if u <? 2 ^ 63 then PrimFloat.of_uint63 (Uint63.of_Z u)
  else PrimFloat.mul
         (PrimFloat.of_uint63 (Uint63.of_Z (Z.lor (Z.shiftr u 1) (Z.land u 1))))
         2%float.

(** [strconv.ParseUint(s, 10, 64)]; its callers drop the error. *)
Definition ParseUint (s : string) : option Z :=
  match s with
  | EmptyString => None
  | _ =>
      match digits s 0 with
      | Some n => if n <? 2 ^ 64 then Some n else None
      | None => None
      end
  end.

(** [strings.Contains]. *)
Definition Contains (s substr : string) : bool :=
  match String.index 0 substr s with
  | Some _ => true
  | None => false
  end.

Record CPUStats := {
  User : Z;
  Nice : Z;
  System : Z;
  Idle : Z;
  IOWait : Z;
  IRQ : Z;
  SoftIRQ : Z;
  Total : Z
}.

Definition zero_CPUStats : CPUStats :=
  {| User := 0; Nice := 0; System := 0; Idle := 0; IOWait := 0; IRQ := 0;
     SoftIRQ := 0; Total := 0 |}.

Record SystemMonitorImpl := {
  lastCPUStats : CPUStats;
  lastCheck : option Time   (* [None] is the zero time *)
}.

Definition NewSystemMonitor : SystemMonitorImpl :=
  {| lastCPUStats := zero_CPUStats; lastCheck := None |}.

(** What [syscall.Statfs] fills in. *)
Record Statfs_t := { Blocks : Z; Bavail : Z; Bsize : Z }.

(** The host at one moment, as far as the monitor reads it.  A file under
    /proc is absent when it cannot be opened, and is otherwise given by its
    lines, each cut into fields as [strings.Fields] does; a thermal zone
    file is given by the number [strconv.ParseFloat] reads in its trimmed
    content, or by the error of reading or parsing it. *)
Record Host := {
  runtime_NumCPU : Z;
  proc_stat : option (list (list string));
  proc_meminfo : option (list (list string));
  proc_net_dev : option (list (list string));
  Statfs : result Statfs_t;
  thermal_zone : string -> result float64;
  ReadMemStats : MemStats
}.

(** The monitor on its host: [host k] is the host at the k-th call of an
    accessor, [now k] the clock then. *)
Record Running := {
  impl : SystemMonitorImpl;
  host : nat -> Host;
  now : nat -> Time;
  calls : nat
}.

Definition next (s : SystemMonitorImpl) (r : Running) : Running :=
  {| impl := s; host := host r; now := now r; calls := S (calls r) |}.

(** [getCPUStatsRuntime]. *)
Definition getCPUStatsRuntime (numCPU : Z) : CPUStats :=
  {| User := uint64 (wrap64 (numCPU * 1000));
     Nice := 0;
     System := uint64 (wrap64 (numCPU * 500));
     Idle := uint64 (wrap64 (numCPU * 8500));
     IOWait := 0; IRQ := 0; SoftIRQ := 0;
     Total := uint64 (wrap64 (numCPU * 10000)) |}.

(** [readCPUStats]. *)
Definition readCPUStats (h : Host) : result CPUStats :=
  match proc_stat h with
  | None => Ok (getCPUStatsRuntime (runtime_NumCPU h))
  | Some [] => Err (Errorf "failed to read CPU stats" [] None)
  | Some (fields :: _) =>
      if (length fields <? 8)%nat || negb (String.eqb (nth 0 fields EmptyString) "cpu")
      then Err (Errorf "invalid CPU stats format" [] None)
      else
        let field k :=
          match ParseUint (nth k fields EmptyString) with
          | Some val => val
          | None => 0
          end in
        let '(user, nice, system, idle) := (field 1%nat, field 2%nat, field 3%nat, field 4%nat) in
        let '(iowait, irq, softirq) := (field 5%nat, field 6%nat, field 7%nat) in
        Ok {| User := user; Nice := nice; System := system; Idle := idle;
              IOWait := iowait; IRQ := irq; SoftIRQ := softirq;
              Total := uint64 (user + nice + system + idle + iowait + irq + softirq) |}
  end.

(** [GetCPUUsage]. *)
Definition GetCPUUsage (r : Running) : result float64 * Running :=
  let s := impl r in
  match readCPUStats (host r (calls r)) with
  | Err err => (Err (Errorf "failed to read CPU stats: %w" [] (Some err)), next s r)
  | Ok stats =>
      let now := now r (calls r) in
      match lastCheck s with
      | None => (Ok 0%float, next {| lastCPUStats := stats; lastCheck := Some now |} r)
      | Some _ =>
          let totalDiff := uint64 (Total stats - Total (lastCPUStats s)) in
          let idleDiff := uint64 (Idle stats - Idle (lastCPUStats s)) in
          if totalDiff =? 0 then (Ok 0%float, next s r)
          else
            let usage :=
              PrimFloat.mul
                (PrimFloat.div (float64_of_uint64 (uint64 (totalDiff - idleDiff)))
                               (float64_of_uint64 totalDiff))
                100%float in
            (Ok usage, next {| lastCPUStats := stats; lastCheck := Some now |} r)
      end
  end.

(** [getMemoryUsageRuntime]. *)
Definition getMemoryUsageRuntime (h : Host) : result float64 :=
  let memStats := ReadMemStats h in
  let usage :=
    PrimFloat.mul
      (PrimFloat.div (float64_of_uint64 (HeapAlloc memStats))
                     (float64_of_uint64 (Sys memStats)))
      100%float in
  Ok (if fgt usage 100%float then 100%float else usage).

(** The loop of [GetMemoryUsage] over the lines of /proc/meminfo. *)
Definition meminfo_line (acc : Z * Z) (fields : list string) : Z * Z :=
  let '(memTotal, memAvailable) := acc in
  if (length fields <? 2)%nat then acc
  else if String.eqb (nth 0 fields EmptyString) "MemTotal:" then
    match ParseUint (nth 1 fields EmptyString) with
    | Some val => (uint64 (val * 1024), memAvailable)
    | None => acc
    end
  else if String.eqb (nth 0 fields EmptyString) "MemAvailable:" then
    match ParseUint (nth 1 fields EmptyString) with
    | Some val => (memTotal, uint64 (val * 1024))
    | None => acc
    end
  else acc.

(** [GetMemoryUsage]. *)
Definition GetMemoryUsage (r : Running) : result float64 * Running :=
  let h := host r (calls r) in
  let reading :=
    match proc_meminfo h with
    | None => getMemoryUsageRuntime h
    | Some lines =>
        let '(memTotal, memAvailable) := fold_left meminfo_line lines (0, 0) in
        if memTotal =? 0 then getMemoryUsageRuntime h
        else
          let used := uint64 (memTotal - memAvailable) in
          Ok (PrimFloat.mul
                (PrimFloat.div (float64_of_uint64 used) (float64_of_uint64 memTotal))
                100%float)
    end in
  (reading, next (impl r) r).

(** [GetDiskUsage]. *)
Definition GetDiskUsage (r : Running) : result float64 * Running :=
  let reading :=
    match Statfs (host r (calls r)) with
    | Err err => Err (Errorf "failed to get disk stats: %w" [] (Some err))
    | Ok stat =>
        let total := uint64 (Blocks stat * uint64 (Bsize stat)) in
        let free := uint64 (Bavail stat * uint64 (Bsize stat)) in
        let used := uint64 (total - free) in
        if total =? 0 then Ok 0%float
        else Ok (PrimFloat.mul
                   (PrimFloat.div (float64_of_uint64 used) (float64_of_uint64 total))
                   100%float)
    end in
  (reading, next (impl r) r).

(** The loop of [GetNetworkUsage] over the lines of /proc/net/dev after
    the two header lines. *)
Definition net_dev_line (totalBytes : Z) (fields : list string) : Z :=
  if (length fields <? 10)%nat then totalBytes
  else if Contains (nth 0 fields EmptyString) "lo:" then totalBytes
  else
    let totalBytes :=
      match ParseUint (nth 1 fields EmptyString) with
      | Some rxBytes => uint64 (totalBytes + rxBytes)
      | None => totalBytes
      end in
    match ParseUint (nth 9 fields EmptyString) with
    | Some txBytes => uint64 (totalBytes + txBytes)
    | None => totalBytes
    end.

(** [GetNetworkUsage]. *)
Definition GetNetworkUsage (r : Running) : result float64 * Running :=
  let reading :=
    match proc_net_dev (host r (calls r)) with
    | None => Ok 0%float
    | Some lines =>
        let totalBytes := fold_left net_dev_line (drop 2 lines) 0 in
        let mbps :=
          PrimFloat.div
            (PrimFloat.div (float64_of_uint64 totalBytes) (float64_of_Z (1024 * 1024)))
            8%float in
        Ok (if fgt mbps 1000%float then 1000%float else mbps)
    end in
  (reading, next (impl r) r).

(** [readTemperatureFile]. *)
Definition readTemperatureFile (h : Host) (filename : string) : result float64 :=
  match thermal_zone h filename with
  | Err err => Err err
  | Ok tempMilliC => Ok (PrimFloat.div tempMilliC 1000%float)
  end.

Definition tempFiles : list string :=
  ["/sys/class/thermal/thermal_zone0/temp"; "/sys/class/thermal/thermal_zone1/temp"].

(** [GetSystemTemperature]. *)
Definition GetSystemTemperature (r : Running) : result float64 * Running :=
  let h := host r (calls r) in
  let fix first_readable (files : list string) : float64 :=
    match files with
    | [] => 35%float
    | file :: rest =>
        match readTemperatureFile h file with
        | Ok temp => temp
        | Err _ => first_readable rest
        end
    end in
  (Ok (first_readable tempFiles), next (impl r) r).

#[export] Instance Running_SystemMonitor : SystemMonitor Running := {|
  safety.GetCPUUsage := GetCPUUsage;
  safety.GetMemoryUsage := GetMemoryUsage;
  safety.GetDiskUsage := GetDiskUsage;
  safety.GetNetworkUsage := GetNetworkUsage;
  safety.GetSystemTemperature := GetSystemTemperature
|}.

(** A host on which /proc/stat cannot be opened, with a monitor that has
    read nothing else than the counters of [getCPUStatsRuntime]. *)
Definition without_proc_stat (r : Running) : Prop :=
  (forall k, proc_stat (host r k) = None
             /\ runtime_NumCPU (host r k) = runtime_NumCPU (host r 0%nat))
  /\ (lastCheck (impl r) = None
      \/ lastCPUStats (impl r) = getCPUStatsRuntime (runtime_NumCPU (host r 0%nat))).

End system_monitor.

(** ** The specification's wording of the behaviours that are compared with
    the code below *)
Module spec.
Import models safety.

Section Monitor.
Context {S : Type} `{SystemMonitor S}.

Definition error_or_critical (v : Violation) : bool :=
  bool_decide (v_Severity v = SeverityError)
  || bool_decide (v_Severity v = SeverityCritical).

(** The stop requests and the alerts one tick of [performSafetyCheck] adds. *)
Definition raised_in_tick (clk : TickClock) (memStats : MemStats) (m : Monitor S)
  : list Formatted :=
  drop (length (stopRequests m)) (stopRequests (performSafetyCheck clk memStats m)).

Definition alerted_in_tick (clk : TickClock) (memStats : MemStats) (m : Monitor S)
  : list Alert :=
  drop (length (alertManager m)) (alertManager (performSafetyCheck clk memStats m)).

(** "If the number of Error- or Critical-class violations in the last
    minute exceeds max_violations_per_minute, raises an emergency-stop
    with reason too many violations: N in last minute", read as an
    equivalence; the violations counted are those on record when the
    rate is checked. *)
Definition rate_gate_counts_error_and_critical (clk : TickClock)
    (memStats : MemStats) (m : Monitor S) : Prop :=
  (exists n, In (too_many_violations_reason n) (raised_in_tick clk memStats m))
  <-> MaxViolationsPerMin (config m)
      < Z.of_nat (length (List.filter error_or_critical
                            (getRecentViolations (1 * Minute) (now_rate clk)
                                                 (checkTemperature clk m)))).

(** "For temperature: warning >= 85 C, critical >= 90 C; a critical
    temperature violation also raises an emergency-stop." *)
Definition temperature_bands (clk : TickClock) (memStats : MemStats) (m : Monitor S)
  : Prop :=
  forall temp s',
    GetSystemTemperature (systemMonitor m) = (Ok temp, s') ->
    (fle 85%float temp = true -> flt temp 90%float = true ->
     (exists a, In a (alerted_in_tick clk memStats m)
                /\ a_Type a = "temperature" /\ a_Severity a = SeverityWarning)
     /\ raised_in_tick clk memStats m = [])
    /\ (fle 90%float temp = true ->
        (exists a, In a (alerted_in_tick clk memStats m)
                   /\ a_Type a = "temperature" /\ a_Severity a = SeverityCritical)
        /\ In (critical_temperature_reason temp) (raised_in_tick clk memStats m)).
End Monitor.

(** "Sample failures (Probe error) leave the prior snapshot unchanged." *)
Definition failed_tick_keeps_snapshot (now : Time) (p : metrics.Probe)
    (c : metrics.Collector) : Prop :=
  metrics.probe_failed p = true ->
  metrics.GetMetrics (metrics.collectSystemMetrics now p c) = metrics.GetMetrics c.



(** "Fails with NotFound if unknown; fails with NotRunning if the execution
    is not in Running", and "repeated StopTest on the same execution: first
    succeeds, subsequent return NotRunning". *)
Definition StopTest_errors {P : Type} `{plugins.StressPlugin P}
    (id : string) (to : core.TestOrchestrator P) : Prop :=
  match core.executions to !! id with
  | None => (core.StopTest id to).1 = Some (core.NotFound id)
  | Some e =>
      (core.Status e <> StatusRunning ->
       (core.StopTest id to).1 = Some (core.NotRunning (core.Status e)))
      /\ (core.Status e = StatusRunning ->
          (core.StopTest id to).1 = None
          /\ exists st, (core.StopTest id (core.StopTest id to).2).1
                        = Some (core.NotRunning st))
  end.

(** "Plugin Initialize error: Failed, no Execute, Cleanup not called", for
    the execution [id] whose worker finishes in state [to]. *)
Definition Initialize_error_fails_execution {P : Type} `{plugins.StressPlugin P}
    (env : golib.Env) (polls : nat -> option error) (timer_fired done_first : bool)
    (params : TestParams) (now : Time) (id : string) (to : core.TestOrchestrator P)
  : Prop :=
  forall e config plugin ierr plugin',
    core.executions to !! id = Some e ->
    core.plugin_config (core.Config (core.Config_ e)) = Ok config ->
    plugins.GetPlugin (core.Plugin (core.Config_ e)) (core.pluginManager to)
    = Some plugin ->
    plugins.Initialize env config plugin = golib.Returns (Some ierr) plugin' ->
    let to' := core.executeTest_run env polls timer_fired done_first params now id to in
    core.status_of id to' = Some StatusFailed
    /\ plugins.calls (core.pluginManager to')
       = plugins.calls (core.pluginManager to)
         ++ [(core.Plugin (core.Config_ e), plugins.CallInitialize)].

(** "Cancellation due to deadline: Completed", for the execution [id] whose
    context has expired, was never cancelled, and whose plugin returned the
    context's error. *)
Definition deadline_gives_Completed {P : Type} `{plugins.StressPlugin P}
    (env : golib.Env) (polls : nat -> option error) (timer_fired done_first : bool)
    (params : TestParams) (now : Time) (id : string) (to : core.TestOrchestrator P)
  : Prop :=
  forall e,
    core.executions to !! id = Some e ->
    core.err (core.Context_ e) = Some ContextDeadlineExceeded ->
    core.status_of id
      (core.executeTest_run env polls timer_fired done_first params now id to)
    = Some StatusCompleted.

End spec.

(** ** Mathematical functions the code is compared with *)
Module reference.

(** The Fibonacci numbers: [fibonacci_pair n] is the pair of the n-th and
    the next one. *)
Fixpoint fibonacci_pair (n : nat) : Z * Z :=
  match n with
  | O => (0, 1)
  | S m => let '(a, b) := fibonacci_pair m in (b, a + b)
  end.

Definition fibonacci (n : nat) : Z := (fibonacci_pair n).1.

(** Multiplying by 0.9 over and over, in float64. *)
Definition times_point_nine (k : nat) (x : float64) : float64 :=
  Nat.iter k (fun y => PrimFloat.mul y core.point_nine) x.

(** [below_70 n x]: none of the first [n] values of the sequence from [x]
    gives a score of 70. *)
Fixpoint below_70 (n : nat) (x : float64) : bool :=
  match n with
  | O => true
  | S n' =>
      negb (fle 70%float (PrimFloat.mul 100%float x))
      && below_70 n' (PrimFloat.mul x core.point_nine)
  end.

End reference.

(** ** Concrete runs used as examples *)
Module scenarios.
Import models safety plugins.

(** A deterministic probe: every accessor returns a fixed reading and the
    probe has no state of its own. *)
Record FakeProbe := {
  fake_cpu : result float64;
  fake_mem : result float64;
  fake_disk : result float64;
  fake_net : result float64;
  fake_temp : result float64
}.

#[export] Instance FakeProbe_SystemMonitor : SystemMonitor FakeProbe := {|
  GetCPUUsage p := (fake_cpu p, p);
  GetMemoryUsage p := (fake_mem p, p);
  GetDiskUsage p := (fake_disk p, p);
  GetNetworkUsage p := (fake_net p, p);
  GetSystemTemperature p := (fake_temp p, p)
|}.

(** A host whose CPU sits at 50%, with no thermal source. *)
Definition warm_host : FakeProbe :=
  {| fake_cpu := Ok 50%float; fake_mem := Ok 10%float; fake_disk := Ok 10%float;
     fake_net := Ok 0%float; fake_temp := Err (ErrorNew "no thermal zone") |}.

(** A host on which CPU, memory, disk and network are all far above any
    limit at once. *)
Definition busy_host : FakeProbe :=
  {| fake_cpu := Ok 99%float; fake_mem := Ok 99%float; fake_disk := Ok 99%float;
     fake_net := Ok 99%float; fake_temp := Ok 99%float |}.

(** A host at 87 C, respectively 95 C, everything else idle. *)
Definition host_at (temp : float64) : FakeProbe :=
  {| fake_cpu := Ok 5%float; fake_mem := Ok 10%float; fake_disk := Ok 10%float;
     fake_net := Ok 0%float; fake_temp := Ok temp |}.

(** All settings left at zero: [NewMonitor] fills in the defaults
    (alert 85, emergency 95, five violations per minute). *)
Definition zero_Config : Config :=
  {| CheckInterval := 0; AlertThreshold := 0%float; EmergencyThreshold := 0%float;
     AutoStopEnabled := true; RampUpEnabled := false; RampUpDuration := 0;
     RampUpSteps := 0; CooldownPeriod := 0; MaxViolationsPerMin := 0 |}.

(** The limits the memory workload declares: CPU at most 30%. *)
Definition memory_limits : SafetyLimits :=
  {| MaxCPUPercent := 30%float; MaxMemoryPercent := 85%float;
     MaxDiskPercent := 50%float; MaxNetworkMbps := 10%float |}.

(** The safety watcher calling [CheckSafetyLimits] once a second, [n]
    times, the first call at time [t]. *)
Fixpoint watch (n : nat) (t : Time) (limits : SafetyLimits) (m : Monitor FakeProbe)
  : Monitor FakeProbe :=
  match n with
  | O => m
  | S n' => watch n' (t + Second) limits (CheckSafetyLimits limits t t m).2
  end.

(** Six seconds of a memory test on the warm host: six CPU violations, all
    of severity Warning (50% is above the limit, below the alert
    threshold). *)
Definition after_six_warnings : Monitor FakeProbe :=
  watch 6 (1 * Second) memory_limits (NewMonitor warm_host zero_Config).

Definition tick_at (t : Time) : TickClock :=
  {| now_temp := t; now_temp_rec := t; now_rate := t; now_mem := t; now_mem_rec := t |}.

Definition small_heap : MemStats := {| Sys := 64 * 1024 * 1024; HeapAlloc := 1024 * 1024 |}.

(** A quiet host for the plugins, and a call that sees a live context
    throughout. *)
Definition host : golib.Env :=
  {| golib.NumCPU := 4;
     golib.IsNotExist := fun dir => String.eqb dir "/nonexistent";
     golib.rand_Read := fun _ _ => 0;
     golib.Unix := fun _ => 1700000000;
     golib.createFile := fun _ => None |}.

Definition live : golib.View :=
  {| golib.polls := fun _ => None; golib.at_return := None;
     golib.timer_fired := false; golib.done_first := true |}.

(** The memory workload configured with 100 MB in chunks of 64 MB. *)
Definition memory_100_64 : plugins.MemoryStressPlugin :=
  golib.receiver
    (plugins.mem_Initialize host
       (golib.CfgObject [("alloc_size", golib.JString "100MB");
                         ("chunk_size", golib.JString "64MB")])
       plugins.NewMemoryStressPlugin)
    plugins.NewMemoryStressPlugin.

(** That workload after its allocation phase under a live context. *)
Definition memory_allocated : plugins.MemoryStressPlugin :=
  golib.receiver (plugins.allocation_phase host live memory_100_64) memory_100_64.

(** The memory workload configured with chunks of 0 MB. *)
Definition memory_chunk_0 : plugins.MemoryStressPlugin :=
  golib.receiver
    (plugins.mem_Initialize host
       (golib.CfgObject [("alloc_size", golib.JString "100MB");
                         ("chunk_size", golib.JString "0MB")])
       plugins.NewMemoryStressPlugin)
    plugins.NewMemoryStressPlugin.

(** The memory workload configured with chunks of -1 MB. *)
Definition memory_chunk_minus_1 : plugins.MemoryStressPlugin :=
  golib.receiver
    (plugins.mem_Initialize host
       (golib.CfgObject [("alloc_size", golib.JString "100MB");
                         ("chunk_size", golib.JString "-1MB")])
       plugins.NewMemoryStressPlugin)
    plugins.NewMemoryStressPlugin.

(** The I/O workload in mixed mode with the given read/write ratio. *)
Definition mixed_config (ratio : float64) : golib.PluginConfig :=
  golib.CfgObject [("operations", golib.JString "mixed");
                   ("read_write_ratio", golib.JFloat ratio)].

Definition io_mixed (ratio : float64) : plugins.IOStressPlugin :=
  golib.receiver
    (plugins.io_Initialize host (mixed_config ratio) plugins.NewIOStressPlugin)
    plugins.NewIOStressPlugin.

(** The three built-in plugins, registered once. *)
Definition registry : plugins.PluginManager plugins.AnyPlugin :=
  plugins.RegisterPlugin (plugins.IO plugins.NewIOStressPlugin)
    (plugins.RegisterPlugin (plugins.Memory plugins.NewMemoryStressPlugin)
       (plugins.RegisterPlugin (plugins.CPU plugins.NewCPUStressPlugin)
          plugins.NewPluginManager)).

Definition two_seconds : TestParams :=
  {| Duration_ := 2 * Second; Intensity := 50; Concurrency := 1 |}.

(** A test long enough for a ramp-up, which takes ten seconds. *)
Definition hundred_seconds : TestParams :=
  {| Duration_ := 100 * Second; Intensity := 50; Concurrency := 1 |}.

Definition never_done : nat -> option error := fun _ => None.

(** A CPU test of two seconds without ramp-up, started at time 0: the
    worker sets it running, the context's timer fires at the deadline, the
    plugin's own timer (armed later) has not fired yet, and the worker
    records the end at second 2. *)
Definition cpu_test : core.TestConfiguration :=
  {| core.cfg_ID := "t1"; core.cfg_Name := "cpu";
     core.Plugin := "cpu-stress";
     core.Config :=
       core.RawValue (golib.CfgObject [("algorithm", golib.JString "prime");
                                       ("ramp_up", golib.JBool false);
                                       ("intensity", golib.JInt 50)]) |}.

Definition cpu_started : core.TestOrchestrator plugins.AnyPlugin :=
  (core.StartTest "e1" 0 0 cpu_test two_seconds (core.NewTestOrchestrator registry)).2.

Definition cpu_running : core.TestOrchestrator plugins.AnyPlugin :=
  core.executeTest_begin "e1" cpu_started.

Definition cpu_at_deadline : core.TestOrchestrator plugins.AnyPlugin :=
  core.deadline_reached "e1" cpu_running.

Definition cpu_after_deadline : core.TestOrchestrator plugins.AnyPlugin :=
  core.executeTest_run host never_done false true two_seconds (2 * Second) "e1"
    cpu_at_deadline.

(** The same CPU test started again once the first run is over: the
    registry still holds the plugin instance the first run cleaned up. *)
Definition cpu_second_run : core.TestOrchestrator plugins.AnyPlugin :=
  core.executeTest_run host never_done false true two_seconds (12 * Second) "e3"
    (core.deadline_reached "e3"
       (core.executeTest_begin "e3"
          (core.StartTest "e3" (10 * Second) (10 * Second) cpu_test two_seconds
             cpu_after_deadline).2)).

(** A memory test of two seconds, 128 MB in chunks of 64 MB, run to its
    deadline in the same way. *)
Definition memory_test : core.TestConfiguration :=
  {| core.cfg_ID := "t4"; core.cfg_Name := "memory";
     core.Plugin := "memory-stress";
     core.Config :=
       core.RawValue (golib.CfgObject [("alloc_size", golib.JString "128MB");
                                       ("chunk_size", golib.JString "64MB")]) |}.

Definition memory_after_deadline : core.TestOrchestrator plugins.AnyPlugin :=
  core.executeTest_run host never_done false true two_seconds (2 * Second) "e4"
    (core.deadline_reached "e4"
       (core.executeTest_begin "e4"
          (core.StartTest "e4" 0 0 memory_test two_seconds
             (core.NewTestOrchestrator registry)).2)).

(** An I/O test whose scratch directory does not exist, stopped by the
    caller right after the worker set it running. *)
Definition io_test : core.TestConfiguration :=
  {| core.cfg_ID := "t2"; core.cfg_Name := "io";
     core.Plugin := "io-stress";
     core.Config :=
       core.RawValue (golib.CfgObject [("temp_dir", golib.JString "/nonexistent")]) |}.

Definition io_running : core.TestOrchestrator plugins.AnyPlugin :=
  core.executeTest_begin "e2"
    (core.StartTest "e2" 0 0 io_test two_seconds (core.NewTestOrchestrator registry)).2.

Definition io_stopped : core.TestOrchestrator plugins.AnyPlugin :=
  (core.StopTest "e2" io_running).2.

(** A file system on which a block operation transfers the whole block of
    64 KB. *)
Definition block_transferred : plugins.FileOps :=
  {| plugins.read_result := Ok 65536; plugins.write_result := Ok 65536 |}.

(** A file system that never reports an error. *)
Definition sound_disk : plugins.FileSystem :=
  {| plugins.OpenFile_error := None;
     plugins.Read_error := fun _ => None;
     plugins.Write_error := fun _ => None;
     plugins.Sync_error := fun _ => None |}.

(** The I/O workload configured with the given sizes. *)
Definition io_sized (file_size block_size : string) : plugins.IOStressPlugin :=
  golib.receiver
    (plugins.io_Initialize host
       (golib.CfgObject [("file_size", golib.JString file_size);
                         ("block_size", golib.JString block_size)])
       plugins.NewIOStressPlugin)
    plugins.NewIOStressPlugin.

(** A collector tick on which every probe call succeeds, and one on which
    [cpu.Percent] fails while the others return the same readings. *)
Definition good_probe : metrics.Probe :=
  {| metrics.cpu_Percent := Ok [50%float];
     metrics.cpu_Counts := Ok 8;
     metrics.mem_VirtualMemory :=
       Ok {| metrics.vm_Total := 16384; metrics.vm_Used := 4096;
             metrics.vm_Available := 12288; metrics.vm_UsedPercent := 25%float |};
     metrics.disk_Usage :=
       Ok {| metrics.du_Total := 1000; metrics.du_Used := 200; metrics.du_Free := 800;
             metrics.du_UsedPercent := 20%float |};
     metrics.net_IOCounters :=
       Ok [{| metrics.io_BytesSent := 10; metrics.io_BytesRecv := 20 |}] |}.

Definition cpu_read_fails : metrics.Probe :=
  {| metrics.cpu_Percent := Err (ErrorNew "cpu: cannot read counters");
     metrics.cpu_Counts := metrics.cpu_Counts good_probe;
     metrics.mem_VirtualMemory := metrics.mem_VirtualMemory good_probe;
     metrics.disk_Usage := metrics.disk_Usage good_probe;
     metrics.net_IOCounters := metrics.net_IOCounters good_probe |}.

Definition collector_after_good_tick : metrics.Collector :=
  metrics.collectSystemMetrics (5 * Second) good_probe metrics.NewCollector.

(** The running CPU test of above, stopped by an emergency stop at second
    1; the plugin then leaves its [select] through [ctx.Done()] and the
    worker records the end at second 1 as well. *)
Definition overheating : Formatted :=
  Sprintf "Critical temperature: %.1f°C" [ArgFloat 95%float].

Definition cpu_emergency : core.TestOrchestrator plugins.AnyPlugin :=
  (core.EmergencyStop "e1" overheating (1 * Second) cpu_running).2.

Definition cpu_after_emergency : core.TestOrchestrator plugins.AnyPlugin :=
  core.executeTest_run host never_done false true two_seconds (1 * Second) "e1"
    cpu_emergency.

(** A CPU test of a hundred seconds with ramp-up: the ten steps go by in
    the first ten seconds, under a context that is live, and [Execute]
    returns nil when its last sleep is over. *)
Definition cpu_ramp_test : core.TestConfiguration :=
  {| core.cfg_ID := "t5"; core.cfg_Name := "cpu ramp";
     core.Plugin := "cpu-stress";
     core.Config :=
       core.RawValue (golib.CfgObject [("ramp_up", golib.JBool true);
                                       ("intensity", golib.JInt 80);
                                       ("workers", golib.JInt 2)]) |}.

(** The CPU plugin after [Initialize] with that configuration. *)
Definition cpu_ramp : plugins.CPUStressPlugin :=
  golib.receiver
    (plugins.cpu_Initialize host
       (golib.CfgObject [("ramp_up", golib.JBool true);
                         ("intensity", golib.JInt 80);
                         ("workers", golib.JInt 2)])
       plugins.NewCPUStressPlugin)
    plugins.NewCPUStressPlugin.

(** A host without /proc and without thermal zones, with four CPUs, and
    the safety monitor on the shipped system monitor there. *)
Definition bare_host : system_monitor.Host :=
  {| system_monitor.runtime_NumCPU := 4;
     system_monitor.proc_stat := None;
     system_monitor.proc_meminfo := None;
     system_monitor.proc_net_dev := None;
     system_monitor.Statfs :=
       Ok {| system_monitor.Blocks := 1000; system_monitor.Bavail := 400;
             system_monitor.Bsize := 4096 |};
     system_monitor.thermal_zone := fun _ => Err (ErrorNew "no such file or directory");
     system_monitor.ReadMemStats := small_heap |}.

Definition shipped_monitor : Monitor system_monitor.Running :=
  NewMonitor
    {| system_monitor.impl := system_monitor.NewSystemMonitor;
       system_monitor.host := fun _ => bare_host;
       system_monitor.now := fun k => Z.of_nat (S k) * Second;
       system_monitor.calls := 0 |}
    zero_Config.

(** The run of that test: started at time 0, the ten polls of the ramp-up
    find the context live, and [Execute] comes back from its last sleep a
    millisecond after second 100, which the worker records before the
    context's timer has marked the context as expired. *)
Definition cpu_ramp_done : core.TestOrchestrator plugins.AnyPlugin :=
  core.executeTest_run host never_done false true hundred_seconds
    (100 * Second + Millisecond) "e5"
    (core.executeTest_begin "e5"
       (core.StartTest "e5" 0 0 cpu_ramp_test hundred_seconds
          (core.NewTestOrchestrator registry)).2).

End scenarios.

(** * Properties *)

Import models golib safety metrics plugins core scenarios.

(** ** The safety monitor *)
Section MonitorFacts.
Import models safety.
Context {S : Type} `{SystemMonitor S}.
Implicit Types (m : Monitor S) (v : Violation).

Lemma recordViolation_alertManager v now m :
  alertManager (recordViolation v now m) = alertManager m ++ [alert_of v].
Proof. reflexivity. Qed.

Lemma recordViolation_violations v now m :
  violations (recordViolation v now m)
  = List.filter (fun x => After (v_Timestamp x) (now - Hour)) (violations m ++ [v]).
Proof. reflexivity. Qed.

Lemma recordViolation_stopRequests v now m :
  stopRequests (recordViolation v now m) = stopRequests m.
Proof. reflexivity. Qed.

Lemma sendEmergencyStop_stopRequests reason m :
  stopRequests (sendEmergencyStop reason m) = stopRequests m ++ [reason].
Proof. unfold sendEmergencyStop. by case_match. Qed.

Lemma sendEmergencyStop_violations reason m :
  violations (sendEmergencyStop reason m) = violations m.
Proof. unfold sendEmergencyStop. by case_match. Qed.

Lemma sendEmergencyStop_alertManager reason m :
  alertManager (sendEmergencyStop reason m) = alertManager m.
Proof. unfold sendEmergencyStop. by case_match. Qed.

Lemma sendEmergencyStop_config reason m :
  config (sendEmergencyStop reason m) = config m.
Proof. unfold sendEmergencyStop. by case_match. Qed.

(** The channel takes the reason when it has room and drops it otherwise. *)
Lemma sendEmergencyStop_channel reason m :
  emergencyStop (sendEmergencyStop reason m)
  = if (length (emergencyStop m) <? emergencyStop_cap)%nat
    then emergencyStop m ++ [reason] else emergencyStop m.
Proof. unfold sendEmergencyStop. by case_match. Qed.

Lemma checkMemoryPressure_stopRequests clk memStats m :
  stopRequests (checkMemoryPressure clk memStats m) = stopRequests m.
Proof. unfold checkMemoryPressure. by repeat case_match. Qed.

Lemma checkMemoryPressure_channel clk memStats m :
  emergencyStop (checkMemoryPressure clk memStats m) = emergencyStop m.
Proof. unfold checkMemoryPressure. by repeat case_match. Qed.

Lemma checkTemperature_config clk m :
  config (checkTemperature clk m) = config m.
Proof.
  unfold checkTemperature. destruct (GetSystemTemperature _) as [[temp|] s1]; [|done].
  destruct (fgt temp _); [|done]. cbv zeta.
  destruct (v_Critical _); [by rewrite sendEmergencyStop_config|done].
Qed.

(** What the rate block of a tick asks for. *)
Lemma checkViolationRate_stopRequests clk m :
  stopRequests (checkViolationRate clk m)
  = stopRequests m
    ++ (let n := length (getRecentViolations (1 * Minute) (now_rate clk) m) in
        if MaxViolationsPerMin (config m) <? Z.of_nat n
        then [too_many_violations_reason n] else []).
Proof.
  unfold checkViolationRate. cbv zeta. case_match.
  - apply sendEmergencyStop_stopRequests.
  - by rewrite app_nil_r.
Qed.

End MonitorFacts.

(** C10.  One call of [CheckSafetyLimits] hands at most one alert to the
    alert manager and records at most one violation, the one it returns; the
    violation is for the first breached limit in the order CPU, memory, disk,
    network, whatever the later readings are; and the outcome does not depend
    on the temperature accessor. *)
Theorem CheckSafetyLimits_one_violation_by_priority :
  forall (S : Type) (cpuF memF diskF netF tempF tempG : S -> result float64 * S)
         (limits : models.SafetyLimits) (now now_rec : Time) (m : safety.Monitor S),
    let sm := {| safety.GetCPUUsage := cpuF; safety.GetMemoryUsage := memF;
                 safety.GetDiskUsage := diskF; safety.GetNetworkUsage := netF;
                 safety.GetSystemTemperature := tempF |} in
    let sm' := {| safety.GetCPUUsage := cpuF; safety.GetMemoryUsage := memF;
                  safety.GetDiskUsage := diskF; safety.GetNetworkUsage := netF;
                  safety.GetSystemTemperature := tempG |} in
    let out := @safety.CheckSafetyLimits S sm limits now now_rec m in
    let cpu := cpuF (safety.systemMonitor m) in
    let mem := memF cpu.2 in
    let disk := diskF mem.2 in
    let net := netF disk.2 in
    (length (safety.alertManager out.2) <= length (safety.alertManager m) + 1)%nat
    /\ safety.alertManager out.2
       = safety.alertManager m
         ++ match out.1 with Some v => [safety.alert_of v] | None => [] end
    /\ safety.violations out.2
       = match out.1 with
         | Some v => List.filter (fun x => After (safety.v_Timestamp x) (now_rec - Hour))
                                 (safety.violations m ++ [v])
         | None => safety.violations m
         end
    /\ safety.v_Type <$> out.1 = safety.first_breach_type limits cpu.1 mem.1 disk.1 net.1
    /\ @safety.CheckSafetyLimits S sm' limits now now_rec m = out.
Proof.
  intros S cpuF memF diskF netF tempF tempG limits now now_rec m.
  cbv zeta. unfold safety.CheckSafetyLimits, safety.first_breach_type. cbn [safety.GetCPUUsage
    safety.GetMemoryUsage safety.GetDiskUsage safety.GetNetworkUsage].
  destruct (cpuF (safety.systemMonitor m)) as [cpu s1]. cbn [fst snd].
  destruct (safety.breach cpu _) as [u|].
  { cbn. rewrite length_app. cbn. repeat split; lia. }
  destruct (memF s1) as [mem s2]. cbn [fst snd].
  destruct (safety.breach mem _) as [u|].
  { cbn. rewrite length_app. cbn. repeat split; lia. }
  destruct (diskF s2) as [disk s3]. cbn [fst snd].
  destruct (safety.breach disk _) as [u|].
  { cbn. rewrite length_app. cbn. repeat split; lia. }
  destruct (netF s3) as [net s4]. cbn [fst snd].
  destruct (safety.breach net _) as [u|].
  { cbn. rewrite length_app. cbn. repeat split; lia. }
  cbn. rewrite app_nil_r. repeat split; lia.
Qed.

(** On a host where all four readings are above their limits, only the CPU
    violation is returned and recorded. *)
Lemma CheckSafetyLimits_one_violation_by_priority_witness :
  let out := safety.CheckSafetyLimits scenarios.memory_limits (1 * Second) (1 * Second)
               (safety.NewMonitor scenarios.busy_host scenarios.zero_Config) in
  safety.v_Type <$> out.1 = Some "cpu"
  /\ length (safety.alertManager out.2) = 1%nat
  /\ length (safety.violations out.2) = 1%nat.
Proof.
  cbv zeta.
  pose proof (CheckSafetyLimits_one_violation_by_priority scenarios.FakeProbe
                (fun p => (scenarios.fake_cpu p, p)) (fun p => (scenarios.fake_mem p, p))
                (fun p => (scenarios.fake_disk p, p)) (fun p => (scenarios.fake_net p, p))
                (fun p => (scenarios.fake_temp p, p)) (fun p => (scenarios.fake_temp p, p))
                scenarios.memory_limits (1 * Second) (1 * Second)
                (safety.NewMonitor scenarios.busy_host scenarios.zero_Config))
    as (_ & Halerts & Hviolations & Htype & _).
  split; [exact Htype|]. split.
  - exact (f_equal (@length _) Halerts).
  - exact (f_equal (@length _) Hviolations).
Defined.

(** C2, counterexample.  Six Warning-severity CPU violations within six
    seconds, none of severity Error or Critical: the tick at second seven
    asks for an emergency stop, "Too many violations: 6 in last minute",
    although the Error/Critical count (zero) does not exceed the maximum
    (five). *)
Lemma rate_gate_counts_warnings :
  ~ spec.rate_gate_counts_error_and_critical
      (scenarios.tick_at (7 * Second)) scenarios.small_heap scenarios.after_six_warnings.
Proof.
  unfold spec.rate_gate_counts_error_and_critical. intros [Hraised _].
  assert (Hlt : 5 < 0); [|lia].
  apply Hraised. exists 6%nat. vm_compute. left. reflexivity.
Qed.

(** C2, as the code has it.  After the temperature block of the tick, the
    rate block counts every violation on record whose timestamp lies within
    the last minute, whatever its severity; it asks for an emergency stop,
    with that count in the reason, exactly when the count exceeds
    [MaxViolationsPerMin], and the reason enters the channel when the channel
    has room. *)
Theorem performSafetyCheck_rate_gate :
  forall (S : Type) (sm : safety.SystemMonitor S) (clk : safety.TickClock)
         (memStats : safety.MemStats) (m : safety.Monitor S),
    let m1 := safety.checkTemperature clk m in
    let m' := safety.performSafetyCheck clk memStats m in
    let n := length (List.filter
                       (fun v => After (safety.v_Timestamp v) (safety.now_rate clk - Minute))
                       (safety.violations m1)) in
    let over := safety.MaxViolationsPerMin (safety.config m1) <? Z.of_nat n in
    safety.stopRequests m'
    = safety.stopRequests m1
      ++ (if over then [safety.too_many_violations_reason n] else [])
    /\ safety.emergencyStop m'
       = safety.emergencyStop m1
         ++ (if over && (length (safety.emergencyStop m1) <? safety.emergencyStop_cap)%nat
             then [safety.too_many_violations_reason n] else []).
Proof.
  intros S sm clk memStats m. cbv zeta.
  unfold safety.performSafetyCheck.
  rewrite checkMemoryPressure_stopRequests, checkMemoryPressure_channel.
  rewrite checkViolationRate_stopRequests. split; [reflexivity|].
  unfold safety.checkViolationRate, safety.getRecentViolations. cbv zeta.
  change (1 * Minute) with Minute.
  case_match; cbn [andb].
  - rewrite sendEmergencyStop_channel. case_match; [reflexivity|by rewrite app_nil_r].
  - by rewrite app_nil_r.
Qed.

(** After the six warnings, the tick at second seven asks for the stop and
    the empty channel takes it. *)
Lemma performSafetyCheck_rate_gate_witness :
  safety.stopRequests
    (safety.performSafetyCheck (scenarios.tick_at (7 * Second)) scenarios.small_heap
       scenarios.after_six_warnings)
  = [safety.too_many_violations_reason 6]
  /\ safety.emergencyStop
       (safety.performSafetyCheck (scenarios.tick_at (7 * Second)) scenarios.small_heap
          scenarios.after_six_warnings)
     = [safety.too_many_violations_reason 6].
Proof.
  exact (performSafetyCheck_rate_gate scenarios.FakeProbe _
           (scenarios.tick_at (7 * Second)) scenarios.small_heap
           scenarios.after_six_warnings).
Defined.

(** C3, counterexample.  At 87 C the alert of the tick carries severity
    Critical, not Warning. *)
Lemma temperature_87_is_not_a_warning :
  ~ spec.temperature_bands
      (scenarios.tick_at (7 * Second)) scenarios.small_heap
      (safety.NewMonitor (scenarios.host_at 87%float) scenarios.zero_Config).
Proof.
  intros Hspec.
  destruct (Hspec 87%float (scenarios.host_at 87%float) eq_refl) as [Hwarn _].
  destruct Hwarn as [(a & Hin & _ & Hsev) _]; [reflexivity..|].
  vm_compute in Hin. destruct Hin as [<-|[]]. discriminate Hsev.
Qed.

(** C3, as the code has it.  A reading strictly above 85 C records a
    temperature violation, always of severity Critical, whose critical flag
    says whether the reading is strictly above 90 C; the temperature-specific
    emergency stop is asked for exactly when that flag is set.  A reading not
    above 85 C records nothing.  The only other stop the tick can ask for is
    the one of the rate gate. *)
Theorem performSafetyCheck_temperature :
  forall (S : Type) (sm : safety.SystemMonitor S) (clk : safety.TickClock)
         (memStats : safety.MemStats) (m : safety.Monitor S) (temp : float64) (s' : S),
    safety.GetSystemTemperature (safety.systemMonitor m) = (Ok temp, s') ->
    let m1 := safety.checkTemperature clk m in
    let m' := safety.performSafetyCheck clk memStats m in
    let v := safety.temperature_violation temp (safety.now_temp clk) in
    let n := length (safety.getRecentViolations (1 * Minute) (safety.now_rate clk) m1) in
    let rate := if safety.MaxViolationsPerMin (safety.config m) <? Z.of_nat n
                then [safety.too_many_violations_reason n] else [] in
    if fgt temp 85%float then
      safety.alertManager m1 = safety.alertManager m ++ [safety.alert_of v]
      /\ safety.violations m1
         = List.filter (fun x => After (safety.v_Timestamp x) (safety.now_temp_rec clk - Hour))
                       (safety.violations m ++ [v])
      /\ safety.v_Type v = "temperature"
      /\ safety.v_Severity v = safety.SeverityCritical
      /\ safety.v_Critical v = fgt temp 90%float
      /\ safety.stopRequests m'
         = safety.stopRequests m
           ++ (if fgt temp 90%float then [safety.critical_temperature_reason temp] else [])
           ++ rate
    else
      safety.alertManager m1 = safety.alertManager m
      /\ safety.violations m1 = safety.violations m
      /\ safety.stopRequests m' = safety.stopRequests m ++ rate.
Proof.
  intros S sm clk memStats m temp s' Hread. cbv zeta.
  unfold safety.performSafetyCheck.
  rewrite checkMemoryPressure_stopRequests, checkViolationRate_stopRequests. cbv zeta.
  rewrite checkTemperature_config.
  unfold safety.checkTemperature. rewrite Hread.
  destruct (fgt temp 85%float); [|by repeat split].
  cbn [safety.v_Critical safety.temperature_violation].
  destruct (fgt temp 90%float).
  - rewrite sendEmergencyStop_stopRequests, sendEmergencyStop_violations,
      sendEmergencyStop_alertManager. rewrite <- app_assoc. by repeat split.
  - cbn [app]. by repeat split.
Qed.

(** At 95 C the tick asks for the temperature stop and for no other. *)
Lemma performSafetyCheck_temperature_witness :
  let m := safety.NewMonitor (scenarios.host_at 95%float) scenarios.zero_Config in
  let clk := scenarios.tick_at (7 * Second) in
  safety.GetSystemTemperature (safety.systemMonitor m)
  = (Ok 95%float, scenarios.host_at 95%float)
  /\ safety.stopRequests (safety.performSafetyCheck clk scenarios.small_heap m)
     = [safety.critical_temperature_reason 95%float].
Proof.
  split; [reflexivity|].
  pose proof (performSafetyCheck_temperature _ _ (scenarios.tick_at (7 * Second))
                scenarios.small_heap
                (safety.NewMonitor (scenarios.host_at 95%float) scenarios.zero_Config)
                95%float (scenarios.host_at 95%float) eq_refl) as Hb.
  cbv zeta in Hb. change (fgt 95%float 85%float) with true in Hb.
  destruct Hb as (_ & _ & _ & _ & _ & Hstop). exact Hstop.
Defined.

(** ** The metrics collector *)

(** C4, counterexample.  The snapshot cached by a good tick at second 5 is
    not what [GetMetrics] returns after the tick at second 10 on which
    [cpu.Percent] failed. *)
Lemma failed_tick_overwrites_snapshot :
  ~ spec.failed_tick_keeps_snapshot
      (10 * Second) scenarios.cpu_read_fails scenarios.collector_after_good_tick.
Proof.
  intros Hkeep. specialize (Hkeep eq_refl).
  apply (f_equal metrics.Timestamp) in Hkeep. vm_compute in Hkeep. discriminate Hkeep.
Qed.

(** In that tick the cached CPU usage falls from 50 to 0 while the other
    readings are refreshed. *)
Lemma failed_tick_zeroes_cpu_usage :
  metrics.CPU_Usage (metrics.GetMetrics scenarios.collector_after_good_tick) = 50%float
  /\ metrics.CPU_Usage
       (metrics.GetMetrics
          (metrics.collectSystemMetrics (10 * Second) scenarios.cpu_read_fails
             scenarios.collector_after_good_tick))
     = 0%float.
Proof. split; reflexivity. Qed.

(** C4, as the code has it.  On a tick with a failed probe call (as on every
    tick) the cached snapshot is replaced by a fresh one: it carries the
    tick's time, holds zero in the fields of every call that failed and the
    new readings of the calls that succeeded, owes nothing to the previous
    snapshot, and so differs from it whenever the previous snapshot was
    taken at another time. *)
Theorem failed_tick_replaces_snapshot :
  forall (now : Time) (p : metrics.Probe) (c : metrics.Collector),
    metrics.probe_failed p = true ->
    let snap := metrics.GetMetrics (metrics.collectSystemMetrics now p c) in
    metrics.Timestamp snap = now
    /\ metrics.CPU_Usage snap
       = match metrics.cpu_Percent p with Ok (x :: _) => x | _ => 0%float end
    /\ metrics.CPU_Cores snap
       = match metrics.cpu_Counts p with Ok n => n | Err _ => 0 end
    /\ (metrics.Memory_Total snap, metrics.Memory_Used snap,
        metrics.Memory_Available snap, metrics.Memory_Usage snap)
       = match metrics.mem_VirtualMemory p with
         | Ok st => (metrics.vm_Total st, metrics.vm_Used st, metrics.vm_Available st,
                     metrics.vm_UsedPercent st)
         | Err _ => (0, 0, 0, 0%float)
         end
    /\ (metrics.Disk_Total snap, metrics.Disk_Used snap, metrics.Disk_Free snap,
        metrics.Disk_Usage snap)
       = match metrics.disk_Usage p with
         | Ok st => (metrics.du_Total st, metrics.du_Used st, metrics.du_Free st,
                     metrics.du_UsedPercent st)
         | Err _ => (0, 0, 0, 0%float)
         end
    /\ (metrics.Network_BytesSent snap, metrics.Network_BytesRecv snap)
       = match metrics.net_IOCounters p with
         | Ok (st :: _) => (metrics.io_BytesSent st, metrics.io_BytesRecv st)
         | _ => (0, 0)
         end
    /\ (forall c', metrics.GetMetrics (metrics.collectSystemMetrics now p c') = snap)
    /\ (metrics.Timestamp (metrics.GetMetrics c) <> now -> snap <> metrics.GetMetrics c).
Proof.
  intros now p c _. cbv zeta.
  unfold metrics.GetMetrics, metrics.collectSystemMetrics, metrics.sample.
  cbn [metrics.metrics_].
  destruct (metrics.mem_VirtualMemory p) as [vm|], (metrics.disk_Usage p) as [du|],
    (metrics.net_IOCounters p) as [[|io ?]|];
    cbn; (repeat split; [intros Hts Heq; apply Hts; by rewrite <- Heq]).
Qed.

(** The tick at second 10 with a failed CPU read stamps the snapshot with
    second 10. *)
Lemma failed_tick_replaces_snapshot_witness :
  metrics.probe_failed scenarios.cpu_read_fails = true
  /\ metrics.Timestamp
       (metrics.GetMetrics
          (metrics.collectSystemMetrics (10 * Second) scenarios.cpu_read_fails
             scenarios.collector_after_good_tick))
     = 10 * Second.
Proof.
  split; [reflexivity|].
  exact (proj1 (failed_tick_replaces_snapshot (10 * Second) scenarios.cpu_read_fails
                  scenarios.collector_after_good_tick eq_refl)).
Defined.

(** ** The workload plugins *)

(** C7.  On a plugin that was never initialised the first [Cleanup] returns
    nil and the second one panics: the stop channel is closed twice.  This
    holds for each of the three built-in kinds. *)
Theorem Cleanup_twice_panics :
  (exists c, plugins.Cleanup plugins.NewCPUStressPlugin = Returns None c
             /\ plugins.Cleanup c = Panics plugins.close_panic c)
  /\ (exists m, plugins.Cleanup plugins.NewMemoryStressPlugin = Returns None m
                /\ plugins.Cleanup m = Panics plugins.close_panic m)
  /\ (exists i, plugins.Cleanup plugins.NewIOStressPlugin = Returns None i
                /\ plugins.Cleanup i = Panics plugins.close_panic i).
Proof. repeat split; eexists; split; reflexivity. Qed.

(** The same for any instance whose stop channel is still open, initialised
    or not. *)
Lemma cpu_Cleanup_once (c : plugins.CPUStressPlugin) :
  plugins.cpu_stopChan c = ChanOpen ->
  exists c', plugins.cpu_Cleanup c = Returns None c'
             /\ plugins.cpu_stopChan c' = ChanClosed
             /\ plugins.cpu_Cleanup c' = Panics plugins.close_panic c'.
Proof.
  intros Hopen. unfold plugins.cpu_Cleanup at 1. rewrite Hopen. cbn.
  eexists. split; [reflexivity|]. split; reflexivity.
Qed.

(** *** Size strings *)

Example parseMemorySize_examples :
  plugins.parseMemorySize "1GB" = Ok 1024
  /\ plugins.parseMemorySize " 500mb " = Ok 500
  /\ plugins.parseMemorySize "-3MB" = Ok (-3)
  /\ plugins.parseMemorySize "1TB"
     = Err (ErrorNew "invalid memory size format, expected MB or GB suffix")
  /\ plugins.parseMemorySize "1.5GB"
     = Err (Errorf "invalid memory size value: %w" [] (Some (syntaxError "1.5"))).
Proof. repeat split; vm_compute; reflexivity. Qed.

Example parseSize_examples :
  plugins.parseSize "64KB" = Ok 65536
  /\ plugins.parseSize "1gb" = Ok 1073741824
  /\ plugins.parseSize "7B" = Ok 7
  /\ plugins.parseSize "10" = Ok 10
  /\ plugins.parseSize EmptyString
     = Err (Errorf "invalid size value: %w" [] (Some (syntaxError EmptyString))).
Proof. repeat split; vm_compute; reflexivity. Qed.

(** *** The memory workload: how many chunks *)

Lemma wrap64_id z : int64_min <= z <= int64_max -> wrap64 z = z.
Proof.
  unfold wrap64, int64_min, int64_max. intros Hz.
  rewrite Z.mod_small; lia.
Qed.






(** *** The I/O workload: reads and writes in mixed mode *)

Lemma for_all_remainders (test : Z -> bool) :
  forallb test plugins.remainders = true ->
  forall nanos, test (Z.rem nanos 1000) = true.
Proof.
  intros Hall nanos. rewrite forallb_forall in Hall. apply Hall.
  pose proof (Z.rem_bound_abs nanos 1000 ltac:(lia)) as Hb.
  unfold plugins.remainders. apply in_map_iff.
  exists (Z.to_nat (Z.rem nanos 1000 + 999)). split; [lia|].
  apply in_seq. lia.
Qed.

Lemma read_fraction_below_one nanos : flt (plugins.read_fraction nanos) 1%float = true.
Proof.
  apply (for_all_remainders
           (fun r => flt (PrimFloat.div (float64_of_Z r) 1000%float) 1%float)).
  vm_compute. reflexivity.
Qed.

Lemma read_fraction_below_half nanos :
  flt (plugins.read_fraction nanos) 0.5%float = (Z.rem nanos 1000 <? 500).
Proof.
  apply eqb_true_iff.
  apply (for_all_remainders
           (fun r => Bool.eqb (flt (PrimFloat.div (float64_of_Z r) 1000%float) 0.5%float)
                              (r <? 500))).
  vm_compute. reflexivity.
Qed.

Lemma chosen_operation_mixed nanos (i : plugins.IOStressPlugin) :
  plugins.Operations (plugins.io_config i) = "mixed" ->
  plugins.chosen_operation nanos i
  = if flt (plugins.read_fraction nanos) (plugins.ReadWriteRatio (plugins.io_config i))
    then "read" else "write".
Proof. intros Hmixed. unfold plugins.chosen_operation. by rewrite Hmixed. Qed.

(** With a ratio of 1.0 every operation of the mixed workload is a read. *)
Lemma mixed_ratio_one_only_reads nanos ops filename (i : plugins.IOStressPlugin) :
  plugins.Operations (plugins.io_config i) = "mixed" ->
  plugins.ReadWriteRatio (plugins.io_config i) = 1%float ->
  plugins.chosen_operation nanos i = "read"
  /\ plugins.performIOOperation nanos ops filename i = plugins.performRead ops filename i.
Proof.
  intros Hmixed Hratio.
  assert (Hop : plugins.chosen_operation nanos i = "read").
  { rewrite chosen_operation_mixed by done. by rewrite Hratio, read_fraction_below_one. }
  split; [done|]. unfold plugins.performIOOperation. by rewrite Hop.
Qed.

Lemma performRead_keeps ops filename (i : plugins.IOStressPlugin) :
  let i' := (plugins.performRead ops filename i).2 in
  plugins.io_config i' = plugins.io_config i
  /\ plugins.WriteOpsPerSec (plugins.io_metrics i')
     = plugins.WriteOpsPerSec (plugins.io_metrics i)
  /\ plugins.TotalBytesWritten (plugins.io_metrics i')
     = plugins.TotalBytesWritten (plugins.io_metrics i).
Proof. cbv zeta. unfold plugins.performRead. by destruct (plugins.read_result ops). Qed.

(** So no sequence of worker turns ever moves the write counters: by
    induction on the turns, the configuration being left alone by each. *)
Lemma mixed_ratio_one_never_writes turns (i : plugins.IOStressPlugin) :
  plugins.Operations (plugins.io_config i) = "mixed" ->
  plugins.ReadWriteRatio (plugins.io_config i) = 1%float ->
  let i' := plugins.ioWorker_turns turns i in
  plugins.WriteOpsPerSec (plugins.io_metrics i')
  = plugins.WriteOpsPerSec (plugins.io_metrics i)
  /\ plugins.TotalBytesWritten (plugins.io_metrics i')
     = plugins.TotalBytesWritten (plugins.io_metrics i).
Proof.
  revert i. induction turns as [|[[nanos ops] filename] rest IH]; intros i Hmixed Hratio.
  - done.
  - cbn [plugins.ioWorker_turns].
    destruct (mixed_ratio_one_only_reads nanos ops filename i Hmixed Hratio) as [_ Hread].
    destruct (performRead_keeps ops filename i) as (Hcfg & Hops & Hbytes).
    assert (Hturn : let j := plugins.ioWorker_turn nanos ops filename i in
                    plugins.io_config j = plugins.io_config i
                    /\ plugins.WriteOpsPerSec (plugins.io_metrics j)
                       = plugins.WriteOpsPerSec (plugins.io_metrics i)
                    /\ plugins.TotalBytesWritten (plugins.io_metrics j)
                       = plugins.TotalBytesWritten (plugins.io_metrics i)).
    { cbv zeta. unfold plugins.ioWorker_turn. rewrite Hread.
      destruct (plugins.performRead ops filename i) as [[e|] j]; by cbn in *. }
    destruct Hturn as (Hcfg' & Hops' & Hbytes').
    destruct (IH (plugins.ioWorker_turn nanos ops filename i)) as [IHops IHbytes];
      [by rewrite Hcfg'..|].
    cbv zeta in IHops, IHbytes. split; congruence.
Qed.

Lemma Initialize_keeps_ratio_one :
  plugins.io_Initialize scenarios.host (scenarios.mixed_config 1%float)
    plugins.NewIOStressPlugin
  = Returns None (scenarios.io_mixed 1%float)
  /\ plugins.Operations (plugins.io_config (scenarios.io_mixed 1%float)) = "mixed"
  /\ plugins.ReadWriteRatio (plugins.io_config (scenarios.io_mixed 1%float)) = 1%float.
Proof. repeat split; vm_compute; reflexivity. Qed.

(** C9.  Initialised in mixed mode with a read/write ratio of 0.0, the I/O
    workload runs with a ratio of 0.5: [Initialize] takes the zero for an
    unset value.  An operation is then a read whenever the clock's
    nanosecond count modulo 1000 is between 0 and 499, and a write
    otherwise; at a count of 0 the operation issued is [performRead], and a
    worker's turn at that instant moves the read counters and leaves the
    write counters at zero. *)
Theorem mixed_ratio_zero_issues_reads :
  plugins.io_Initialize scenarios.host (scenarios.mixed_config 0%float)
    plugins.NewIOStressPlugin
  = Returns None (scenarios.io_mixed 0%float)
  /\ plugins.ReadWriteRatio (plugins.io_config (scenarios.io_mixed 0%float)) = 0.5%float
  /\ (forall nanos,
        plugins.chosen_operation nanos (scenarios.io_mixed 0%float)
        = if Z.rem nanos 1000 <? 500 then "read" else "write")
  /\ (forall ops filename,
        plugins.performIOOperation 0 ops filename (scenarios.io_mixed 0%float)
        = plugins.performRead ops filename (scenarios.io_mixed 0%float))
  /\ plugins.io_metrics
       (plugins.ioWorker_turn 0 scenarios.block_transferred "/tmp/ssts_io_test_0_0.dat"
          (scenarios.io_mixed 0%float))
     = {| plugins.ReadOpsPerSec := 1; plugins.WriteOpsPerSec := 0;
          plugins.TotalBytesRead := 65536; plugins.TotalBytesWritten := 0;
          plugins.ErrorCount := 0 |}.
Proof.
  assert (Hop : forall nanos,
             plugins.chosen_operation nanos (scenarios.io_mixed 0%float)
             = if Z.rem nanos 1000 <? 500 then "read" else "write").
  { intros nanos. rewrite chosen_operation_mixed by (vm_compute; reflexivity).
    replace (plugins.ReadWriteRatio (plugins.io_config (scenarios.io_mixed 0%float)))
      with 0.5%float by (vm_compute; reflexivity).
    by rewrite read_fraction_below_half. }
  split; [vm_compute; reflexivity|]. split; [vm_compute; reflexivity|].
  split; [exact Hop|]. split.
  - intros ops filename. unfold plugins.performIOOperation. rewrite Hop. reflexivity.
  - vm_compute. reflexivity.
Qed.

(** ** The test orchestrator *)
Section OrchestratorFacts.
Context {P : Type} `{StressPlugin P}.
Implicit Types (to : TestOrchestrator P) (e : TestExecution) (id : string).

Lemma lookup_with_execution id e to :
  executions (with_execution id e to) !! id = Some e.
Proof. cbn. apply lookup_insert_eq. Qed.

Lemma StopTest_unknown id to :
  executions to !! id = None -> StopTest id to = (Some (NotFound id), to).
Proof. intros Hnone. unfold StopTest. by rewrite Hnone. Qed.

Lemma StopTest_not_running id to e :
  executions to !! id = Some e -> Status e <> StatusRunning ->
  StopTest id to = (Some (NotRunning (Status e)), to).
Proof.
  intros He Hst. unfold StopTest. rewrite He. by rewrite bool_decide_eq_true_2.
Qed.

Lemma StopTest_running id to e :
  executions to !! id = Some e -> Status e = StatusRunning ->
  StopTest id to
  = (None, with_execution id (set_Context e (cancel (Context_ e))) to).
Proof.
  intros He Hst. unfold StopTest. rewrite He.
  rewrite bool_decide_eq_false_2; [reflexivity|]. intros Hne. by apply Hne.
Qed.

(** The worker's last step either finds the plugin still blocked and
    changes nothing, or records a terminal status with the end time. *)
Lemma executeTest_run_terminal env polls timer_fired done_first params now id to e :
  executions to !! id = Some e ->
  let to' := executeTest_run env polls timer_fired done_first params now id to in
  to' = to
  \/ exists e', executions to' !! id = Some e'
                /\ Status e' <> StatusRunning /\ Status e' <> StatusPending
                /\ EndTime e' = Some now.
Proof.
  intros He. cbv zeta. unfold executeTest_run. rewrite He.
  destruct (plugin_config _) as [config|perr].
  - destruct (ExecutePlugin _ _ _ _ _ _) as [[perr|] pm|r pm|]; [right..|by left].
    + eexists. split; [cbn; apply lookup_insert_eq|]. by destruct (Canceled _).
    + eexists. split; [cbn; apply lookup_insert_eq|]. done.
    + eexists. split; [cbn; apply lookup_insert_eq|]. done.
  - right. eexists. split; [apply lookup_with_execution|]. done.
Qed.

(** An operation on another execution leaves the record of [id] alone. *)
Lemma executeTest_run_other env polls timer_fired done_first params now id id' to :
  id' <> id ->
  executions (executeTest_run env polls timer_fired done_first params now id' to) !! id
  = executions to !! id.
Proof.
  intros Hne. unfold executeTest_run.
  destruct (executions to !! id') as [e'|]; [|done].
  destruct (plugin_config _) as [config|perr].
  - destruct (ExecutePlugin _ _ _ _ _ _) as [[perr|] pm|r pm|]; [..|done];
      cbn; by rewrite lookup_insert_ne.
  - cbn. by rewrite lookup_insert_ne.
Qed.

End OrchestratorFacts.

(** C5, counterexample.  The CPU test is running; [StopTest] succeeds, and
    so does the [StopTest] that follows it at once: the first call cancelled
    the context and left the status at Running. *)
Lemma StopTest_twice_succeeds :
  ~ spec.StopTest_errors "e1" scenarios.cpu_running.
Proof.
  unfold spec.StopTest_errors.
  destruct (executions scenarios.cpu_running !! "e1") as [e|] eqn:He;
    [|vm_compute in He; discriminate He].
  vm_compute in He. injection He as <-.
  intros [_ Hrepeat]. destruct (Hrepeat eq_refl) as [_ [st Hsecond]].
  vm_compute in Hsecond. discriminate Hsecond.
Qed.

(** C6, counterexample.  The I/O test's scratch directory does not exist, so
    [Initialize] returns an error; the caller had stopped the test just
    before, so the context reads Canceled and the worker records Stopped,
    not Failed. *)
Lemma Initialize_error_after_stop_is_Stopped :
  ~ spec.Initialize_error_fails_execution
      scenarios.host scenarios.never_done false true scenarios.two_seconds (1 * Second)
      "e2" scenarios.io_stopped.
Proof.
  intros Hfails.
  edestruct Hfails as [Hstatus _]; [reflexivity..|].
  vm_compute in Hstatus. discriminate Hstatus.
Qed.

(** C6, as the code has it.  When the plugin's [Initialize] returns an
    error, the manager has called [Initialize] and nothing else (neither
    [Execute] nor [Cleanup]), and the worker records the end of the
    execution: Failed with the error's message, unless the execution's
    context has been cancelled by then, in which case the status recorded
    is Stopped and the error message is left as it was. *)
Theorem Initialize_error_ends_execution :
  forall (P : Type) (plugin_class : StressPlugin P) (env : Env)
         (polls : nat -> option error) (timer_fired done_first : bool)
         (params : TestParams) (now : Time) (id : string) (to : TestOrchestrator P)
         (e : TestExecution) (config : PluginConfig) (plugin plugin' : P) (ierr : error),
    executions to !! id = Some e ->
    plugin_config (Config (Config_ e)) = Ok config ->
    GetPlugin (Plugin (Config_ e)) (pluginManager to) = Some plugin ->
    Initialize env config plugin = Returns (Some ierr) plugin' ->
    let to' := executeTest_run env polls timer_fired done_first params now id to in
    exists e',
      executions to' !! id = Some e'
      /\ Status e' = (if Canceled (Context_ e) then StatusStopped else StatusFailed)
      /\ ErrorMessage e'
         = (if Canceled (Context_ e) then ErrorMessage e else Some (Error ierr))
      /\ EndTime e' = Some now
      /\ calls (pluginManager to')
         = calls (pluginManager to) ++ [(Plugin (Config_ e), CallInitialize)].
Proof.
  intros P plugin_class env polls timer_fired done_first params now id to
    e config plugin plugin' ierr He Hconfig Hplugin Hinit.
  cbv zeta. unfold executeTest_run. rewrite He, Hconfig.
  unfold ExecutePlugin. rewrite Hplugin, Hinit. cbn [pluginManager executions].
  eexists. split; [apply lookup_insert_eq|].
  destruct (Canceled (Context_ e)); by repeat split.
Qed.

(** The I/O test with a missing scratch directory, not stopped by anyone:
    Failed, and [Initialize] is the only call made. *)
Lemma Initialize_error_ends_execution_witness :
  let to' :=
    executeTest_run scenarios.host scenarios.never_done false true scenarios.two_seconds
      (1 * Second) "e2" scenarios.io_running in
  status_of "e2" to' = Some StatusFailed
  /\ calls (pluginManager to') = [("io-stress", CallInitialize)].
Proof.
  cbv zeta.
  edestruct (Initialize_error_ends_execution AnyPlugin _ scenarios.host
               scenarios.never_done false true scenarios.two_seconds (1 * Second)
               "e2" scenarios.io_running)
    as (e' & He' & Hstatus & _ & _ & Hcalls); [reflexivity..|].
  split.
  - unfold status_of. rewrite He'. cbn [fmap option_fmap option_map]. f_equal.
    exact Hstatus.
  - exact Hcalls.
Defined.

(** The error branch of the worker under an expired context: whatever the
    plugin, the execution is recorded as Failed with the error's message. *)
Lemma expired_context_error_is_Failed {P : Type} `{StressPlugin P}
    env polls timer_fired done_first params now id (to : TestOrchestrator P)
    e config perr pm :
  executions to !! id = Some e ->
  plugin_config (Config (Config_ e)) = Ok config ->
  err (Context_ e) = Some ContextDeadlineExceeded ->
  ExecutePlugin env
    {| golib.polls := polls; at_return := err (Context_ e);
       golib.timer_fired := timer_fired; golib.done_first := done_first |}
    (Plugin (Config_ e)) config params (pluginManager to)
  = Returns (Some perr) pm ->
  let to' := executeTest_run env polls timer_fired done_first params now id to in
  status_of id to' = Some StatusFailed
  /\ ErrorMessage <$> executions to' !! id = Some (Some (Error perr)).
Proof.
  intros He Hconfig Hctx Hrun. cbv zeta. unfold executeTest_run, status_of.
  rewrite He, Hconfig, Hrun. cbn [executions].
  rewrite lookup_insert_eq. unfold Canceled. rewrite Hctx. done.
Qed.

(** C1.  A CPU test of two seconds without ramp-up: the worker sets it
    Running, the context expires at the deadline with no StopTest or
    EmergencyStop, the plugin leaves its [select] through [ctx.Done()] and
    returns the context's error, and the worker records Failed with the
    message "context deadline exceeded", after Initialize, Execute and
    Cleanup were each called once. *)
Theorem deadline_run_is_recorded_Failed :
  status_of "e1" scenarios.cpu_running = Some StatusRunning
  /\ (fun e => err (Context_ e)) <$> executions scenarios.cpu_at_deadline !! "e1"
     = Some (Some ContextDeadlineExceeded)
  /\ status_of "e1" scenarios.cpu_after_deadline = Some StatusFailed
  /\ ErrorMessage <$> executions scenarios.cpu_after_deadline !! "e1"
     = Some (Some (Sprintf "context deadline exceeded" []))
  /\ calls (pluginManager scenarios.cpu_after_deadline)
     = [("cpu-stress", CallInitialize); ("cpu-stress", CallExecute);
        ("cpu-stress", CallCleanup)].
Proof. repeat split; vm_compute; reflexivity. Qed.

(** Whatever the readiness of the plugin's own timer and the runtime's
    choice, the CPU run that reaches its deadline is recorded as Completed
    only when the [time.After] case is ready and taken, and as Failed
    otherwise. *)
Lemma cpu_deadline_outcomes (timer_fired done_first : bool) :
  status_of "e1"
    (executeTest_run scenarios.host scenarios.never_done timer_fired done_first
       scenarios.two_seconds (2 * Second) "e1" scenarios.cpu_at_deadline)
  = Some (if timer_fired && negb done_first then StatusCompleted else StatusFailed).
Proof. destruct timer_fired, done_first; vm_compute; reflexivity. Qed.

(** The memory workload has no timer of its own: its run to the deadline
    ends Failed in the same way. *)
Lemma memory_deadline_run_is_Failed :
  status_of "e4" scenarios.memory_after_deadline = Some StatusFailed
  /\ ErrorMessage <$> executions scenarios.memory_after_deadline !! "e4"
     = Some (Some (Sprintf "context deadline exceeded" [])).
Proof. split; vm_compute; reflexivity. Qed.

(** The specification's reading of the same run does not hold. *)
Lemma deadline_run_is_not_Completed :
  ~ spec.deadline_gives_Completed
      scenarios.host scenarios.never_done false true scenarios.two_seconds (2 * Second)
      "e1" scenarios.cpu_at_deadline.
Proof.
  intros Hcompleted.
  assert (Hstatus : status_of "e1" scenarios.cpu_after_deadline = Some StatusCompleted)
    by (eapply Hcompleted; reflexivity).
  vm_compute in Hstatus. discriminate Hstatus.
Qed.

(** The second [Cleanup] is not hypothetical: the manager defers [Cleanup]
    on every run of the registered instance, so the second test on the same
    plugin ends in the worker's panic handler. *)
Lemma second_run_panics_in_Cleanup :
  status_of "e3" scenarios.cpu_second_run = Some StatusFailed
  /\ ErrorMessage <$> executions scenarios.cpu_second_run !! "e3"
     = Some (Some (Sprintf "Test panicked: %v" [ArgStr close_panic])).
Proof. split; vm_compute; reflexivity. Qed.

(** * Further properties of the code *)

(** ** The safety monitor: what a violation looks like, cooldown, status *)

Lemma breach_Some (r : result float64) (limit u : float64) :
  safety.breach r limit = Some u -> r = Ok u /\ fgt u limit = true.
Proof.
  unfold safety.breach. destruct r as [x|e]; [|discriminate].
  destruct (fgt x limit) eqn:Hgt; [|discriminate]. intros [= <-]. by split.
Qed.

(** A violation returned by [CheckSafetyLimits] was recorded by
    [recordViolation] on the monitor as the accessors left it, carries the
    clock reading [now], and is of one of four shapes, each with a reading
    strictly above its limit. *)
Lemma CheckSafetyLimits_Some {S : Type} `{safety.SystemMonitor S}
    limits now now_rec (m : safety.Monitor S) v m' :
  safety.CheckSafetyLimits limits now now_rec m = (Some v, m') ->
  (exists s, m' = safety.recordViolation v now_rec (safety.set_systemMonitor s m))
  /\ ((exists u, v = safety.cpu_violation (safety.config m) limits u now
                 /\ fgt u (MaxCPUPercent limits) = true)
      \/ (exists u, v = safety.memory_violation (safety.config m) limits u now
                    /\ fgt u (MaxMemoryPercent limits) = true)
      \/ (exists u, v = safety.disk_violation (safety.config m) limits u now
                    /\ fgt u (MaxDiskPercent limits) = true)
      \/ (exists u, v = safety.network_violation limits u now
                    /\ fgt u (MaxNetworkMbps limits) = true)).
Proof.
  unfold safety.CheckSafetyLimits.
  destruct (safety.GetCPUUsage _) as [cpu s1].
  destruct (safety.breach cpu _) as [u|] eqn:Hcpu.
  { intros [= <- <-]. apply breach_Some in Hcpu as [_ Hgt].
    split; [by exists s1|]. left. by exists u. }
  destruct (safety.GetMemoryUsage _) as [mem s2].
  destruct (safety.breach mem _) as [u|] eqn:Hmem.
  { intros [= <- <-]. apply breach_Some in Hmem as [_ Hgt].
    split; [by exists s2|]. right; left. by exists u. }
  destruct (safety.GetDiskUsage _) as [disk s3].
  destruct (safety.breach disk _) as [u|] eqn:Hdisk.
  { intros [= <- <-]. apply breach_Some in Hdisk as [_ Hgt].
    split; [by exists s3|]. right; right; left. by exists u. }
  destruct (safety.GetNetworkUsage _) as [net s4].
  destruct (safety.breach net _) as [u|] eqn:Hnet; [|discriminate].
  intros [= <- <-]. apply breach_Some in Hnet as [_ Hgt].
  split; [by exists s4|]. right; right; right. by exists u.
Qed.

Lemma usage_severity_Critical cfg usage :
  safety.usage_severity cfg usage = safety.SeverityCritical
  <-> fgt usage (safety.EmergencyThreshold cfg) = true.
Proof.
  unfold safety.usage_severity.
  destruct (fgt usage (safety.EmergencyThreshold cfg)); [done|].
  destruct (fgt usage (safety.AlertThreshold cfg)); split; discriminate.
Qed.

Lemma usage_severity_not_Info cfg usage :
  safety.usage_severity cfg usage <> safety.SeverityInfo.
Proof. unfold safety.usage_severity. by repeat case_match. Qed.

(** The critical flag of a violation of [CheckSafetyLimits] and its
    severity say the same thing. *)
Lemma CheckSafetyLimits_Critical {S : Type} `{safety.SystemMonitor S}
    limits now now_rec (m : safety.Monitor S) v m' :
  safety.CheckSafetyLimits limits now now_rec m = (Some v, m') ->
  safety.v_Critical v = true <-> safety.v_Severity v = safety.SeverityCritical.
Proof.
  intros Hcheck. apply CheckSafetyLimits_Some in Hcheck as [_ Hshape].
  destruct Hshape as [(u & -> & _)|[(u & -> & _)|[(u & -> & _)|(u & -> & _)]]]; cbn.
  1-3: symmetry; apply usage_severity_Critical.
  split; [discriminate|]. by case_match.
Qed.

(** X1.  Every violation [CheckSafetyLimits] returns has a reading strictly
    above the limit it names and the timestamp of the call; its severity is
    never Info; its critical flag is set exactly when its severity is
    Critical, which for CPU, memory and disk means a reading strictly above
    the emergency threshold, and never happens for the network. *)
Theorem CheckSafetyLimits_violation_shape :
  forall (S : Type) (sm : safety.SystemMonitor S) (limits : SafetyLimits)
         (now now_rec : Time) (m : safety.Monitor S),
    match (safety.CheckSafetyLimits limits now now_rec m).1 with
    | None => True
    | Some v =>
        fgt (safety.v_CurrentValue v) (safety.v_Limit v) = true
        /\ safety.v_Timestamp v = now
        /\ safety.v_Severity v <> safety.SeverityInfo
        /\ (safety.v_Critical v = true
            <-> safety.v_Severity v = safety.SeverityCritical)
        /\ (safety.v_Critical v
            = if String.eqb (safety.v_Type v) "network" then false
              else fgt (safety.v_CurrentValue v)
                       (safety.EmergencyThreshold (safety.config m)))
    end.
Proof.
  intros S sm limits now now_rec m.
  destruct (safety.CheckSafetyLimits limits now now_rec m) as [[v|] m'] eqn:Hcheck;
    [|done].
  cbn [fst]. pose proof (CheckSafetyLimits_Critical _ _ _ _ _ _ Hcheck) as Hflag.
  apply CheckSafetyLimits_Some in Hcheck as [_ Hshape].
  destruct Hshape as [(u & -> & Hgt)|[(u & -> & Hgt)|[(u & -> & Hgt)|(u & -> & Hgt)]]];
    cbn in *; repeat split; try done; try apply Hflag;
    try apply usage_severity_not_Info.
  by case_match.
Qed.

Lemma In_recordViolation {S : Type} `{safety.SystemMonitor S}
    v now (m : safety.Monitor S) x :
  In x (safety.violations (safety.recordViolation v now m))
  <-> (In x (safety.violations m) \/ x = v) /\ now - Hour < safety.v_Timestamp x.
Proof.
  cbn. rewrite filter_In, in_app_iff. unfold After. cbn.
  rewrite Z.ltb_lt. intuition.
Qed.

Lemma IsInCooldownPeriod_true {S : Type} `{safety.SystemMonitor S}
    t (m : safety.Monitor S) :
  safety.IsInCooldownPeriod t m = true
  <-> exists x, In x (safety.violations m)
                /\ t - safety.CooldownPeriod (safety.config m) < safety.v_Timestamp x
                /\ (safety.v_Severity x = safety.SeverityError
                    \/ safety.v_Severity x = safety.SeverityCritical).
Proof.
  unfold safety.IsInCooldownPeriod, safety.getRecentViolations.
  rewrite existsb_exists. split.
  - intros (x & Hin & Hsev). apply filter_In in Hin as [Hin Hrecent].
    unfold After in Hrecent. apply Z.ltb_lt in Hrecent.
    exists x. repeat split; [done..|].
    apply orb_true_iff in Hsev as [Hsev|Hsev]; apply bool_decide_eq_true in Hsev; auto.
  - intros (x & Hin & Hrecent & Hsev). exists x. split.
    + apply filter_In. split; [done|]. unfold After. by apply Z.ltb_lt.
    + apply orb_true_iff.
      destruct Hsev as [Hsev|Hsev]; [left|right]; by apply bool_decide_eq_true.
Qed.

(** X2.  After [CheckSafetyLimits] has returned a violation, the monitor
    is in its cooldown period at time [t] (less than the cooldown period
    after the violation) exactly when the violation is of severity Error or
    Critical, or an earlier violation of such severity is still on record
    and within the period: a Warning never starts a cooldown, an Error or
    Critical violation always does. *)
Theorem cooldown_after_violation :
  forall (S : Type) (sm : safety.SystemMonitor S) (limits : SafetyLimits)
         (now now_rec t : Time) (m m' : safety.Monitor S) (v : safety.Violation),
    safety.CheckSafetyLimits limits now now_rec m = (Some v, m') ->
    now_rec - Hour < now ->
    t - safety.CooldownPeriod (safety.config m) < now ->
    safety.IsInCooldownPeriod t m' = true
    <-> (safety.v_Severity v = safety.SeverityError
         \/ safety.v_Severity v = safety.SeverityCritical)
        \/ exists x, In x (safety.violations m)
                     /\ now_rec - Hour < safety.v_Timestamp x
                     /\ t - safety.CooldownPeriod (safety.config m)
                        < safety.v_Timestamp x
                     /\ (safety.v_Severity x = safety.SeverityError
                         \/ safety.v_Severity x = safety.SeverityCritical).
Proof.
  intros S sm limits now now_rec t m m' v Hcheck Hhour Hcool.
  pose proof (CheckSafetyLimits_Some _ _ _ _ _ _ Hcheck) as [[s ->] Hshape].
  assert (Hts : safety.v_Timestamp v = now).
  { by destruct Hshape as [(u & -> & _)|[(u & -> & _)|[(u & -> & _)|(u & -> & _)]]]. }
  rewrite IsInCooldownPeriod_true. cbn [safety.config safety.recordViolation].
  split.
  - intros (x & Hin & Hrecent & Hsev).
    apply In_recordViolation in Hin as [[Hin| ->] Hkept]; [right|by left].
    exists x. by repeat split.
  - intros [Hsev|(x & Hin & Hkept & Hrecent & Hsev)].
    + exists v. split; [|by rewrite Hts].
      apply In_recordViolation. rewrite Hts. split; [by right|done].
    + exists x. split; [|done]. apply In_recordViolation. split; [by left|done].
Qed.

(** On the host where every reading is at 99, the CPU violation of second 1
    is Critical, and the monitor is in cooldown half a minute later. *)
Lemma cooldown_after_violation_witness :
  safety.IsInCooldownPeriod (30 * Second)
    (safety.CheckSafetyLimits scenarios.memory_limits (1 * Second) (1 * Second)
       (safety.NewMonitor scenarios.busy_host scenarios.zero_Config)).2
  = true.
Proof.
  pose proof (cooldown_after_violation scenarios.FakeProbe _ scenarios.memory_limits
                (1 * Second) (1 * Second) (30 * Second)
                (safety.NewMonitor scenarios.busy_host scenarios.zero_Config))
    as Hcooldown.
  destruct (safety.CheckSafetyLimits _ _ _ _) as [[v|] m'] eqn:Hcheck;
    [|vm_compute in Hcheck; discriminate Hcheck].
  apply (Hcooldown m' v eq_refl); [reflexivity..|].
  left. right. vm_compute in Hcheck. by injection Hcheck as <- _.
Defined.

(** X3.  [GetSafetyStatus] reads the record and changes nothing of it.  The
    overall status is "critical" exactly when a violation of the last five
    minutes carries the critical flag; otherwise it is "healthy" when there
    is no violation in the last five minutes, "warning" for one to three of
    them and "degraded" for more.  The status reports their number and the
    one recorded last. *)
Theorem GetSafetyStatus_overall :
  forall (S : Type) (sm : safety.SystemMonitor S) (now_recent now : Time)
         (m : safety.Monitor S),
    let st := (safety.GetSafetyStatus now_recent now m).1 in
    let m' := (safety.GetSafetyStatus now_recent now m).2 in
    let recent :=
      List.filter (fun v => now_recent - 5 * Minute <? safety.v_Timestamp v)
                  (safety.violations m) in
    let flagged := exists v, In v recent /\ safety.v_Critical v = true in
    (safety.Overall st = "critical" <-> flagged)
    /\ (safety.Overall st = "healthy" <-> recent = [])
    /\ (safety.Overall st = "warning"
        <-> ~ flagged /\ (1 <= length recent <= 3)%nat)
    /\ (safety.Overall st = "degraded" <-> ~ flagged /\ (3 < length recent)%nat)
    /\ safety.RecentViolations st = Z.of_nat (length recent)
    /\ safety.LastViolation st = last recent
    /\ safety.status_Timestamp st = now
    /\ safety.violations m' = safety.violations m
    /\ safety.alertManager m' = safety.alertManager m
    /\ safety.emergencyStop m' = safety.emergencyStop m
    /\ safety.config m' = safety.config m.
Proof.
  intros S sm now_recent now m. cbv zeta.
  unfold safety.GetSafetyStatus, safety.getSystemHealth, safety.getRecentViolations.
  destruct (safety.GetCPUUsage _) as [cpu s1].
  destruct (safety.GetMemoryUsage _) as [mem s2].
  destruct (safety.GetDiskUsage _) as [disk s3].
  destruct (safety.GetSystemTemperature _) as [temp s4].
  cbn -[Z.mul Minute]. unfold After.
  set (recent := List.filter _ (safety.violations m)).
  assert (Hflag : existsb safety.v_Critical recent = true
                  <-> exists v, In v recent /\ safety.v_Critical v = true)
    by apply existsb_exists.
  destruct (existsb safety.v_Critical recent).
  - assert (Hsome : exists v, In v recent /\ safety.v_Critical v = true)
      by by apply Hflag.
    assert (Hne : recent <> []).
    { destruct Hsome as (v & Hin & _). by destruct recent. }
    repeat split; try done; try (by intros [? _]).
  - assert (Hnone : ~ exists v, In v recent /\ safety.v_Critical v = true).
    { intros Hsome. by apply Hflag in Hsome. }
    assert (Hlen : recent = [] <-> length recent = 0%nat).
    { by destruct recent. }
    destruct (Z.ltb_spec 0 (Z.of_nat (length recent))) as [Hpos|Hzero];
      [destruct (Z.ltb_spec 3 (Z.of_nat (length recent))) as [Hmany|Hfew]|];
      repeat split; try done; try lia;
      try (intros [_ ?]; lia); try (intros ?%Hlen; lia).
    intros _. apply Hlen. lia.
Qed.

(** ** The orchestrator: supervision, emergency stops, bookkeeping *)

(** X4.  One tick of [monitorSafety] leaves the monitor as
    [CheckSafetyLimits] leaves it, and stops the execution exactly when the
    violation found is of severity Critical: the execution is then Failed
    with the reason "Critical safety violation: ..." and its context is
    cancelled, the other executions are untouched, and the loop returns.
    In every other case (no violation, or one of lower severity, such as
    any network violation) the orchestrator is left alone and the loop goes
    on. *)
Theorem monitorSafety_stops_on_critical :
  forall (P : Type) (plugin_class : StressPlugin P)
         (S : Type) (sm : safety.SystemMonitor S)
         (limits : SafetyLimits) (now now_rec now_stop : Time) (id : string)
         (safetyMonitor : safety.Monitor S) (to : TestOrchestrator P)
         (e : TestExecution),
    executions to !! id = Some e ->
    let check := safety.CheckSafetyLimits limits now now_rec safetyMonitor in
    let out := monitorSafety_tick limits now now_rec now_stop id safetyMonitor to in
    out.1.2 = check.2
    /\ match check.1 with
       | Some v =>
           if bool_decide (safety.v_Severity v = safety.SeverityCritical) then
             out.1.1 = true
             /\ (exists e',
                   executions out.2 !! id = Some e'
                   /\ Status e' = StatusFailed
                   /\ ErrorMessage e' = Some (critical_violation_reason v)
                   /\ EndTime e' = Some now_stop
                   /\ Context_ e' = cancel (Context_ e))
             /\ (forall id', id' <> id -> executions out.2 !! id' = executions to !! id')
             /\ pluginManager out.2 = pluginManager to
           else out.1.1 = false /\ out.2 = to
       | None => out.1.1 = false /\ out.2 = to
       end.
Proof.
  intros P plugin_class S sm limits now now_rec now_stop id safetyMonitor to e He.
  cbv zeta. unfold monitorSafety_tick.
  destruct (safety.CheckSafetyLimits limits now now_rec safetyMonitor)
    as [[v|] m'] eqn:Hcheck; [|done].
  pose proof (CheckSafetyLimits_Critical _ _ _ _ _ _ Hcheck) as Hflag.
  cbn [fst snd]. destruct (safety.v_Critical v).
  - rewrite bool_decide_eq_true_2 by by apply Hflag.
    unfold EmergencyStop. rewrite He. cbn.
    repeat split; try done.
    + eexists. split; [apply lookup_insert_eq|done].
    + intros id' Hne. by rewrite lookup_insert_ne.
  - rewrite bool_decide_eq_false_2; [done|].
    intros Hsev. apply Hflag in Hsev. discriminate Hsev.
Qed.

(** The running CPU test on the host where every reading is at 99: the
    tick stops it. *)
Lemma monitorSafety_stops_on_critical_witness :
  status_of "e1"
    (monitorSafety_tick scenarios.memory_limits (1 * Second) (1 * Second) (1 * Second)
       "e1" (safety.NewMonitor scenarios.busy_host scenarios.zero_Config)
       scenarios.cpu_running).2
  = Some StatusFailed.
Proof.
  pose proof (monitorSafety_stops_on_critical AnyPlugin _ scenarios.FakeProbe _
                scenarios.memory_limits (1 * Second) (1 * Second) (1 * Second) "e1"
                (safety.NewMonitor scenarios.busy_host scenarios.zero_Config)
                scenarios.cpu_running) as Htick.
  destruct (executions scenarios.cpu_running !! "e1") as [e|] eqn:He;
    [|vm_compute in He; discriminate He].
  destruct (Htick e eq_refl) as [_ Hstop]. clear Htick.
  destruct (safety.CheckSafetyLimits _ _ _ _) as [[v|] m'] eqn:Hcheck;
    [|vm_compute in Hcheck; discriminate Hcheck].
  cbn [fst] in Hstop. rewrite bool_decide_eq_true_2 in Hstop.
  - destruct Hstop as (_ & (e' & He' & Hstatus & _) & _).
    unfold status_of. rewrite He'. cbn. by rewrite Hstatus.
  - vm_compute in Hcheck. by injection Hcheck as <- _.
Defined.

(** X5.  [EmergencyStop] on an execution whose context is live records
    Failed with the reason and the time, and cancels the context.  That
    record does not last: when the plugin then returns, the worker's finish
    overwrites the status, with Stopped if the plugin returned an error
    (the context reads Canceled) and with Completed if it returned nil; the
    reason stays as the error message and the end time moves to the
    worker's.  Only a panic of the plugin leaves the execution Failed. *)
Theorem EmergencyStop_then_worker_finish :
  forall (P : Type) (plugin_class : StressPlugin P) (id : string)
         (to : TestOrchestrator P) (e : TestExecution) (reason : Formatted)
         (t1 : Time),
    executions to !! id = Some e ->
    err (Context_ e) = None ->
    let to1 := (EmergencyStop id reason t1 to).2 in
    (EmergencyStop id reason t1 to).1 = None
    /\ (exists e1,
          executions to1 !! id = Some e1
          /\ Status e1 = StatusFailed /\ ErrorMessage e1 = Some reason
          /\ EndTime e1 = Some t1 /\ err (Context_ e1) = Some ContextCanceled)
    /\ (StopTest id to1).1 = Some (NotRunning StatusFailed)
    /\ forall env polls timer_fired done_first params t2 config,
         plugin_config (Config (Config_ e)) = Ok config ->
         let view := {| golib.polls := polls; at_return := Some ContextCanceled;
                        golib.timer_fired := timer_fired;
                        golib.done_first := done_first |} in
         let to2 := executeTest_run env polls timer_fired done_first params t2 id to1 in
         match ExecutePlugin env view (Plugin (Config_ e)) config params
                             (pluginManager to) with
         | Blocks => to2 = to1
         | Returns perr _ =>
             exists e2,
               executions to2 !! id = Some e2
               /\ Status e2 = match perr with
                              | Some _ => StatusStopped
                              | None => StatusCompleted
                              end
               /\ ErrorMessage e2 = Some reason
               /\ EndTime e2 = Some t2
         | Panics r _ =>
             exists e2,
               executions to2 !! id = Some e2
               /\ Status e2 = StatusFailed
               /\ ErrorMessage e2 = Some (Sprintf "Test panicked: %v" [ArgStr r])
               /\ EndTime e2 = Some t2
         end.
Proof.
  intros P plugin_class id to e reason t1 He Hlive. cbv zeta.
  unfold EmergencyStop. rewrite He. cbn [fst snd].
  set (e1 := set_state _ StatusFailed (Some t1) (Some reason)).
  assert (He1 : executions (with_execution id e1 to) !! id = Some e1)
    by apply lookup_with_execution.
  assert (Hctx : err (Context_ e1) = Some ContextCanceled).
  { cbn. unfold cancel. by rewrite Hlive. }
  split; [done|]. split; [by exists e1|]. split.
  { by rewrite (StopTest_not_running _ _ e1 He1). }
  intros env polls timer_fired done_first params t2 config Hconfig.
  unfold executeTest_run. rewrite He1.
  change (Config_ e1) with (Config_ e). rewrite Hconfig, Hctx.
  change (pluginManager (with_execution id e1 to)) with (pluginManager to).
  destruct (ExecutePlugin _ _ _ _ _ _) as [[perr|] pm|r pm|]; [..|done].
  - eexists. split; [cbn; apply lookup_insert_eq|].
    change (cancel (Context_ e)) with (Context_ e1).
    unfold Canceled. rewrite Hctx. done.
  - eexists. split; [cbn; apply lookup_insert_eq|done].
  - eexists. split; [cbn; apply lookup_insert_eq|done].
Qed.

(** The running CPU test, stopped in an emergency: Failed at first, and
    Stopped once the worker has finished. *)
Lemma EmergencyStop_then_worker_finish_witness :
  status_of "e1" scenarios.cpu_emergency = Some StatusFailed
  /\ status_of "e1" scenarios.cpu_after_emergency = Some StatusStopped.
Proof.
  pose proof (EmergencyStop_then_worker_finish AnyPlugin _ "e1" scenarios.cpu_running)
    as Hstop.
  destruct (executions scenarios.cpu_running !! "e1") as [e|] eqn:He;
    [|vm_compute in He; discriminate He].
  assert (Hlive : err (Context_ e) = None).
  { vm_compute in He. by injection He as <-. }
  assert (Hconfig : plugin_config (Config (Config_ e))
                    = Ok (CfgObject [("algorithm", JString "prime");
                                     ("intensity", JFloat 50%float);
                                     ("ramp_up", JBool false)])).
  { vm_compute in He. injection He as <-. vm_compute. reflexivity. }
  destruct (Hstop e scenarios.overheating (1 * Second) eq_refl Hlive)
    as (_ & (e1 & He1 & Hst1 & _) & _ & Hfinish).
  split.
  - unfold status_of, scenarios.cpu_emergency. rewrite He1. cbn. by rewrite Hst1.
  - specialize (Hfinish scenarios.host scenarios.never_done false true
                  scenarios.two_seconds (1 * Second) _ Hconfig).
    cbv zeta in Hfinish.
    destruct (ExecutePlugin _ _ _ _ _ _) as [[perr|] pm|r pm|] eqn:Hrun;
      [|exfalso; clear Hfinish; vm_compute in He; injection He as <-;
        vm_compute in Hrun; discriminate Hrun..].
    destruct Hfinish as (e2 & He2 & Hst2 & _).
    unfold status_of, scenarios.cpu_after_emergency, scenarios.cpu_emergency.
    rewrite He2. cbn. by rewrite Hst2.
Defined.

Section BookkeepingFacts.
Context {P : Type} `{StressPlugin P}.
Implicit Types (to : TestOrchestrator P) (e : TestExecution) (id : string).


(** The loop of [CleanupCompletedTests], ranging over [m] while deleting
    from [M]. *)
Lemma cleanup_loop cutoff (M m : gmap string TestExecution) :
  let r := map_fold (fun id e (acc : Z * gmap string TestExecution) =>
                       if shouldClean cutoff e then (acc.1 + 1, delete id acc.2)
                       else acc) (0, M) m in
  (forall k, r.2 !! k = match m !! k with
                         | Some e => if shouldClean cutoff e then None else M !! k
                         | None => M !! k
                         end)
  /\ (m ⊆ M -> r.1 + Z.of_nat (size r.2) = Z.of_nat (size M))
  /\ ((forall k e, m !! k = Some e -> shouldClean cutoff e = false) -> r = (0, M)).
Proof.
  cbv zeta.
  apply (map_fold_weak_ind
           (fun r m =>
              (forall k, r.2 !! k = match m !! k with
                                     | Some e => if shouldClean cutoff e then None
                                                 else M !! k
                                     | None => M !! k
                                     end)
              /\ (m ⊆ M -> r.1 + Z.of_nat (size r.2) = Z.of_nat (size M))
              /\ ((forall k e, m !! k = Some e -> shouldClean cutoff e = false)
                  -> r = (0, M)))); clear m.
  - split; [|split]; [|cbn; lia|done]. intros k. by rewrite lookup_empty.
  - intros i x m [n acc] Hfresh (IHlookup & IHsize & IHsame). cbn [fst snd] in *.
    assert (Hacc : acc !! i = M !! i) by by rewrite IHlookup, Hfresh.
    destruct (shouldClean cutoff x) eqn:Hclean; cbn [fst snd]; (split; [|split]).
    + intros k. destruct (decide (k = i)) as [->|Hne].
      * by rewrite lookup_delete_eq, lookup_insert_eq, Hclean.
      * by rewrite lookup_delete_ne, lookup_insert_ne.
    + intros Hsub.
      assert (HM : M !! i = Some x).
      { eapply lookup_weaken; [apply lookup_insert_eq|done]. }
      assert (Hsub' : m ⊆ M).
      { etrans; [by apply insert_subseteq|done]. }
      specialize (IHsize Hsub'). rewrite HM in Hacc.
      rewrite map_size_delete_Some by done.
      assert (size acc <> 0%nat).
      { apply map_size_ne_0_lookup. by exists i. }
      lia.
    + intros Hnone. specialize (Hnone i x (lookup_insert_eq _ _ _)). congruence.
    + intros k. destruct (decide (k = i)) as [->|Hne].
      * by rewrite lookup_insert_eq, Hclean.
      * by rewrite lookup_insert_ne.
    + intros Hsub. apply IHsize. etrans; [by apply insert_subseteq|done].
    + intros Hnone. apply IHsame. intros k e Hk. apply (Hnone k).
      rewrite lookup_insert_ne; [done|]. intros ->. congruence.
Qed.

Lemma CleanupCompletedTests_lookup maxAge now to id :
  executions (CleanupCompletedTests maxAge now to).2 !! id
  = match executions to !! id with
    | Some e => if shouldClean (now - maxAge) e then None else Some e
    | None => None
    end.
Proof.
  unfold CleanupCompletedTests. cbv zeta.
  pose proof (cleanup_loop (now - maxAge) (executions to) (executions to))
    as (Hlookup & _ & _). cbv zeta in Hlookup.
  destruct (map_fold _ _ _) as [n acc]. cbn in *. rewrite Hlookup.
  destruct (executions to !! id) as [e|]; [|done]. by destruct (shouldClean _ e).
Qed.

Lemma AddMetric_lookup id metric to id' :
  id' <> id ->
  executions (AddMetric id metric to).2 !! id' = executions to !! id'.
Proof.
  intros Hne. unfold AddMetric. destruct (executions to !! id); [|done].
  cbn. by rewrite lookup_insert_ne.
Qed.

(** Every operation keeps the executions well filed. *)
Lemma step_well_filed to to' : step to to' -> well_filed to -> well_filed to'.
Proof.
  intros Hstep Hfiled.
  destruct Hstep as
    [id now_ctx now_start config params to|id to
    |env polls tf df params now id to|id to|id reason now to|id to
    |id metric to|maxAge now to]; intros k e'.
  - (* StartTest *)
    unfold StartTest, with_execution. destruct (GetPlugin _ _); [|apply Hfiled].
    cbn. destruct (decide (k = id)) as [->|Hne].
    + rewrite lookup_insert_eq. by intros [= <-].
    + rewrite lookup_insert_ne by done. apply Hfiled.
  - (* the worker sets the execution running *)
    unfold executeTest_begin, with_execution.
    destruct (executions to !! id) as [e|] eqn:He; [|apply Hfiled].
    cbn. destruct (decide (k = id)) as [->|Hne].
    + rewrite lookup_insert_eq. intros [= <-]. cbn.
      destruct (Hfiled id e He) as (Hid & _). by repeat split.
    + rewrite lookup_insert_ne by done. apply Hfiled.
  - (* the worker records the end *)
    destruct (decide (k = id)) as [->|Hne];
      [|rewrite executeTest_run_other by done; apply Hfiled].
    unfold executeTest_run.
    destruct (executions to !! id) as [e|] eqn:He; [|rewrite He; done].
    destruct (Hfiled id e He) as (Hid & _).
    destruct (plugin_config _) as [config|perr].
    + destruct (ExecutePlugin _ _ _ _ _ _) as [[perr|] pm|r pm|];
        [..|rewrite He; intros [= <-]; by apply Hfiled];
        cbn; rewrite lookup_insert_eq; intros [= <-];
        try destruct (Canceled _); by repeat split.
    + cbn. rewrite lookup_insert_eq. intros [= <-]. by repeat split.
  - (* StopTest *)
    unfold StopTest, with_execution.
    destruct (executions to !! id) as [e|] eqn:He; [|apply Hfiled].
    case_bool_decide as Hst; [apply Hfiled|]. cbn.
    destruct (decide (k = id)) as [->|Hne].
    + rewrite lookup_insert_eq. intros [= <-]. cbn. by apply Hfiled.
    + rewrite lookup_insert_ne by done. apply Hfiled.
  - (* EmergencyStop *)
    unfold EmergencyStop, with_execution.
    destruct (executions to !! id) as [e|] eqn:He; [|apply Hfiled]. cbn.
    destruct (decide (k = id)) as [->|Hne].
    + rewrite lookup_insert_eq. intros [= <-]. cbn.
      destruct (Hfiled id e He) as (Hid & _). by repeat split.
    + rewrite lookup_insert_ne by done. apply Hfiled.
  - (* the timer of a context *)
    unfold deadline_reached, with_execution.
    destruct (executions to !! id) as [e|] eqn:He; [|apply Hfiled]. cbn.
    destruct (decide (k = id)) as [->|Hne].
    + rewrite lookup_insert_eq. intros [= <-]. cbn. by apply Hfiled.
    + rewrite lookup_insert_ne by done. apply Hfiled.
  - (* AddMetric *)
    destruct (decide (k = id)) as [->|Hne];
      [|rewrite AddMetric_lookup by done; apply Hfiled].
    unfold AddMetric, with_execution.
    destruct (executions to !! id) as [e|] eqn:He; [|cbn; rewrite He; done]. cbn.
    rewrite lookup_insert_eq. intros [= <-]. cbn. by apply Hfiled.
  - (* CleanupCompletedTests *)
    rewrite CleanupCompletedTests_lookup.
    destruct (executions to !! k) as [e|] eqn:He; [|done].
    destruct (shouldClean _ e); [done|]. intros [= <-]. by apply Hfiled.
Qed.

Lemma NewTestOrchestrator_well_filed (pm : PluginManager P) :
  well_filed (NewTestOrchestrator pm).
Proof. intros id e. cbn. by rewrite lookup_empty. Qed.

(** What [ListExecutions] returns, entry by entry. *)
Lemma elem_of_ListExecutions to (r : models.TestExecution) :
  r ∈ ListExecutions to
  <-> exists id e, executions to !! id = Some e /\ r = to_model e.
Proof.
  unfold ListExecutions. rewrite list_elem_of_fmap. split.
  - intros ([id e] & -> & Hin). apply elem_of_map_to_list in Hin. by exists id, e.
  - intros (id & e & He & ->). exists (id, e). split; [done|].
    by apply elem_of_map_to_list.
Qed.

End BookkeepingFacts.

Section StopFacts.
Context {P : Type} `{StressPlugin P}.
Implicit Types (to : TestOrchestrator P) (e : TestExecution) (id : string).

(** Only the start of its own worker makes an execution Running, and only
    [CleanupCompletedTests] takes an execution off the record: every later
    operation keeps an execution that is not Running that way. *)
Lemma later_not_running reaping id to to' :
  later reaping id to to' -> not_running reaping id to -> not_running reaping id to'.
Proof.
  unfold not_running. intros Hlater Hnr. destruct Hlater as
    [id' to|id' reason now to|id' to|env polls tf df params now id' to|id' to Hne
    |id' now_ctx now_start config params to Hne Hfresh|id' metric to|maxAge now to Hreap].
  - (* StopTest *)
    unfold StopTest, with_execution.
    destruct (executions to !! id') as [e'|] eqn:He'; [|exact Hnr].
    case_bool_decide as Hst; [exact Hnr|]. cbn.
    destruct (decide (id' = id)) as [->|Hne'].
    + rewrite lookup_insert_eq. rewrite He' in Hnr. exact Hnr.
    + by rewrite lookup_insert_ne.
  - (* EmergencyStop *)
    unfold EmergencyStop, with_execution.
    destruct (executions to !! id') as [e'|] eqn:He'; [|exact Hnr]. cbn.
    destruct (decide (id' = id)) as [->|Hne'].
    + rewrite lookup_insert_eq. done.
    + by rewrite lookup_insert_ne.
  - (* the timer *)
    unfold deadline_reached, with_execution.
    destruct (executions to !! id') as [e'|] eqn:He'; [|exact Hnr]. cbn.
    destruct (decide (id' = id)) as [->|Hne'].
    + rewrite lookup_insert_eq. rewrite He' in Hnr. exact Hnr.
    + by rewrite lookup_insert_ne.
  - (* a worker's run *)
    destruct (decide (id' = id)) as [->|Hne'].
    + destruct (executions to !! id) as [e|] eqn:He.
      * destruct (executeTest_run_terminal env polls tf df params now id to e He)
          as [Hsame|(e' & He' & Hrun & _)];
          [rewrite Hsame, He; exact Hnr|rewrite He'; exact Hrun].
      * unfold executeTest_run. by rewrite He, He.
    + by rewrite executeTest_run_other.
  - (* the start of another worker *)
    unfold executeTest_begin, with_execution.
    destruct (executions to !! id'); [|exact Hnr]. cbn. by rewrite lookup_insert_ne.
  - (* a new execution *)
    unfold StartTest, with_execution. destruct (GetPlugin _ _); [|exact Hnr].
    cbn. by rewrite lookup_insert_ne.
  - (* AddMetric *)
    destruct (decide (id' = id)) as [->|Hne']; [|by rewrite AddMetric_lookup].
    unfold AddMetric.
    destruct (executions to !! id) as [e|] eqn:He; [|cbn; by rewrite He].
    cbn. rewrite lookup_insert_eq. exact Hnr.
  - (* CleanupCompletedTests *)
    rewrite CleanupCompletedTests_lookup.
    destruct (executions to !! id) as [e|]; [|exact Hnr].
    by destruct (shouldClean _ e).
Qed.

Lemma later_rtc_not_running reaping id to to' :
  rtc (later reaping id) to to' ->
  not_running reaping id to -> not_running reaping id to'.
Proof.
  induction 1 as [|to to1 to' Hstep _ IH]; [done|].
  intros Hnr. apply IH. by eapply later_not_running.
Qed.

End StopFacts.

(** C5, as the code has it.  [StopTest] returns NotFound for an id that is
    not in the executions map and NotRunning for an execution whose status
    is not Running.  On a running execution it cancels the context and
    leaves the status at Running, so a [StopTest] repeated before the worker
    has recorded the end succeeds again.  Once the worker's last step has
    recorded a terminal status no [StopTest] on the execution succeeds any
    more, whatever is called in between ([StopTest], [EmergencyStop],
    [AddMetric], [StartTest] of other tests, other workers, timers): it
    returns NotRunning as long as the execution is on record, and NotFound
    once a [CleanupCompletedTests] has taken it off the record, which is
    the only way for it to go. *)
Theorem StopTest_results :
  forall (P : Type) (plugin : StressPlugin P) (id : string) (to : TestOrchestrator P),
    match executions to !! id with
    | None => StopTest id to = (Some (NotFound id), to)
    | Some e =>
        if bool_decide (Status e = StatusRunning) then
          let to1 := with_execution id (set_Context e (cancel (Context_ e))) to in
          StopTest id to = (None, to1)
          /\ status_of id to1 = Some StatusRunning
          /\ (StopTest id to1).1 = None
          /\ forall env polls timer_fired done_first params now,
               let to2 :=
                 executeTest_run env polls timer_fired done_first params now id to1 in
               to2 = to1
               \/ forall (reaping : bool) to3,
                    rtc (later reaping id) to2 to3 ->
                    match executions to3 !! id with
                    | Some e3 =>
                        Status e3 <> StatusRunning
                        /\ StopTest id to3 = (Some (NotRunning (Status e3)), to3)
                    | None =>
                        reaping = true
                        /\ StopTest id to3 = (Some (NotFound id), to3)
                    end
        else StopTest id to = (Some (NotRunning (Status e)), to)
    end.
Proof.
  intros P plugin id to.
  destruct (executions to !! id) as [e|] eqn:He; [|exact (StopTest_unknown _ _ He)].
  case_bool_decide as Hst; [|exact (StopTest_not_running _ _ _ He Hst)].
  cbv zeta.
  set (e1 := set_Context e (cancel (Context_ e))).
  assert (He1 : executions (with_execution id e1 to) !! id = Some e1)
    by apply lookup_with_execution.
  split; [exact (StopTest_running _ _ _ He Hst)|].
  split; [unfold status_of; rewrite He1; cbn; by rewrite Hst|].
  split; [by rewrite (StopTest_running _ _ e1 He1 Hst)|].
  intros env polls timer_fired done_first params now.
  destruct (executeTest_run_terminal env polls timer_fired done_first params now
              id _ e1 He1) as [Hsame|(e' & He' & Hrun & _ & _)]; [by left|right].
  intros reaping to3 Hlater.
  pose proof (later_rtc_not_running reaping id _ to3 Hlater) as Hnr.
  unfold not_running in Hnr. rewrite He' in Hnr. specialize (Hnr Hrun).
  destruct (executions to3 !! id) as [e3|] eqn:He3.
  - split; [exact Hnr|]. exact (StopTest_not_running _ _ _ He3 Hnr).
  - split; [exact Hnr|]. exact (StopTest_unknown _ _ He3).
Qed.

(** Reaping does happen: the CPU test that ended at its deadline is taken
    off the record by a [CleanupCompletedTests] two hours later, and
    [StopTest] then returns NotFound, where a moment before it returned
    NotRunning. *)
Lemma StopTest_after_cleanup_is_NotFound :
  (StopTest "e1" scenarios.cpu_after_deadline).1 = Some (NotRunning StatusFailed)
  /\ (StopTest "e1"
        (CleanupCompletedTests Hour (2 * Hour) scenarios.cpu_after_deadline).2).1
     = Some (NotFound "e1").
Proof. split; vm_compute; reflexivity. Qed.

(** On the running CPU test the first [StopTest] succeeds, the status stays
    Running, and the second [StopTest] succeeds as well. *)
Lemma StopTest_results_witness :
  (StopTest "e1" scenarios.cpu_running).1 = None
  /\ status_of "e1" (StopTest "e1" scenarios.cpu_running).2 = Some StatusRunning
  /\ (StopTest "e1" (StopTest "e1" scenarios.cpu_running).2).1 = None.
Proof.
  pose proof (StopTest_results AnyPlugin _ "e1" scenarios.cpu_running) as Hresults.
  destruct (executions scenarios.cpu_running !! "e1") as [e|] eqn:He;
    [|vm_compute in He; discriminate He].
  vm_compute in He. injection He as <-.
  rewrite bool_decide_eq_true_2 in Hresults by reflexivity.
  destruct Hresults as (Hfirst & Hstatus & Hsecond & _).
  rewrite Hfirst. cbn [fst snd]. by repeat split.
Defined.


(** X7.  [AddMetric] appends: after adding metric points one by one,
    [GetTestMetrics] returns the points the execution had, followed by the
    new ones in the order they were added.  Nothing else changes: the
    report of [GetTestStatus] and the other executions stay as they were.
    For an id that is not on record both operations return the NotFound
    error and the state is left alone. *)
Theorem AddMetric_then_GetTestMetrics :
  forall (P : Type) (plugin_class : StressPlugin P) (id : string)
         (points : list MetricPoint) (to : TestOrchestrator P),
    let to' := fold_left (fun to metric => (AddMetric id metric to).2) points to in
    match executions to !! id with
    | None =>
        to' = to
        /\ GetTestMetrics id to' = Err (NotFound id)
        /\ forall metric, (AddMetric id metric to).1 = Some (NotFound id)
    | Some e =>
        GetTestMetrics id to' = Ok (Metrics e ++ points)
        /\ (forall metric, (AddMetric id metric to).1 = None)
        /\ GetTestStatus id to' = GetTestStatus id to
        /\ (forall id', id' <> id -> executions to' !! id' = executions to !! id')
        /\ pluginManager to' = pluginManager to
    end.
Proof.
  intros P plugin_class id points. cbv zeta.
  induction points as [|metric points IH]; intros to.
  - cbn. unfold GetTestMetrics, AddMetric.
    destruct (executions to !! id) as [e|] eqn:He; rewrite ?He; [|done].
    by rewrite app_nil_r.
  - cbn [fold_left]. specialize (IH (AddMetric id metric to).2).
    unfold AddMetric in *. destruct (executions to !! id) as [e|] eqn:He.
    + cbn [fst snd] in *. rewrite lookup_with_execution in IH.
      destruct IH as (Hget & _ & Hstatus & Hother & Hpm). cbn in Hget.
      rewrite <- app_assoc in Hget. repeat split; [done| | |done].
      * rewrite Hstatus. unfold GetTestStatus.
        by rewrite lookup_with_execution, He.
      * intros id' Hne. rewrite Hother by done. cbn. by rewrite lookup_insert_ne.
    + cbn [fst snd] in *. by rewrite He in IH.
Qed.

(** X8.  In every state the orchestrator can reach from an empty one, by
    any sequence of its operations, worker steps and timers, each execution
    is filed under its own id; one whose status is final has an end time;
    and one that is still pending has neither an end time nor an error
    message.  So the reports of [ListExecutions] have pairwise distinct ids,
    and every report with a final status carries its end time and the time
    it took. *)
Theorem executions_stay_well_filed :
  forall (P : Type) (plugin_class : StressPlugin P) (pm : PluginManager P)
         (to : TestOrchestrator P),
    rtc step (NewTestOrchestrator pm) to ->
    well_filed to
    /\ NoDup (te_ID <$> ListExecutions to)
    /\ forall r, r ∈ ListExecutions to ->
                 complete (te_Status r) = true ->
                 exists startTime endTime,
                   te_StartTime r = Some startTime
                   /\ te_EndTime r = Some endTime
                   /\ te_Duration r = Sub endTime startTime.
Proof.
  intros P plugin_class pm to Hreach.
  assert (Hfiled : well_filed to).
  { assert (Hstart := NewTestOrchestrator_well_filed pm).
    induction Hreach as [|to0 to1 to2 Hstep _ IH]; [done|].
    apply IH. by eapply step_well_filed. }
  split; [done|]. split.
  - unfold ListExecutions. rewrite <- list_fmap_compose.
    assert (Hkeys : (te_ID ∘ (fun entry : string * TestExecution => to_model entry.2))
                    <$> map_to_list (executions to)
                    = (map_to_list (executions to)).*1).
    { apply list_fmap_ext. intros i [id e] Hin. cbn.
      apply list_elem_of_lookup_2, elem_of_map_to_list in Hin. by apply Hfiled. }
    rewrite Hkeys. apply NoDup_fst_map_to_list.
  - intros r Hin Hdone. apply elem_of_ListExecutions in Hin as (id & e & He & ->).
    destruct (Hfiled id e He) as (_ & Hend & _). cbn in *.
    destruct (EndTime e) as [endTime|]; [|by destruct Hend]. by eauto.
Qed.

(** The CPU test that ran to its deadline is reached by four steps. *)
Lemma executions_stay_well_filed_witness :
  well_filed scenarios.cpu_after_deadline
  /\ NoDup (te_ID <$> ListExecutions scenarios.cpu_after_deadline).
Proof.
  destruct (executions_stay_well_filed AnyPlugin _ scenarios.registry
              scenarios.cpu_after_deadline) as (Hfiled & Hnodup & _); [|by split].
  eapply rtc_l; [exact (step_StartTest "e1" 0 0 scenarios.cpu_test scenarios.two_seconds _)|].
  eapply rtc_l; [exact (step_begin "e1" _)|].
  eapply rtc_l; [exact (step_deadline "e1" _)|].
  eapply rtc_l; [|apply rtc_refl].
  exact (step_run scenarios.host scenarios.never_done false true scenarios.two_seconds
           (2 * Second) "e1" _).
Defined.

(** X9.  A test whose plugin is registered, initialises without error and
    whose [Execute] returns nil goes from Pending to Running to Completed,
    whatever [Cleanup] returns: [StartTest] hands back the id, the manager
    calls Initialize, Execute and Cleanup once each, in this order, on the
    registered instance, and [GetTestStatus] then reports Completed with the
    start time, the end time, their difference as the duration, and no
    error message. *)
Theorem completed_run_is_reported :
  forall (P : Type) (plugin_class : StressPlugin P) (env : Env)
         (polls : nat -> option error) (timer_fired done_first : bool)
         (params : TestParams) (now_ctx now_start now : Time) (id : string)
         (config : TestConfiguration) (pcfg : PluginConfig)
         (to : TestOrchestrator P) (plugin plugin1 plugin2 plugin3 : P)
         (cerr : option error),
    GetPlugin (Plugin config) (pluginManager to) = Some plugin ->
    plugin_config (Config config) = Ok pcfg ->
    Initialize env pcfg plugin = Returns None plugin1 ->
    Execute env {| golib.polls := polls; at_return := None;
                   golib.timer_fired := timer_fired;
                   golib.done_first := done_first |} params plugin1
    = Returns None plugin2 ->
    Cleanup plugin2 = Returns cerr plugin3 ->
    let to1 := (StartTest id now_ctx now_start config params to).2 in
    let to2 := executeTest_begin id to1 in
    let to3 := executeTest_run env polls timer_fired done_first params now id to2 in
    (StartTest id now_ctx now_start config params to).1 = Ok id
    /\ te_Status <$> match GetTestStatus id to1 with Ok r => Some r | Err _ => None end
       = Some StatusPending
    /\ te_Status <$> match GetTestStatus id to2 with Ok r => Some r | Err _ => None end
       = Some StatusRunning
    /\ GetTestStatus id to3
       = Ok {| te_ID := id; te_TestID := cfg_ID config;
               te_Status := StatusCompleted;
               te_StartTime := Some now_start; te_EndTime := Some now;
               te_Duration := Sub now now_start; te_ErrorMessage := None |}
    /\ calls (pluginManager to3)
       = calls (pluginManager to)
         ++ [(Plugin config, CallInitialize); (Plugin config, CallExecute);
             (Plugin config, CallCleanup)]
    /\ GetPlugin (Plugin config) (pluginManager to3) = Some plugin3.
Proof.
  intros P plugin_class env polls timer_fired done_first params now_ctx now_start now
    id config pcfg to plugin plugin1 plugin2 plugin3 cerr
    Hplugin Hconfig Hinit Hexec Hclean.
  cbv zeta. unfold StartTest. rewrite Hplugin. cbn [fst snd].
  match goal with |- context [with_execution id ?e to] => set (e0 := e) end.
  unfold executeTest_begin. rewrite lookup_with_execution.
  set (e1 := set_state e0 StatusRunning (EndTime e0) (ErrorMessage e0)).
  set (to2 := with_execution id e1 (with_execution id e0 to)).
  assert (He1 : executions to2 !! id = Some e1) by apply lookup_with_execution.
  assert (Hrun :
    executeTest_run env polls timer_fired done_first params now id to2
    = {| pluginManager :=
           called (Plugin config) CallCleanup plugin3
             (called (Plugin config) CallExecute plugin2
                (called (Plugin config) CallInitialize plugin1 (pluginManager to)));
         executions :=
           <[id := finishTestWithStatus e1 StatusCompleted now]> (executions to2) |}).
  { unfold executeTest_run. rewrite He1.
    change (Config (Config_ e1)) with (Config config). rewrite Hconfig.
    change (err (Context_ e1)) with (@None error).
    change (Plugin (Config_ e1)) with (Plugin config).
    change (pluginManager to2) with (pluginManager to).
    unfold ExecutePlugin. rewrite Hplugin, Hinit, Hexec.
    unfold deferred_Cleanup. by rewrite Hclean. }
  rewrite Hrun. unfold GetTestStatus. rewrite He1, lookup_with_execution.
  cbn [executions pluginManager]. rewrite lookup_insert_eq.
  split; [done|]. split; [done|]. split; [done|]. split; [done|]. split.
  - cbn. by rewrite <- !app_assoc.
  - unfold GetPlugin. cbn. apply lookup_insert_eq.
Qed.

(** The CPU test with ramp-up under a live context. *)
Lemma completed_run_is_reported_witness :
  te_Status <$> match GetTestStatus "e5" scenarios.cpu_ramp_done with
                | Ok r => Some r
                | Err _ => None
                end
  = Some StatusCompleted.
Proof.
  set (view := {| golib.polls := scenarios.never_done; at_return := None;
                  golib.timer_fired := false; golib.done_first := true |}).
  set (pcfg := CfgObject [("intensity", JFloat 80%float); ("ramp_up", JBool true);
                          ("workers", JFloat 2%float)]).
  set (plugin := CPU NewCPUStressPlugin).
  set (plugin1 := receiver (Initialize scenarios.host pcfg plugin) plugin).
  set (plugin2 := receiver (Execute scenarios.host view scenarios.hundred_seconds
                              plugin1)
                    plugin1).
  set (plugin3 := receiver (Cleanup plugin2) plugin2).
  destruct (completed_run_is_reported AnyPlugin _ scenarios.host scenarios.never_done
              false true scenarios.hundred_seconds 0 0 (100 * Second + Millisecond) "e5"
              scenarios.cpu_ramp_test pcfg
              (NewTestOrchestrator scenarios.registry)
              plugin plugin1 plugin2 plugin3 None)
    as (_ & _ & _ & Hreport & _);
    [vm_compute; reflexivity..|].
  unfold scenarios.cpu_ramp_done. by rewrite Hreport.
Defined.

(** ** The plugin manager *)

(** X10.  [ExecutePlugin] calls the lifecycle methods of the registered
    plugin in a fixed pattern: nothing at all for a name that is not
    registered (the result is ErrPluginNotFound), Initialize alone when
    Initialize returns an error or panics, and Initialize, Execute, Cleanup
    otherwise.  So Cleanup is called exactly when Execute was, also when
    Execute panicked or returned an error, and Execute is called only after
    an Initialize that returned nil.  When all three return, the result is
    what Execute returned: the error of Cleanup is dropped. *)
Theorem ExecutePlugin_lifecycle :
  forall (P : Type) (plugin_class : StressPlugin P) (env : Env) (view : View)
         (name : string) (config : PluginConfig) (params : TestParams)
         (pm : PluginManager P),
    let run := ExecutePlugin env view name config params pm in
    let made pm' := drop (length (calls pm)) (calls pm') in
    match GetPlugin name pm with
    | None => run = Returns (Some ErrPluginNotFound) pm
    | Some plugin =>
        match Initialize env config plugin with
        | Blocks => run = Blocks
        | Returns (Some ierr) plugin1 =>
            exists pm', run = Returns (Some ierr) pm'
                        /\ made pm' = [(name, CallInitialize)]
                        /\ GetPlugin name pm' = Some plugin1
        | Panics msg plugin1 =>
            exists pm', run = Panics msg pm'
                        /\ made pm' = [(name, CallInitialize)]
                        /\ GetPlugin name pm' = Some plugin1
        | Returns None plugin1 =>
            match Execute env view params plugin1 with
            | Blocks => run = Blocks
            | Returns _ plugin2 | Panics _ plugin2 =>
                match Cleanup plugin2 with
                | Blocks => run = Blocks
                | Returns _ plugin3 | Panics _ plugin3 =>
                    exists pm',
                      receiver run pm = pm'
                      /\ made pm' = [(name, CallInitialize); (name, CallExecute);
                                     (name, CallCleanup)]
                      /\ GetPlugin name pm' = Some plugin3
                      /\ match Execute env view params plugin1, Cleanup plugin2 with
                         | Returns xerr _, Returns _ _ => run = Returns xerr pm'
                         | Panics msg _, Returns _ _ => run = Panics msg pm'
                         | _, Panics msg _ => run = Panics msg pm'
                         | _, _ => True
                         end
                end
            end
        end
    end.
Proof.
  intros P plugin_class env view name config params pm. cbv zeta.
  unfold ExecutePlugin, deferred_Cleanup, GetPlugin.
  destruct (plugins_ pm !! name) as [plugin|]; [|done].
  destruct (Initialize env config plugin) as [[ierr|] plugin1|msg plugin1|]; [| | |done].
  - eexists. split; [done|]. cbn. rewrite drop_app_length, lookup_insert_eq. done.
  - destruct (Execute env view params plugin1) as [xerr plugin2|msg plugin2|]; [| |done].
    + destruct (Cleanup plugin2) as [cerr plugin3|msg plugin3|]; [| |done];
        (eexists; split; [done|]); cbn;
        rewrite <- !app_assoc, drop_app_length, lookup_insert_eq; done.
    + destruct (Cleanup plugin2) as [cerr plugin3|msg' plugin3|]; [| |done];
        (eexists; split; [done|]); cbn;
        rewrite <- !app_assoc, drop_app_length, lookup_insert_eq; done.
  - eexists. split; [done|]. cbn. rewrite drop_app_length, lookup_insert_eq. done.
Qed.

(** X11.  The registry is a map from names to plugins: a registered plugin
    is found under its own name, and registering never fails, not even for
    a name already taken, in which case the newcomer silently replaces the
    plugin registered before and the number of plugins listed stays the
    same.  Plugins under other names are not touched. *)
Theorem RegisterPlugin_GetPlugin :
  forall (P : Type) (plugin_class : StressPlugin P) (plugin : P)
         (pm : PluginManager P),
    let pm' := RegisterPlugin plugin pm in
    GetPlugin (Name plugin) pm' = Some plugin
    /\ (forall name, name <> Name plugin -> GetPlugin name pm' = GetPlugin name pm)
    /\ (forall other, Name other = Name plugin ->
                      GetPlugin (Name plugin) (RegisterPlugin other pm') = Some other
                      /\ length (ListPlugins (RegisterPlugin other pm'))
                         = length (ListPlugins pm'))
    /\ length (ListPlugins pm')
       = (match GetPlugin (Name plugin) pm with
          | Some _ => length (ListPlugins pm)
          | None => Datatypes.S (length (ListPlugins pm))
          end)
    /\ (forall p, p ∈ ListPlugins pm' <-> exists name, GetPlugin name pm' = Some p)
    /\ calls pm' = calls pm.
Proof.
  intros P plugin_class plugin pm. cbv zeta.
  unfold RegisterPlugin, GetPlugin, ListPlugins. cbn [plugins_ calls].
  assert (Hlen : forall m : gmap string P, length (map_to_list m).*2 = size m).
  { intros m. by rewrite length_fmap, length_map_to_list. }
  rewrite !Hlen. split; [apply lookup_insert_eq|].
  split; [intros name Hne; by rewrite lookup_insert_ne|].
  split.
  { intros other ->. rewrite !Hlen. split; [apply lookup_insert_eq|].
    apply map_size_insert_Some. by rewrite lookup_insert_eq. }
  split.
  { rewrite map_size_insert. by destruct (plugins_ pm !! Name plugin). }
  split; [|done].
  intros p. rewrite list_elem_of_fmap. split.
  - intros ([name q] & -> & Hin). apply elem_of_map_to_list in Hin. by exists name.
  - intros [name Hname]. exists (name, p). split; [done|].
    by apply elem_of_map_to_list.
Qed.

(** ** The CPU workload *)




(** X13.  After an [Initialize] that returned nil the CPU plugin runs with
    a positive number of workers, a positive intensity and a named
    algorithm, and its worker counters agree with the configuration.  The
    settings live in the plugin instance, not in the call: initialising
    the same instance again with no configuration (nil, or an empty
    object) changes nothing, so what an earlier test configured carries
    over to the next one. *)
Theorem cpu_Initialize_settles :
  forall (env : Env) (config : PluginConfig) (c c' : CPUStressPlugin),
    0 < NumCPU env ->
    cpu_Initialize env config c = Returns None c' ->
    0 < cpu_Workers (cpu_config c')
    /\ 0 < cpu_Intensity (cpu_config c')
    /\ cpu_Algorithm (cpu_config c') <> EmptyString
    /\ currentWorkers c' = cpu_Workers (cpu_config c')
    /\ cpu_WorkerCount c' = cpu_Workers (cpu_config c')
    /\ cpu_stopChan c' = cpu_stopChan c
    /\ cpu_Initialize env CfgNil c' = Returns None c'
    /\ cpu_Initialize env (CfgObject []) c' = Returns None c'.
Proof.
  intros env config c c' Hcpu. unfold cpu_Initialize at 1.
  destruct (Marshal config) as [configBytes|e]; [|discriminate].
  destruct (Unmarshal cpu_set configBytes (cpu_config c)) as [[e|] cfg]; [discriminate|].
  intros [= <-]. cbn [cpu_config cpu_Workers cpu_Intensity cpu_Algorithm currentWorkers
                      cpu_WorkerCount cpu_stopChan].
  assert (Hworkers : 0 < (if cpu_Workers cfg <=? 0 then NumCPU env else cpu_Workers cfg)).
  { destruct (Z.leb_spec (cpu_Workers cfg) 0); lia. }
  assert (Hintensity : 0 < (if cpu_Intensity cfg <=? 0 then 70 else cpu_Intensity cfg)).
  { destruct (Z.leb_spec (cpu_Intensity cfg) 0); lia. }
  assert (Halgorithm : (if String.eqb (cpu_Algorithm cfg) EmptyString then "prime"
                        else cpu_Algorithm cfg) <> EmptyString).
  { destruct (String.eqb_spec (cpu_Algorithm cfg) EmptyString); done. }
  repeat split; try done.
  all: unfold cpu_Initialize; cbn;
    destruct (Z.leb_spec (if cpu_Workers cfg <=? 0 then NumCPU env else cpu_Workers cfg) 0);
    [lia|];
    destruct (Z.leb_spec (if cpu_Intensity cfg <=? 0 then 70 else cpu_Intensity cfg) 0);
    [lia|];
    destruct (String.eqb_spec (if String.eqb (cpu_Algorithm cfg) EmptyString then "prime"
                               else cpu_Algorithm cfg) EmptyString); done.
Qed.

(** Two workers at intensity 80 with ramp-up, configured once: a second
    [Initialize] without configuration keeps them. *)
Lemma cpu_Initialize_settles_witness :
  cpu_Workers (cpu_config scenarios.cpu_ramp) = 2
  /\ cpu_Initialize scenarios.host CfgNil scenarios.cpu_ramp
     = Returns None scenarios.cpu_ramp.
Proof.
  destruct (cpu_Initialize_settles scenarios.host
              (CfgObject [("ramp_up", JBool true); ("intensity", JInt 80);
                          ("workers", JInt 2)])
              NewCPUStressPlugin scenarios.cpu_ramp)
    as (_ & _ & _ & _ & _ & _ & Hagain & _); [reflexivity|reflexivity|].
  split; [reflexivity|exact Hagain].
Defined.

(** int64 arithmetic is arithmetic modulo 2^64. *)
Lemma wrap64_shift a : exists q, wrap64 a = a + q * 2 ^ 64.
Proof.
  exists (- ((a + 2 ^ 63) / 2 ^ 64)). unfold wrap64.
  pose proof (Z.div_mod (a + 2 ^ 63) (2 ^ 64) ltac:(lia)). lia.
Qed.

Lemma wrap64_periodic a q : wrap64 (a + q * 2 ^ 64) = wrap64 a.
Proof.
  unfold wrap64. f_equal.
  replace (a + q * 2 ^ 64 + 2 ^ 63) with (a + 2 ^ 63 + q * 2 ^ 64) by lia.
  apply Z_mod_plus_full.
Qed.

Lemma wrap64_add a b : wrap64 (wrap64 a + wrap64 b) = wrap64 (a + b).
Proof.
  destruct (wrap64_shift a) as [qa ->], (wrap64_shift b) as [qb ->].
  replace (a + qa * 2 ^ 64 + (b + qb * 2 ^ 64)) with (a + b + (qa + qb) * 2 ^ 64) by lia.
  apply wrap64_periodic.
Qed.

Lemma wrap64_mul_l a k : wrap64 (wrap64 a * k) = wrap64 (a * k).
Proof.
  destruct (wrap64_shift a) as [qa ->].
  replace ((a + qa * 2 ^ 64) * k) with (a * k + (qa * k) * 2 ^ 64) by lia.
  apply wrap64_periodic.
Qed.

(** The result of a call does not depend on the bound, once the bound is
    at least the argument. *)
Lemma calculateFibonacci_depth_enough depth n :
  n <= Z.of_nat depth ->
  calculateFibonacci_depth depth n = calculateFibonacci n.
Proof.
  unfold calculateFibonacci. revert n.
  induction depth as [|depth IH]; intros n Hn.
  - destruct (Z.to_nat n) eqn:Hto; [done|lia].
  - destruct (Z.leb_spec n 1) as [Hle|Hgt].
    + destruct (Z.to_nat n); cbn; by destruct (Z.leb_spec n 1); try lia.
    + destruct (Z.to_nat n) as [|m] eqn:Hto; [lia|]. cbn.
      destruct (Z.leb_spec n 1); [lia|].
      rewrite !IH by lia.
      assert (Hm : forall x, x <= Z.of_nat m ->
                             calculateFibonacci_depth m x
                             = calculateFibonacci_depth (Z.to_nat x) x).
      { clear -IH Hn Hto. intros x Hx.
        assert (Hdepth : (m <= depth)%nat) by lia.
        rewrite <- (IH x) by lia.
        clear -Hx Hdepth. revert x m Hx Hdepth.
        induction depth as [|depth IHd]; intros x m Hx Hdepth.
        - by assert (m = 0)%nat as -> by lia.
        - destruct m as [|m].
          + cbn. destruct (Z.leb_spec x 1); [done|lia].
          + cbn. destruct (Z.leb_spec x 1); [done|].
            by rewrite !(IHd _ m) by lia. }
      by rewrite !Hm by lia.
Qed.

Lemma fibonacci_step n :
  reference.fibonacci (Datatypes.S (Datatypes.S n))
  = reference.fibonacci (Datatypes.S n) + reference.fibonacci n.
Proof.
  unfold reference.fibonacci. cbn.
  destruct (reference.fibonacci_pair n) as [a b]. cbn. lia.
Qed.

Lemma calculateFibonacci_base n : n <= 1 -> calculateFibonacci n = n.
Proof.
  intros Hn. unfold calculateFibonacci.
  destruct (Z.to_nat n); cbn; by destruct (Z.leb_spec n 1); try lia.
Qed.

Lemma calculateFibonacci_step n :
  2 <= n ->
  calculateFibonacci n
  = wrap64 (calculateFibonacci (n - 1) + calculateFibonacci (n - 2)).
Proof.
  intros Hn. unfold calculateFibonacci at 1.
  destruct (Z.to_nat n) as [|m] eqn:Hto; [lia|]. cbn.
  destruct (Z.leb_spec n 1); [lia|].
  by rewrite !calculateFibonacci_depth_enough by lia.
Qed.

Lemma calculateFibonacci_wraps (k : nat) :
  calculateFibonacci (Z.of_nat k) = wrap64 (reference.fibonacci k)
  /\ calculateFibonacci (Z.of_nat (Datatypes.S k))
     = wrap64 (reference.fibonacci (Datatypes.S k)).
Proof.
  induction k as [|k [IHk IHSk]].
  - split; reflexivity.
  - split; [exact IHSk|].
    rewrite calculateFibonacci_step by lia.
    replace (Z.of_nat (Datatypes.S (Datatypes.S k)) - 1) with (Z.of_nat (Datatypes.S k))
      by lia.
    replace (Z.of_nat (Datatypes.S (Datatypes.S k)) - 2) with (Z.of_nat k) by lia.
    by rewrite IHk, IHSk, wrap64_add, fibonacci_step.
Qed.

(** X14.  [calculateFibonacci] returns its argument when that is at most 1
    (a negative one included) and otherwise obeys the recurrence in int64
    arithmetic; for every argument from 0 on it is the Fibonacci number of
    that index modulo 2^64, and the number itself up to index 92, the last
    one that fits.  [HealthCheck], which compares the tenth with 55,
    therefore always returns nil. *)
Theorem calculateFibonacci_is_fibonacci :
  (forall n, n <= 1 -> calculateFibonacci n = n)
  /\ (forall n, 2 <= n ->
                calculateFibonacci n
                = wrap64 (calculateFibonacci (n - 1) + calculateFibonacci (n - 2)))
  /\ (forall n, 0 <= n ->
                calculateFibonacci n = wrap64 (reference.fibonacci (Z.to_nat n)))
  /\ (forall n, 0 <= n <= 92 ->
                calculateFibonacci n = reference.fibonacci (Z.to_nat n))
  /\ (forall c, cpu_HealthCheck c = None).
Proof.
  assert (Hwraps : forall n, 0 <= n ->
                     calculateFibonacci n = wrap64 (reference.fibonacci (Z.to_nat n))).
  { intros n Hn. destruct (calculateFibonacci_wraps (Z.to_nat n)) as [Hfib _].
    by rewrite Z2Nat.id in Hfib. }
  split; [exact calculateFibonacci_base|].
  split; [exact calculateFibonacci_step|].
  split; [exact Hwraps|]. split.
  - intros n Hn. rewrite Hwraps by lia. apply wrap64_id.
    assert (Hfits : forallb (fun k => (int64_min <=? reference.fibonacci k)
                                      && (reference.fibonacci k <=? int64_max))
                            (seq 0 93) = true) by (vm_compute; reflexivity).
    rewrite forallb_forall in Hfits.
    specialize (Hfits (Z.to_nat n)). rewrite andb_true_iff in Hfits.
    rewrite Z.leb_le, Z.leb_le in Hfits. apply Hfits, in_seq. lia.
  - intros c. unfold cpu_HealthCheck. cbv zeta. rewrite Hwraps by lia.
    reflexivity.
Qed.

(** ** The memory workload: what is allocated, and how it is accessed *)




Lemma Intn_Some draw n : 0 < n -> exists r, Intn draw n = Some r /\ 0 <= r < n.
Proof.
  intros Hn. unfold Intn. destruct (Z.leb_spec n 0); [lia|].
  exists (draw mod n). split; [done|]. apply Z.mod_pos_bound. lia.
Qed.

(** One access to a chunk of more than 1 KB: it returns, and what it
    leaves is either the plugin as it was or the plugin with 1 KB of that
    chunk overwritten at an offset that keeps the block inside the chunk. *)
Lemma performMemoryAccess_in_chunk draws (index : nat) (m : MemoryStressPlugin) chunk :
  allocations m !! index = Some chunk ->
  1024 < chunk_len chunk ->
  exists offset,
    0 <= offset /\ offset + 1024 < chunk_len chunk
    /\ (performMemoryAccess draws (Z.of_nat index) m = Returns None m
        \/ (AccessType (mem_config m) <> "read"
            /\ performMemoryAccess draws (Z.of_nat index) m
               = Returns None
                   (mem_set_allocations
                      (<[index := mem_performWrite (draw_value draws mod 256) chunk offset]>
                         (allocations m)) m))).
Proof.
  intros Hchunk Hlen. unfold performMemoryAccess.
  pose proof (lookup_lt_Some _ _ _ Hchunk) as Hindex.
  destruct (Z.leb_spec (Z.of_nat (length (allocations m))) (Z.of_nat index)); [lia|].
  destruct (Z.ltb_spec (Z.of_nat index) 0); [lia|].
  rewrite Nat2Z.id, Hchunk.
  destruct (Intn_Some (draw_offset draws) (chunk_len chunk - 1024)) as (offset & -> & Hoffset);
    [lia|].
  destruct (Z.ltb_spec offset 0); [lia|].
  exists offset. split; [lia|]. split; [lia|].
  destruct (String.eqb_spec (AccessType (mem_config m)) "read") as [Hread|Hread]; [by left|].
  destruct (String.eqb (AccessType (mem_config m)) "write"); [by right|].
  destruct (String.eqb (AccessType (mem_config m)) "readwrite"); [|by left].
  destruct (Intn (draw_coin draws) 2) as [[| |]|]; auto.
Qed.

(** X16.  With chunks of more than 1 KB (those of the allocation phase
    have at least 1 MB) a turn of a memory access worker never panics.  It
    counts one access, keeps the number and the sizes of the chunks, and
    changes at most the bytes of one block of 1 KB, which lies inside one
    chunk; with access type "read" it changes no byte at all.  A chunk of
    at most 1 KB, on the other hand, makes the access panic in
    [rand.Intn]. *)
Theorem memory_access_stays_in_chunk :
  forall (draw_index : Z) (draws : Draws) (m : MemoryStressPlugin),
    (Forall (fun c => 1024 < chunk_len c) (allocations m) ->
     exists m',
       memoryAccessWorker_turn draw_index draws m = Returns None m'
       /\ chunk_len <$> allocations m' = chunk_len <$> allocations m
       /\ AccessCount m'
          = (if length (allocations m) =? 0 then AccessCount m
             else wrap64 (AccessCount m + 1))%nat
       /\ (AccessType (mem_config m) = "read" -> allocations m' = allocations m)
       /\ exists (index : nat) (offset : Z),
            0 <= offset
            /\ (forall c, allocations m !! index = Some c -> offset + 1024 < chunk_len c)
            /\ forall (k : nat) (c c' : Chunk) (j : Z),
                 allocations m !! k = Some c ->
                 allocations m' !! k = Some c' ->
                 chunk_at c' j <> chunk_at c j ->
                 k = index /\ offset <= j < offset + 1024)
    /\ (forall (index : nat) (c : Chunk),
          allocations m !! index = Some c ->
          chunk_len c <= 1024 ->
          performMemoryAccess draws (Z.of_nat index) m = Panics Intn_panic m).
Proof.
  intros draw_index draws m. split.
  - intros Hbig. unfold memoryAccessWorker_turn. cbv zeta.
    destruct (allocations m) as [|c0 rest] eqn:Hchunks.
    { cbn. exists m. rewrite Hchunks. repeat split; try done.
      exists 0%nat, 0. repeat split; try done. }
    rewrite <- Hchunks in *.
    assert (Hn : 0 < Z.of_nat (length (allocations m))) by (rewrite Hchunks; cbn; lia).
    destruct (Z.eqb_spec (Z.of_nat (length (allocations m))) 0); [lia|].
    destruct (Intn_Some draw_index (Z.of_nat (length (allocations m))) Hn)
      as (allocIndex & -> & HallocIndex).
    destruct (lookup_lt_is_Some_2 (allocations m) (Z.to_nat allocIndex)) as [chunk Hchunk];
      [lia|].
    assert (Hlen : 1024 < chunk_len chunk).
    { rewrite Forall_lookup in Hbig. by eapply Hbig. }
    destruct (performMemoryAccess_in_chunk draws (Z.to_nat allocIndex) m chunk Hchunk Hlen)
      as (offset & Hoffset0 & Hoffset1 & Hrun).
    rewrite Z2Nat.id in Hrun by lia.
    assert (Hcount : (if (length (allocations m) =? 0)%nat then AccessCount m
                      else wrap64 (AccessCount m + 1)) = wrap64 (AccessCount m + 1)).
    { rewrite Hchunks. done. }
    destruct Hrun as [->|[Hwrite ->]].
    + eexists. split; [reflexivity|]. cbn. rewrite Hcount.
      repeat split; try done.
      exists (Z.to_nat allocIndex), offset. split; [done|]. split.
      * intros c Hc. rewrite Hchunk in Hc. by injection Hc as <-.
      * intros k c c' j Hc Hc' Hdiff. rewrite Hc in Hc'. by injection Hc' as <-.
    + eexists. split; [reflexivity|]. cbn. rewrite Hcount.
      split.
      { rewrite list_fmap_insert. cbn. apply list_insert_id.
        by rewrite list_lookup_fmap, Hchunk. }
      split; [done|]. split; [done|].
      exists (Z.to_nat allocIndex), offset. split; [done|]. split.
      * intros c Hc. rewrite Hchunk in Hc. by injection Hc as <-.
      * intros k c c' j Hc Hc' Hdiff.
        destruct (decide (k = Z.to_nat allocIndex)) as [->|Hne].
        -- split; [done|]. rewrite Hchunk in Hc. injection Hc as <-.
           rewrite list_lookup_insert_eq in Hc' by by eapply lookup_lt_Some.
           injection Hc' as <-. cbn in Hdiff.
           destruct (Z.leb_spec offset j), (Z.ltb_spec j (offset + 1024)); try done.
        -- rewrite list_lookup_insert_ne in Hc' by done.
           rewrite Hc in Hc'. by injection Hc' as <-.
  - intros index c Hc Hsmall. unfold performMemoryAccess.
    pose proof (lookup_lt_Some _ _ _ Hc) as Hindex.
    destruct (Z.leb_spec (Z.of_nat (length (allocations m))) (Z.of_nat index)); [lia|].
    destruct (Z.ltb_spec (Z.of_nat index) 0); [lia|].
    rewrite Nat2Z.id, Hc. unfold Intn.
    by destruct (Z.leb_spec (chunk_len c - 1024) 0); [|lia].
Qed.

(** After the allocation of 100 MB in chunks of 64 MB, a turn of a worker
    returns and counts one access. *)
Lemma memory_access_stays_in_chunk_witness :
  exists m',
    memoryAccessWorker_turn 7 {| draw_offset := 123456; draw_coin := 1; draw_value := 255 |}
      scenarios.memory_allocated
    = Returns None m'
    /\ AccessCount m' = 1.
Proof.
  destruct (memory_access_stays_in_chunk 7
              {| draw_offset := 123456; draw_coin := 1; draw_value := 255 |}
              scenarios.memory_allocated) as [Hturn _].
  destruct Hturn as (m' & Hrun & _ & Hcount & _).
  - apply (proj1 (Forall_fmap chunk_len (fun len => 1024 < len) _)).
    assert (Hlens : chunk_len <$> allocations scenarios.memory_allocated = [67108864])
      by (vm_compute; reflexivity).
    rewrite Hlens. repeat constructor.
  - exists m'. split; [exact Hrun|]. rewrite Hcount. reflexivity.
Defined.

(** X17.  The two size parsers agree on what they both accept: a memory
    size that [parseMemorySize] accepts (in MB) is accepted by [parseSize]
    as the same quantity in bytes, in int64 arithmetic, and a number that
    the one cannot read the other cannot read either.  [parseMemorySize]
    insists on a suffix MB or GB, which [parseSize] does not. *)
Theorem memory_sizes_parse_as_io_sizes :
  forall (size : string),
    match parseMemorySize size with
    | Ok megabytes => parseSize size = Ok (wrap64 (megabytes * (1024 * 1024)))
    | Err (Errorf "invalid memory size value: %w" [] (Some e)) =>
        parseSize size = Err (Errorf "invalid size value: %w" [] (Some e))
    | Err e =>
        e = ErrorNew "invalid memory size format, expected MB or GB suffix"
        /\ HasSuffix (TrimSpace (ToUpper size)) "GB" = false
        /\ HasSuffix (TrimSpace (ToUpper size)) "MB" = false
    end.
Proof.
  intros size. unfold parseMemorySize, parseSize.
  set (upper := TrimSpace (ToUpper size)).
  destruct (HasSuffix upper "GB").
  - destruct (ParseInt (TrimSuffix upper "GB")) as [value|e]; [|done].
    rewrite wrap64_mul_l. f_equal. f_equal. lia.
  - destruct (HasSuffix upper "MB"); [|done].
    destruct (ParseInt (TrimSuffix upper "MB")) as [value|e]; [|done].
    rewrite wrap64_mul_l. f_equal. f_equal. lia.
Qed.

(** X18.  [Initialize] of the memory workload does not look at the sign of
    the sizes, and [Execute] does not either: with a chunk size that is
    not positive (such as "0MB" or "-1MB", which [Initialize] accepts)
    [Execute] panics before it allocates anything, unless the context is
    done already: with "runtime error: integer divide by zero" for a chunk
    size of zero, and with "runtime error: makeslice: len out of range"
    for a negative one. *)
Theorem nonpositive_chunk_size_panics :
  forall (env : Env) (view : View) (params : TestParams) (m : MemoryStressPlugin),
    polls view 0%nat = None ->
    - 2 ^ 43 <= chunkSizeMB m <= 0 ->
    exists msg m',
      mem_Execute env view params m = Panics msg m'
      /\ allocations m' = allocations m
      /\ msg = (if chunkSizeMB m =? 0 then "runtime error: integer divide by zero"
                else "runtime error: makeslice: len out of range").
Proof.
  intros env view params m Hlive Hchunk.
  unfold mem_Execute, allocation_phase. cbn [chunkSizeMB mem_reset].
  destruct (Z.eqb_spec (chunkSizeMB m) 0) as [Hzero|Hneg].
  - by eexists _, _.
  - unfold allocateMemory.
    assert (Hnum : 1 <= numChunks (mem_reset m)).
    { unfold numChunks. cbv zeta.
      match goal with |- context [?n <=? 0] => destruct (Z.leb_spec n 0) end; lia. }
    destruct (Z.to_nat (numChunks (mem_reset m))) as [|todo] eqn:Htodo; [lia|].
    cbn [allocate_from]. change (Z.to_nat 0) with 0%nat.
    rewrite Hlive. unfold allocate_one.
    cbn [chunkSizeMB mem_reset].
    rewrite (wrap64_id (chunkSizeMB m * 1024)) by (unfold int64_min, int64_max; lia).
    rewrite (wrap64_id (chunkSizeMB m * 1024 * 1024)) by (unfold int64_min, int64_max; lia).
    destruct (Z.ltb_spec (chunkSizeMB m * 1024 * 1024) 0); [|lia].
    by eexists _, _.
Qed.

(** "0MB" and "-1MB" are accepted as chunk sizes; [Execute] then divides
    by zero, respectively asks for a slice of -1048576 bytes. *)
Lemma nonpositive_chunk_size_panics_witness :
  mem_Initialize scenarios.host
    (CfgObject [("alloc_size", JString "100MB"); ("chunk_size", JString "0MB")])
    NewMemoryStressPlugin
  = Returns None scenarios.memory_chunk_0
  /\ (exists m',
        mem_Execute scenarios.host scenarios.live scenarios.two_seconds
          scenarios.memory_chunk_0
        = Panics "runtime error: integer divide by zero" m')
  /\ mem_Initialize scenarios.host
       (CfgObject [("alloc_size", JString "100MB"); ("chunk_size", JString "-1MB")])
       NewMemoryStressPlugin
     = Returns None scenarios.memory_chunk_minus_1
  /\ (exists m',
        mem_Execute scenarios.host scenarios.live scenarios.two_seconds
          scenarios.memory_chunk_minus_1
        = Panics "runtime error: makeslice: len out of range" m').
Proof.
  split; [vm_compute; reflexivity|]. split; [|split; [vm_compute; reflexivity|]].
  - destruct (nonpositive_chunk_size_panics scenarios.host scenarios.live
                scenarios.two_seconds scenarios.memory_chunk_0)
      as (msg & m' & Hrun & _ & Hmsg); [reflexivity|vm_compute; split; discriminate|].
    exists m'. rewrite Hrun, Hmsg. reflexivity.
  - destruct (nonpositive_chunk_size_panics scenarios.host scenarios.live
                scenarios.two_seconds scenarios.memory_chunk_minus_1)
      as (msg & m' & Hrun & _ & Hmsg); [reflexivity|vm_compute; split; discriminate|].
    exists m'. rewrite Hrun, Hmsg. reflexivity.
Defined.

(** ** The I/O workload: what the workers count, and how a scratch file is
    written *)

(** One turn of a worker moves exactly one of the three counters, by
    one. *)
Lemma ioWorker_turn_counts nanos ops filename (i : IOStressPlugin) :
  let before := io_metrics i in
  let after := io_metrics (ioWorker_turn nanos ops filename i) in
  (ReadOpsPerSec after = wrap64 (ReadOpsPerSec before + 1)
   /\ WriteOpsPerSec after = WriteOpsPerSec before
   /\ ErrorCount after = ErrorCount before)
  \/ (ReadOpsPerSec after = ReadOpsPerSec before
      /\ WriteOpsPerSec after = wrap64 (WriteOpsPerSec before + 1)
      /\ ErrorCount after = ErrorCount before)
  \/ (ReadOpsPerSec after = ReadOpsPerSec before
      /\ WriteOpsPerSec after = WriteOpsPerSec before
      /\ ErrorCount after = wrap64 (ErrorCount before + 1)).
Proof.
  cbv zeta. unfold ioWorker_turn, performIOOperation, performRead, performWrite.
  destruct (String.eqb (chosen_operation nanos i) "read").
  - destruct (read_result ops); cbn; auto.
  - destruct (String.eqb (chosen_operation nanos i) "write"); [|cbn; auto].
    destruct (write_result ops); cbn; auto.
Qed.

(** X19.  Every operation a worker attempts is counted exactly once: as a
    read, as a write, or as an error.  Over any sequence of turns, in any
    interleaving of the workers and whatever the file system answers, the
    three counters never go down and their sum grows by the number of
    turns (as long as that sum fits an int64). *)
Theorem io_operations_are_counted_once :
  forall (turns : list (Z * FileOps * string)) (i : IOStressPlugin),
    let before := io_metrics i in
    let after := io_metrics (ioWorker_turns turns i) in
    0 <= ReadOpsPerSec before -> 0 <= WriteOpsPerSec before ->
    0 <= ErrorCount before ->
    ReadOpsPerSec before + WriteOpsPerSec before + ErrorCount before
      + Z.of_nat (length turns) <= int64_max ->
    ReadOpsPerSec after + WriteOpsPerSec after + ErrorCount after
    = ReadOpsPerSec before + WriteOpsPerSec before + ErrorCount before
      + Z.of_nat (length turns)
    /\ ReadOpsPerSec before <= ReadOpsPerSec after
    /\ WriteOpsPerSec before <= WriteOpsPerSec after
    /\ ErrorCount before <= ErrorCount after.
Proof.
  cbv zeta. induction turns as [|[[nanos ops] filename] rest IH]; intros i Hr Hw He Hfit.
  - cbn [ioWorker_turns length]. lia.
  - cbn [ioWorker_turns]. cbn [length] in Hfit.
    pose proof (ioWorker_turn_counts nanos ops filename i) as Hturn. cbv zeta in Hturn.
    set (i1 := ioWorker_turn nanos ops filename i) in *.
    assert (Hstep :
      ReadOpsPerSec (io_metrics i1) + WriteOpsPerSec (io_metrics i1)
        + ErrorCount (io_metrics i1)
      = ReadOpsPerSec (io_metrics i) + WriteOpsPerSec (io_metrics i)
        + ErrorCount (io_metrics i) + 1
      /\ ReadOpsPerSec (io_metrics i) <= ReadOpsPerSec (io_metrics i1)
      /\ WriteOpsPerSec (io_metrics i) <= WriteOpsPerSec (io_metrics i1)
      /\ ErrorCount (io_metrics i) <= ErrorCount (io_metrics i1)).
    { unfold int64_max in Hfit.
      destruct Hturn as [(Ha & Hb & Hc)|[(Ha & Hb & Hc)|(Ha & Hb & Hc)]];
        rewrite Ha, Hb, Hc; rewrite wrap64_id by (unfold int64_min, int64_max; lia);
        lia. }
    destruct Hstep as (Hsum & Hr1 & Hw1 & He1).
    destruct (IH i1) as (IHsum & IHr & IHw & IHe); try lia.
    cbn [length]. lia.
Qed.

(** Twice a block read, once a block written, on a new plugin. *)
Lemma io_operations_are_counted_once_witness :
  let turns := [(0, scenarios.block_transferred, "f");
                (1, scenarios.block_transferred, "f");
                (999, scenarios.block_transferred, "f")] in
  let after := io_metrics (ioWorker_turns turns (scenarios.io_mixed 0.5)) in
  ReadOpsPerSec after + WriteOpsPerSec after + ErrorCount after = 3.
Proof.
  cbv zeta.
  destruct (io_operations_are_counted_once
              [(0, scenarios.block_transferred, "f");
               (1, scenarios.block_transferred, "f");
               (999, scenarios.block_transferred, "f")]
              (scenarios.io_mixed 0.5)) as (Hsum & _);
    [vm_compute; discriminate .. | exact Hsum].
Defined.







(** X22.  A block size of zero, which [Initialize] accepts (as "0KB", for
    one), keeps [createTestFile] in its loop for ever when the file size
    is positive: no turn writes a byte, so however many turns the loop is
    given it has not returned nil, and only an error of the operating
    system ends it.  On a file system without errors it never returns (and
    the loop does not look at the context). *)
Theorem zero_block_size_never_finishes :
  forall (fs : FileSystem) (turns : nat) (i : IOStressPlugin),
    blockSizeBytes i = 0 ->
    0 < fileSizeBytes i <= int64_max ->
    match createTestFile fs turns i with
    | Created None _ _ => False
    | Created (Some _) bytesWritten _ => bytesWritten = 0
    | CreatePanics _ => False
    | StillWriting bytesWritten => bytesWritten = 0
    end
    /\ (OpenFile_error fs = None ->
        (forall k, Read_error fs k = None) ->
        (forall k, Write_error fs k = None) ->
        (forall k, Sync_error fs k = None) ->
        createTestFile fs turns i = StillWriting 0).
Proof.
  intros fs turns i Hblock Hfile.
  assert (Hloop : forall turns k,
             match createTestFile_loop fs turns k 0 0 i with
             | Created None _ _ => False
             | Created (Some _) bytesWritten _ => bytesWritten = 0
             | CreatePanics _ => False
             | StillWriting bytesWritten => bytesWritten = 0
             end
             /\ ((forall k, Read_error fs k = None) ->
                 (forall k, Write_error fs k = None) ->
                 (forall k, Sync_error fs k = None) ->
                 createTestFile_loop fs turns k 0 0 i = StillWriting 0)).
  { clear turns. induction turns as [|turns IH]; intros k.
    - cbn [createTestFile_loop].
      destruct (Z.ltb_spec 0 (fileSizeBytes i)); [|lia]. auto.
    - cbn [createTestFile_loop]. rewrite Hblock.
      destruct (Z.ltb_spec 0 (fileSizeBytes i)); [|lia].
      rewrite Z.sub_0_r.
      rewrite (wrap64_id (fileSizeBytes i)) by (unfold int64_min, int64_max in *; lia).
      destruct (Z.ltb_spec (fileSizeBytes i) 0); [lia|].
      cbn [andb]. change (wrap64 (0 + 0)) with 0.
      split.
      + destruct (Read_error fs k); [reflexivity|].
        destruct (Write_error fs k); [reflexivity|].
        destruct (if Fsync (io_config i) then Sync_error fs k else None);
          [reflexivity|].
        apply IH.
      + intros Hread Hwrite Hsync. rewrite Hread, Hwrite.
        assert (Hnosync : (if Fsync (io_config i) then Sync_error fs k else None) = None).
        { destruct (Fsync (io_config i)); [apply Hsync|reflexivity]. }
        rewrite Hnosync. apply IH; assumption. }
  unfold createTestFile. rewrite Hblock. change (0 <? 0) with false. cbv iota.
  split.
  - destruct (OpenFile_error fs); [reflexivity|]. apply Hloop.
  - intros Hopen Hread Hwrite Hsync. rewrite Hopen. apply Hloop; assumption.
Qed.

(** "0KB" is accepted as a block size; a file of 1 MB is then never
    written. *)
Lemma zero_block_size_never_finishes_witness :
  io_Initialize scenarios.host
    (CfgObject [("file_size", JString "1MB"); ("block_size", JString "0KB")])
    NewIOStressPlugin
  = Returns None (scenarios.io_sized "1MB" "0KB")
  /\ createTestFile scenarios.sound_disk 1000 (scenarios.io_sized "1MB" "0KB")
     = StillWriting 0.
Proof.
  split; [vm_compute; reflexivity|].
  apply (zero_block_size_never_finishes scenarios.sound_disk 1000
           (scenarios.io_sized "1MB" "0KB"));
    try reflexivity. vm_compute. split; [reflexivity|discriminate].
Defined.

(** ** The collector: starting and stopping *)

(** X23.  A collector can be started and stopped once.  A second [Start]
    while it collects starts no second loop, and a second [Stop] does
    nothing; but [Stop] closes the stop channel, which is never made anew:
    after [Start], [Stop], [Start] the new collect loop finds the stop
    case ready at once and returns before any tick has arrived, and the
    next [Stop] panics on closing the closed channel. *)
Theorem collector_cannot_be_restarted :
  forall (c : collecting.Collector),
    collecting.stopChan c = ChanOpen ->
    let c1 := (collecting.Start c).2 in
    collecting.Start c1 = (None, c1)
    /\ exists c2,
         collecting.Stop c1 = Returns None c2
         /\ collecting.Stop c2 = Returns None c2
         /\ let c3 := (collecting.Start c2).2 in
            collecting.loops_started c3 = S (collecting.loops_started c1)
            /\ (forall ctx_done pick,
                   collecting.collectLoop_turn ctx_done None pick c3 = Some None)
            /\ collecting.Stop c3 = Panics close_panic c3.
Proof.
  intros [[snapshot collecting_] ch started] Hopen. cbn in Hopen. subst ch.
  assert (Hturn : forall ctx_done pick c3,
             collecting.stopChan c3 = ChanClosed ->
             collecting.collectLoop_turn ctx_done None pick c3 = Some None).
  { intros ctx_done pick c3 Hclosed.
    unfold collecting.collectLoop_turn, collecting.ready_cases. rewrite Hclosed.
    destruct ctx_done; cbn [app length].
    - pose proof (Nat.mod_upper_bound pick 2 ltac:(lia)) as Hpick.
      destruct (pick mod 2)%nat as [|[|]]; [reflexivity|reflexivity|lia].
    - rewrite Nat.mod_1_r. reflexivity. }
  destruct collecting_; cbn.
  - split; [reflexivity|]. eexists. split; [reflexivity|].
    split; [reflexivity|]. split; [reflexivity|].
    split; [|reflexivity]. intros. apply Hturn. reflexivity.
  - split; [reflexivity|]. eexists. split; [reflexivity|].
    split; [reflexivity|]. split; [reflexivity|].
    split; [|reflexivity]. intros. apply Hturn. reflexivity.
Qed.

(** A new collector. *)
Lemma collector_cannot_be_restarted_witness :
  exists c2,
    collecting.Stop (collecting.Start collecting.NewCollector).2 = Returns None c2
    /\ collecting.Stop (collecting.Start c2).2
       = Panics close_panic (collecting.Start c2).2.
Proof.
  destruct (collector_cannot_be_restarted collecting.NewCollector eq_refl)
    as (_ & c2 & Hstop & _ & _ & _ & Hpanic).
  exists c2. split; [exact Hstop|exact Hpanic].
Defined.

(** ** The result of a test: score and verdict *)

Lemma below_70_spec n : forall x j,
  reference.below_70 n x = true -> (j < n)%nat ->
  fle 70%float (PrimFloat.mul 100%float (reference.times_point_nine j x)) = false.
Proof.
  induction n as [|n IH]; intros x j Hall Hj; [lia|].
  cbn [reference.below_70] in Hall. apply andb_prop in Hall as [Hnow Hrest].
  destruct j as [|j].
  - cbn. by apply negb_true_iff.
  - unfold reference.times_point_nine. rewrite Nat.iter_succ_r. apply IH; [exact Hrest|lia].
Qed.

(** The sequence 1, 0.9, 0.81, ... falls until it is caught by rounding at
    a tiny positive number, at its 7050th element, and stays there. *)
Lemma times_point_nine_settles k :
  (Z.to_nat 7050 <= k)%nat ->
  reference.times_point_nine k 1%float = reference.times_point_nine (Z.to_nat 7050) 1%float.
Proof.
  intros Hk. replace k with ((k - Z.to_nat 7050) + Z.to_nat 7050)%nat by lia.
  generalize (k - Z.to_nat 7050)%nat as extra. clear k Hk.
  induction extra as [|extra IH]; [reflexivity|].
  change (S extra + Z.to_nat 7050)%nat with (S (extra + Z.to_nat 7050)).
  unfold reference.times_point_nine in *. rewrite Nat.iter_succ, IH.
  vm_compute. reflexivity.
Qed.

(** With base score 100, the score reaches 70 with up to three deductions
    and with no more. *)
Lemma score_of_deductions k :
  fle 70%float (PrimFloat.mul 100%float (reference.times_point_nine k 1%float))
  = (k <=? 3)%nat.
Proof.
  destruct (Nat.leb_spec k 3) as [Hfew|Hmany].
  - destruct k as [|[|[|[|k]]]]; [vm_compute; reflexivity ..|lia].
  - destruct (Nat.lt_ge_cases k (Z.to_nat 7050)) as [Hearly|Hlate].
    + replace k with ((k - 4) + 4)%nat by lia.
      unfold reference.times_point_nine. rewrite Nat.iter_add.
      apply (below_70_spec (Z.to_nat 7050)); [vm_compute; reflexivity|lia].
    + rewrite times_point_nine_settles by exact Hlate. vm_compute. reflexivity.
Qed.

Lemma fold_left_deduct (Fields : MetricPoint -> gmap string FieldValue) metrics :
  forall x,
    fold_left (deduct Fields) metrics x
    = reference.times_point_nine (length (List.filter (hot Fields) metrics)) x.
Proof.
  induction metrics as [|metric rest IH]; intros x; [reflexivity|].
  cbn [fold_left List.filter]. rewrite IH. unfold deduct, hot.
  destruct (Fields metric !! "usage_percent") as [[cpuUsage|]|]; try reflexivity.
  destruct (fgt cpuUsage 95%float); [|reflexivity].
  cbn [length]. unfold reference.times_point_nine. rewrite Nat.iter_succ_r. reflexivity.
Qed.

(** X24.  The verdict of [waitForTestCompletion].  A tick that finds the
    execution pending or running goes on waiting.  A tick that finds it
    finished reports its status and the metric points on record (none if
    the execution has been cleaned up in between), and reports the test as
    passed exactly when it completed, has at least one metric point, and at
    most three of its points carry a float64 usage_percent above 95.  A
    test without metric points, or one that failed or was stopped, never
    passes. *)
Theorem test_passes_iff_completed_with_few_hot_points :
  forall (P : Type) (plugin : StressPlugin P)
         (Fields : MetricPoint -> gmap string FieldValue)
         (id : string) (to to_metrics : TestOrchestrator P) (e : TestExecution),
    executions to !! id = Some e ->
    let metrics :=
      match executions to_metrics !! id with
      | Some e' => Metrics e'
      | None => []
      end in
    if complete (Status e) then
      exists result,
        waitForTestCompletion_tick Fields id to to_metrics = Some (Ok result)
        /\ tr_Status result = Status e
        /\ tr_Metrics result = metrics
        /\ (tr_Passed result = true
            <-> Status e = StatusCompleted
                /\ (0 < length metrics)%nat
                /\ (length (List.filter (hot Fields) metrics) <= 3)%nat)
    else waitForTestCompletion_tick Fields id to to_metrics = None.
Proof.
  intros P plugin Fields id to to_metrics e He. cbv zeta.
  unfold waitForTestCompletion_tick, GetTestStatus, GetTestMetrics. rewrite He.
  change (te_Status (to_model e)) with (Status e).
  destruct (complete (Status e)) eqn:Hcomplete; [|reflexivity].
  eexists. split; [reflexivity|]. cbn [tr_Status tr_Metrics tr_Passed].
  split; [reflexivity|].
  set (metrics := match executions to_metrics !! id with
                  | Some e' => Metrics e'
                  | None => []
                  end).
  assert (Hmetrics :
    match match executions to_metrics !! id with
          | Some execution => Ok (Metrics execution)
          | None => Err (NotFound id)
          end with
    | Ok metrics0 => metrics0
    | Err _ => []
    end = metrics).
  { unfold metrics. destruct (executions to_metrics !! id); reflexivity. }
  rewrite Hmetrics. split; [reflexivity|].
  rewrite andb_true_iff, bool_decide_eq_true.
  unfold calculateTestScore. change (te_Status (to_model e)) with (Status e).
  split.
  - intros [Hstatus Hscore]. split; [exact Hstatus|].
    rewrite Hstatus in Hscore. cbn [bool_decide decide_rel] in Hscore.
    rewrite !bool_decide_eq_false_2 in Hscore by discriminate.
    destruct (Nat.eqb_spec (length metrics) 0) as [Hnone|Hsome].
    + vm_compute in Hscore. discriminate.
    + rewrite fold_left_deduct, score_of_deductions in Hscore.
      apply Nat.leb_le in Hscore. split; [lia|exact Hscore].
  - intros (Hstatus & Hsome & Hfew). split; [exact Hstatus|].
    rewrite Hstatus. rewrite !bool_decide_eq_false_2 by discriminate.
    assert (Hlen : (length metrics =? 0)%nat = false) by (apply Nat.eqb_neq; lia).
    rewrite Hlen, fold_left_deduct, score_of_deductions.
    by apply Nat.leb_le.
Qed.

(** The completed run of the ramp-up scenario with one metric point added
    passes. *)
Lemma test_passes_iff_completed_with_few_hot_points_witness :
  let point := {| mp_Timestamp := 1 * Second; mp_TestID := "t5"; mp_Source := "cpu" |} in
  let to := (AddMetric "e5" point scenarios.cpu_ramp_done).2 in
  exists result,
    waitForTestCompletion_tick (fun _ => ∅) "e5" to to = Some (Ok result)
    /\ tr_Passed result = true.
Proof.
  intros point to.
  destruct (executions to !! "e5") as [e|] eqn:He; [|vm_compute in He; discriminate].
  assert (Hstatus : Status e = StatusCompleted).
  { assert (Hs : Status <$> executions to !! "e5" = Some StatusCompleted)
      by (vm_compute; reflexivity).
    rewrite He in Hs. by injection Hs. }
  assert (Hpoints : length (Metrics e) = 1%nat).
  { assert (Hs : (fun e => length (Metrics e)) <$> executions to !! "e5" = Some 1%nat)
      by (vm_compute; reflexivity).
    rewrite He in Hs. by injection Hs. }
  pose proof (test_passes_iff_completed_with_few_hot_points AnyPlugin _ (fun _ => ∅)
                "e5" to to e He) as Hverdict.
  cbv zeta in Hverdict. rewrite Hstatus, He in Hverdict. cbn [complete] in Hverdict.
  destruct Hverdict as (result & Htick & _ & _ & Hpassed).
  exists result. split; [exact Htick|]. apply Hpassed.
  split; [reflexivity|]. rewrite Hpoints. split; [lia|].
  pose proof (List.filter_length_le (hot (fun _ => ∅)) (Metrics e)). lia.
Defined.

(** ** The shipped system monitor under the safety monitor *)

Section SystemMonitorFacts.
Import system_monitor.

(** An accessor that leaves the monitor's own state alone keeps the
    invariant. *)
Lemma without_proc_stat_next (r : Running) :
  without_proc_stat r -> without_proc_stat (next (impl r) r).
Proof. intros Hr. exact Hr. Qed.

(** Without /proc/stat the CPU reading is 0, at the first call and at
    every later one. *)
Lemma GetCPUUsage_without_proc_stat (r : Running) :
  without_proc_stat r ->
  (system_monitor.GetCPUUsage r).1 = Ok 0%float
  /\ without_proc_stat (system_monitor.GetCPUUsage r).2.
Proof.
  intros [Hhost Hlast]. unfold system_monitor.GetCPUUsage, readCPUStats.
  destruct (Hhost (calls r)) as [-> Hcpus]. rewrite Hcpus.
  destruct (lastCheck (impl r)) as [t|] eqn:Hcheck.
  - destruct Hlast as [Hnone|Hstats]; [discriminate|].
    rewrite Hstats. rewrite !Z.sub_diag. change (uint64 0 =? 0) with true.
    cbv iota. split; [reflexivity|]. split; [exact Hhost|].
    right. exact Hstats.
  - split; [reflexivity|]. split; [exact Hhost|]. right. reflexivity.
Qed.

(** X25.  On a host where /proc/stat cannot be opened, the shipped system
    monitor reports a CPU usage of 0 at every reading (the counters it
    falls back to never change), so [CheckSafetyLimits] never reports a
    CPU violation there, whatever the load, at any tick, for any CPU limit
    that is not negative.  Memory, disk and network are still checked:
    what [CheckSafetyLimits] returns is the violation of the first of
    these three whose reading, taken from the shipped monitor in this
    order after the CPU reading, breaches its limit, and nothing when none
    does. *)
Theorem no_cpu_violation_without_proc_stat :
  forall (limits : SafetyLimits) (now now_rec : Time) (m : Monitor Running),
    without_proc_stat (systemMonitor m) ->
    flt (MaxCPUPercent limits) 0%float = false ->
    let cpu := system_monitor.GetCPUUsage (systemMonitor m) in
    let mem := system_monitor.GetMemoryUsage cpu.2 in
    let disk := system_monitor.GetDiskUsage mem.2 in
    let net := system_monitor.GetNetworkUsage disk.2 in
    let checked := CheckSafetyLimits limits now now_rec m in
    cpu.1 = Ok 0%float
    /\ without_proc_stat (systemMonitor checked.2)
    /\ match checked.1 with
       | Some v => v_Type v <> "cpu"
       | None => True
       end
    /\ checked.1
       = match breach mem.1 (MaxMemoryPercent limits) with
         | Some usage => Some (memory_violation (config m) limits usage now)
         | None =>
         match breach disk.1 (MaxDiskPercent limits) with
         | Some usage => Some (disk_violation (config m) limits usage now)
         | None =>
         match breach net.1 (MaxNetworkMbps limits) with
         | Some usage => Some (network_violation limits usage now)
         | None => None
         end end end.
Proof.
  intros limits t t_rec m Hr Hlimit. cbv zeta. unfold CheckSafetyLimits.
  change (safety.GetCPUUsage (systemMonitor m))
    with (system_monitor.GetCPUUsage (systemMonitor m)).
  destruct (GetCPUUsage_without_proc_stat _ Hr) as [Hzero Hr1].
  destruct (system_monitor.GetCPUUsage (systemMonitor m)) as [cpu s1].
  cbn [fst snd] in Hzero, Hr1 |- *. subst cpu.
  split; [reflexivity|].
  assert (Hcpu : breach (Ok 0%float) (MaxCPUPercent limits) = None).
  { unfold breach, fgt. unfold flt in Hlimit. by rewrite Hlimit. }
  rewrite Hcpu.
  change (safety.GetMemoryUsage s1) with (system_monitor.GetMemoryUsage s1).
  destruct (system_monitor.GetMemoryUsage s1) as [mem s2] eqn:Hmem.
  assert (Hr2 : without_proc_stat s2).
  { replace s2 with (system_monitor.GetMemoryUsage s1).2 by (by rewrite Hmem). exact Hr1. }
  cbn [fst snd].
  destruct (breach mem (MaxMemoryPercent limits)) as [usage|];
    [split; [exact Hr2|]; split; [cbn; discriminate|reflexivity]|].
  cbn [systemMonitor set_systemMonitor].
  change (safety.GetDiskUsage s2) with (system_monitor.GetDiskUsage s2).
  destruct (system_monitor.GetDiskUsage s2) as [disk s3] eqn:Hdisk.
  assert (Hr3 : without_proc_stat s3).
  { replace s3 with (system_monitor.GetDiskUsage s2).2 by (by rewrite Hdisk). exact Hr2. }
  cbn [fst snd].
  destruct (breach disk (MaxDiskPercent limits)) as [usage|];
    [split; [exact Hr3|]; split; [cbn; discriminate|reflexivity]|].
  cbn [systemMonitor set_systemMonitor].
  change (safety.GetNetworkUsage s3) with (system_monitor.GetNetworkUsage s3).
  destruct (system_monitor.GetNetworkUsage s3) as [net s4] eqn:Hnet.
  assert (Hr4 : without_proc_stat s4).
  { replace s4 with (system_monitor.GetNetworkUsage s3).2 by (by rewrite Hnet). exact Hr3. }
  cbn [fst snd].
  destruct (breach net (MaxNetworkMbps limits)) as [usage|];
    [split; [exact Hr4|]; split; [cbn; discriminate|reflexivity]|].
  split; [exact Hr4|]. split; [exact I|reflexivity].
Qed.

(** A first tick and a second one on a host without /proc, under the
    limits of the CPU workload: the CPU reads 0 and the memory 1.6%, and
    the disk, 60% full against a limit of 50%, is what is reported. *)
Lemma no_cpu_violation_without_proc_stat_witness :
  let limits := cpu_GetSafetyLimits NewCPUStressPlugin in
  let m1 := (CheckSafetyLimits limits Second Second scenarios.shipped_monitor).2 in
  v_Type <$> (CheckSafetyLimits limits (2 * Second) (2 * Second) m1).1 = Some "disk".
Proof.
  intros limits m1.
  assert (Hfirst : without_proc_stat (systemMonitor m1)).
  { apply (no_cpu_violation_without_proc_stat limits Second Second
             scenarios.shipped_monitor); [|vm_compute; reflexivity].
    split; [intros k; split; reflexivity|left; reflexivity]. }
  destruct (no_cpu_violation_without_proc_stat limits (2 * Second) (2 * Second) m1
              Hfirst) as (_ & _ & _ & Hchecked); [vm_compute; reflexivity|].
  rewrite Hchecked. vm_compute. reflexivity.
Defined.

(** X26.  The temperature reading of the shipped system monitor never
    fails.  It is the content of the first thermal zone file that can be
    read and parsed, divided by 1000; when neither of the two files can,
    it is 35 degrees, and the temperature check of the safety monitor then
    records no violation and asks for no stop. *)
Theorem temperature_reading_never_fails :
  forall (clk : TickClock) (m : Monitor Running),
    let r := systemMonitor m in
    let h := host r (calls r) in
    (exists temp, (system_monitor.GetSystemTemperature r).1 = Ok temp)
    /\ (forall milli,
          thermal_zone h "/sys/class/thermal/thermal_zone0/temp" = Ok milli ->
          (system_monitor.GetSystemTemperature r).1
          = Ok (PrimFloat.div milli 1000%float))
    /\ (forall e milli,
          thermal_zone h "/sys/class/thermal/thermal_zone0/temp" = Err e ->
          thermal_zone h "/sys/class/thermal/thermal_zone1/temp" = Ok milli ->
          (system_monitor.GetSystemTemperature r).1
          = Ok (PrimFloat.div milli 1000%float))
    /\ (forall e0 e1,
          thermal_zone h "/sys/class/thermal/thermal_zone0/temp" = Err e0 ->
          thermal_zone h "/sys/class/thermal/thermal_zone1/temp" = Err e1 ->
          (system_monitor.GetSystemTemperature r).1 = Ok 35%float
          /\ violations (checkTemperature clk m) = violations m
          /\ alertManager (checkTemperature clk m) = alertManager m
          /\ stopRequests (checkTemperature clk m) = stopRequests m).
Proof.
  intros clk m r h. split; [by eexists|].
  unfold system_monitor.GetSystemTemperature, tempFiles, readTemperatureFile.
  fold r. fold h. cbn [fst]. split; [|split].
  - intros milli ->. reflexivity.
  - intros e milli -> ->. reflexivity.
  - intros e0 e1 Hzone0 Hzone1. rewrite Hzone0, Hzone1.
    split; [reflexivity|].
    unfold checkTemperature.
    change (safety.GetSystemTemperature (systemMonitor m))
      with (system_monitor.GetSystemTemperature r).
    unfold system_monitor.GetSystemTemperature, tempFiles, readTemperatureFile.
    fold h. rewrite Hzone0, Hzone1.
    change (fgt 35%float 85%float) with false. cbv iota.
    split; [reflexivity|]. split; reflexivity.
Qed.

End SystemMonitorFacts.

(** ** The I/O workload: where an operation lands, and the scratch files *)

(** X27.  A block operation stays inside the scratch file: with a block
    size that is at most the file size, the offset it seeks to is never
    negative and the block ends at or before the end of the file.  In
    sequential mode the offset is 0 at every operation, so that mode reads
    and writes the first block over and over; in random mode with blocks
    smaller than the file the block always ends before the last byte of the
    file, which is therefore never read or written. *)
Theorem operation_stays_inside_file :
  forall (nanos : Z) (i : IOStressPlugin),
    0 <= nanos ->
    0 <= blockSizeBytes i <= fileSizeBytes i ->
    fileSizeBytes i <= int64_max ->
    let offset := operation_offset nanos i in
    0 <= offset
    /\ offset + blockSizeBytes i <= fileSizeBytes i
    /\ (Sequential (io_config i) = true -> offset = 0)
    /\ (Sequential (io_config i) = false ->
        blockSizeBytes i < fileSizeBytes i ->
        offset = nanos mod (fileSizeBytes i - blockSizeBytes i)
        /\ offset + blockSizeBytes i < fileSizeBytes i).
Proof.
  intros nanos i Hnanos Hblock Hfile. cbv zeta. unfold operation_offset.
  rewrite wrap64_id by (unfold int64_min, int64_max in *; lia).
  destruct (Sequential (io_config i)).
  - repeat split; try lia; discriminate.
  - destruct (Z.ltb_spec 0 (fileSizeBytes i - blockSizeBytes i)) as [Hroom|Hnone].
    + pose proof (Z.rem_bound_pos nanos (fileSizeBytes i - blockSizeBytes i)
                    Hnanos Hroom) as Hrem.
      split; [lia|]. split; [lia|]. split; [discriminate|].
      intros _ _. split; [|lia]. apply Z.rem_mod_nonneg; lia.
    + split; [lia|]. split; [lia|]. split; [discriminate|]. intros _ Hlt. lia.
Qed.

(** A file of 1 MB in blocks of 64 KB, at some clock reading. *)
Lemma operation_stays_inside_file_witness :
  let i := scenarios.io_sized "1MB" "64KB" in
  let offset := operation_offset 1700000000123456789 i in
  0 <= offset /\ offset + 65536 < 1048576.
Proof.
  intros i offset.
  destruct (operation_stays_inside_file 1700000000123456789 i)
    as (Hlow & _ & _ & Hrandom); [lia|vm_compute; split; discriminate
                                 |vm_compute; discriminate|].
  split; [exact Hlow|]. apply Hrandom; reflexivity.
Defined.

(** The scratch files [createTestFiles] has recorded when it stops at
    worker [w + done], or gets through. *)
Lemma createTestFiles_from_files env view (failing : option (nat * error)) :
  forall (todo : nat) (w : nat) (i : IOStressPlugin),
    (forall k, polls view k = None) ->
    let name k := testFileName env (TempDir (io_config i)) (Z.of_nat k) in
    let made := match failing with
                | Some (k, _) => Nat.min (k - w) todo
                | None => todo
                end in
    (forall k, (w <= k < w + made)%nat -> createFile env (name k) = None) ->
    match failing with
    | Some (k, e) => (w <= k)%nat /\ createFile env (name k) = Some e
    | None => True
    end ->
    exists i',
      createTestFiles_from env view todo (Z.of_nat w) i
      = Returns match failing with
                | Some (k, e) =>
                    if (k <? w + todo)%nat
                    then Some (Errorf "failed to create test file %s: %w"
                                      [ArgStr (name k)] (Some e))
                    else None
                | None => None
                end i'
      /\ testFiles i' = testFiles i ++ (name <$> seq w made)
      /\ io_config i' = io_config i /\ io_metrics i' = io_metrics i
      /\ io_stopChan i' = io_stopChan i
      /\ fileSizeBytes i' = fileSizeBytes i /\ blockSizeBytes i' = blockSizeBytes i.
Proof.
  induction todo as [|todo IH]; intros w i Hlive name made Hgood Hbad.
  - exists i. cbn [createTestFiles_from].
    assert (made = 0%nat) as -> by (unfold made; destruct failing as [[k e]|]; lia).
    rewrite app_nil_r.
    assert (Hres : match failing with
                   | Some (k, e) =>
                       if (k <? w + 0)%nat
                       then Some (Errorf "failed to create test file %s: %w"
                                         [ArgStr (name k)] (Some e))
                       else None
                   | None => None
                   end = None).
    { destruct failing as [[k e]|]; [|reflexivity].
      destruct Hbad as [Hk _]. destruct (Nat.ltb_spec k (w + 0)); [lia|reflexivity]. }
    rewrite Hres. by repeat split.
  - cbn [createTestFiles_from]. rewrite Nat2Z.id, Hlive. fold (name w).
    destruct (createFile env (name w)) as [e'|] eqn:Hcreate.
    + destruct failing as [[k e]|].
      * destruct Hbad as [Hk Hfail].
        destruct (Nat.eq_dec k w) as [->|Hne].
        -- exists i. rewrite Hfail in Hcreate. injection Hcreate as <-.
           destruct (Nat.ltb_spec w (w + S todo)); [|lia].
           assert (made = 0%nat) as -> by (unfold made; lia).
           rewrite app_nil_r. by repeat split.
        -- rewrite Hgood in Hcreate by (unfold made; lia). discriminate.
      * rewrite Hgood in Hcreate by (unfold made; lia). discriminate.
    + set (i1 := {| io_config := io_config i; io_metrics := io_metrics i;
                    testFiles := testFiles i ++ [name w];
                    io_stopChan := io_stopChan i; fileSizeBytes := fileSizeBytes i;
                    blockSizeBytes := blockSizeBytes i |}).
      assert (Hw : (w < match failing with Some (k, _) => k | None => S w end)%nat).
      { destruct failing as [[k e]|]; [|lia]. destruct Hbad as [Hk Hfail].
        destruct (Nat.eq_dec k w) as [->|]; [congruence|lia]. }
      replace (Z.of_nat w + 1) with (Z.of_nat (S w)) by lia.
      destruct (IH (S w) i1 Hlive) as (i' & Hrun & Hfiles & Hrest).
      * intros k Hk. apply Hgood. unfold made. destruct failing as [[k0 e]|]; lia.
      * destruct failing as [[k e]|]; [|exact I]. destruct Hbad as [Hk Hfail].
        split; [lia|exact Hfail].
      * exists i'. split; [|split; [|exact Hrest]].
        -- rewrite Hrun. f_equal. destruct failing as [[k e]|]; [|reflexivity].
           replace (S w + todo)%nat with (w + S todo)%nat by lia. reflexivity.
        -- rewrite Hfiles. cbn [testFiles i1]. rewrite <- app_assoc. f_equal.
           assert (Hmade : made = S match failing with
                                    | Some (k, _) => Nat.min (k - S w) todo
                                    | None => todo
                                    end).
           { unfold made. destruct failing as [[k e]|]; lia. }
           rewrite Hmade. reflexivity.
Qed.

(** X28.  [createTestFiles] creates one scratch file per worker, in worker
    order, and records each name once the file is written: when every file
    can be created it returns nil with the names of workers 0, 1, ... added
    to the list, so that worker [k] finds its own file at index [k] of a
    list that was empty before.  When the file of worker [k] cannot be
    created it returns that error with the file's name, and the files of
    the workers before [k] stay on the list (for [Cleanup] to remove). *)
Theorem createTestFiles_records_one_file_per_worker :
  forall (env : Env) (view : View) (i : IOStressPlugin) (failing : option (nat * error)),
    (forall k, polls view k = None) ->
    let workers := Z.to_nat (io_Workers (io_config i)) in
    let name k := testFileName env (TempDir (io_config i)) (Z.of_nat k) in
    let made := match failing with Some (k, _) => k | None => workers end in
    (forall k, (k < made)%nat -> createFile env (name k) = None) ->
    match failing with
    | Some (k, e) => (k < workers)%nat /\ createFile env (name k) = Some e
    | None => True
    end ->
    exists i',
      createTestFiles env view i
      = Returns match failing with
                | Some (k, e) =>
                    Some (Errorf "failed to create test file %s: %w"
                                 [ArgStr (name k)] (Some e))
                | None => None
                end i'
      /\ testFiles i' = testFiles i ++ (name <$> seq 0 made)
      /\ (testFiles i = [] ->
          forall k, (k < made)%nat -> testFiles i' !! k = Some (name k)).
Proof.
  intros env view i failing Hlive workers name made Hgood Hbad.
  assert (Hmade : made = match failing with
                         | Some (k, _) => Nat.min (k - 0) workers
                         | None => workers
                         end).
  { unfold made. destruct failing as [[k e]|]; [|reflexivity]. lia. }
  destruct (createTestFiles_from_files env view failing workers 0%nat i Hlive)
    as (i' & Hrun & Hfiles & _).
  - cbv zeta. rewrite <- Hmade. intros k Hk. apply Hgood. lia.
  - destruct failing as [[k e]|]; [|exact I]. destruct Hbad as [Hk Hfail].
    split; [lia|exact Hfail].
  - cbv zeta in Hfiles. rewrite <- Hmade in Hfiles. fold name in Hfiles, Hrun.
    exists i'. split; [|split; [exact Hfiles|]].
    + unfold createTestFiles. fold workers. change 0 with (Z.of_nat 0).
      rewrite Hrun. f_equal. destruct failing as [[k e]|]; [|reflexivity].
      destruct Hbad as [Hk _]. destruct (Nat.ltb_spec k (0 + workers)); [reflexivity|lia].
    + intros Hempty k Hk. rewrite Hfiles, Hempty. cbn [app].
      rewrite list_lookup_fmap, lookup_seq_lt by exact Hk. reflexivity.
Qed.

(** Four workers on a host where every file can be written. *)
Lemma createTestFiles_records_one_file_per_worker_witness :
  exists i',
    createTestFiles scenarios.host scenarios.live (scenarios.io_sized "1MB" "64KB")
    = Returns None i'
    /\ length (testFiles i') = 4%nat.
Proof.
  destruct (createTestFiles_records_one_file_per_worker scenarios.host scenarios.live
              (scenarios.io_sized "1MB" "64KB") None)
    as (i' & Hrun & Hfiles & _); [reflexivity|reflexivity|exact I|].
  exists i'. split; [exact Hrun|]. rewrite Hfiles. reflexivity.
Defined.

(** ** The limits of the workloads against the thresholds of the monitor *)

(** X29.  Under the safety configuration the orchestrator sets up (alert
    threshold 85, emergency threshold 95, which [NewMonitor] keeps), the
    limits the workloads declare leave no room below the thresholds: the
    CPU workload allows 95% CPU, so every CPU violation found during a CPU
    test is of severity Critical and carries the critical flag (the one
    that makes [monitorSafety] stop the test); the memory workload allows
    85% memory, so a memory violation during a memory test is of severity
    Error or Critical, never a Warning. *)
Theorem workload_limits_meet_the_thresholds :
  forall (S : Type) (sm : safety.SystemMonitor S) (s : S) (limits : SafetyLimits)
         (now now_rec : Time) (m m' : safety.Monitor S) (v : safety.Violation)
         (c : CPUStressPlugin) (mp : MemoryStressPlugin),
    safety.config m = safety.config (safety.NewMonitor s safetyConfig) ->
    safety.CheckSafetyLimits limits now now_rec m = (Some v, m') ->
    safety.config m = safetyConfig
    /\ (limits = GetSafetyLimits c ->
        safety.v_Type v = "cpu" ->
        safety.v_Severity v = safety.SeverityCritical /\ safety.v_Critical v = true)
    /\ (limits = GetSafetyLimits mp ->
        safety.v_Type v = "memory" ->
        safety.v_Severity v = safety.SeverityError
        \/ safety.v_Severity v = safety.SeverityCritical).
Proof.
  intros S sm s limits t t_rec m m' v c mp Hconfig Hcheck.
  assert (Hcfg : safety.config m = safetyConfig) by (rewrite Hconfig; reflexivity).
  split; [exact Hcfg|].
  apply CheckSafetyLimits_Some in Hcheck as [_ Hshape]. rewrite Hcfg in Hshape.
  destruct Hshape as [(u & -> & Hgt)|[(u & -> & Hgt)|[(u & -> & Hgt)|(u & -> & Hgt)]]];
    (split; intros -> Htype; try (cbn in Htype; discriminate Htype)).
  - cbn in Hgt |- *. unfold safety.usage_severity. cbn.
    rewrite Hgt. by split.
  - cbn in Hgt |- *. unfold safety.usage_severity. cbn.
    rewrite Hgt. case_match; auto.
Qed.

(** The CPU at 99% during a CPU test. *)
Lemma workload_limits_meet_the_thresholds_witness :
  safety.v_Critical
    <$> (safety.CheckSafetyLimits (GetSafetyLimits NewCPUStressPlugin) Second Second
           (safety.NewMonitor scenarios.busy_host safetyConfig)).1
  = Some true.
Proof.
  destruct (safety.CheckSafetyLimits (GetSafetyLimits NewCPUStressPlugin) Second Second
              (safety.NewMonitor scenarios.busy_host safetyConfig))
    as [[v|] m'] eqn:Hcheck; [|vm_compute in Hcheck; discriminate].
  destruct (workload_limits_meet_the_thresholds _ _ scenarios.busy_host _ _ _ _ _ _
              NewCPUStressPlugin NewMemoryStressPlugin eq_refl Hcheck)
    as (_ & Hcpu & _).
  destruct (Hcpu eq_refl) as [_ Hcritical].
  - assert (Htype : safety.v_Type
                      <$> (safety.CheckSafetyLimits (GetSafetyLimits NewCPUStressPlugin)
                             Second Second
                             (safety.NewMonitor scenarios.busy_host safetyConfig)).1
                    = Some "cpu") by (vm_compute; reflexivity).
    rewrite Hcheck in Htype. by injection Htype.
  - cbn. by rewrite Hcritical.
Defined.
